(** * Vision-Match: the image fingerprint, the similarity score and the ranking

    A shallow embedding of the image processor (the module required as
    [../utils/imageProcessor]: the feature extraction pipeline,
    [combineFeatures], the three similarity metrics and
    [findAdvancedSimilarProducts]) and of the ranking helpers of the upload
    route in [server/data/seedProducts.js] ([combineSearchResults],
    [calculateSearchConfidence]).

    Number model.  The source is read in two ways.  In the modules of the
    pipeline, the ranking and [Similarity] a JavaScript number is a real
    number: the arithmetic of the source is read as exact arithmetic, so
    rounding, overflow and NaN are outside that reading.  Every division
    of the source whose value a theorem depends on is either guarded by the
    source itself or taken where its divisor is not 0, by a hypothesis of
    that theorem.  In the module [Binary64] the similarity engine is read
    with the numbers of the engine that runs it, the binary64
    floating-point numbers: there every operation rounds, and the results
    of the two readings are compared on concrete vectors.
    An array of numbers is a list; an absent array ([null] /
    [undefined]) is [None]. *)

From Stdlib Require Import String Ascii Strings.Byte.
From Stdlib Require Import Reals Lra Lia ZArith Bool List Sorted Permutation.
From Stdlib Require Floats Uint63.
Import ListNotations.
Open Scope R_scope.

(** ** JavaScript primitives used by the source *)

Module JS.

(** [a === b], [a < b], [a > b] on numbers. *)
Definition eqb (a b : R) : bool := if Req_dec_T a b then true else false.
Definition ltb (a b : R) : bool := if Rlt_dec a b then true else false.
Definition gtb (a b : R) : bool := ltb b a.

(** [v || d] on a number: [0] is falsy. *)
Definition or_default (v d : R) : R := if eqb v 0 then d else v.

Definition Math_max (a b : R) : R := Rmax a b.
Definition Math_min (a b : R) : R := Rmin a b.
Definition Math_abs (a : R) : R := Rabs a.
Definition Math_sqrt (a : R) : R := sqrt a.
Definition Math_floor (a : R) : Z := Zfloor a.

(** [arr[i]] on an array of numbers that is read inside its bounds. *)
Definition get (arr : list R) (i : nat) : R := nth i arr 0.

(** [for (let i = 0; i < n; i++) body], threading the loop's variables. *)
Definition for_range {S : Type} (n : nat) (body : S -> nat -> S) (init : S) : S :=
  fold_left body (seq 0 n) init.

(** [arr.reduce((sum, x) => f(sum, x), init)]. *)
Definition reduce {A S : Type} (f : S -> A -> S) (init : S) (arr : list A) : S :=
  fold_left f arr init.

(** [obj[key]] on an object literal with number values; [None] is
    [undefined].  Names inherited from [Object.prototype] are outside the
    model. *)
Fixpoint lookup (key : string) (obj : list (string * R)) : option R :=
  match obj with
  | [] => None
  | (k, v) :: rest => if String.eqb key k then Some v else lookup key rest
  end.

(** [arr.sort(compare)]: a stable insertion sort; [compare a b > 0] moves
    [a] behind [b].  Every sort that meets the language standard returns
    this list when [compare] orders the elements consistently.  Where
    [compare] is not consistent on the elements (it can be cyclic) the
    standard leaves the order to the engine: the theorems below state an
    order only of lists on which the comparator is consistent, and
    otherwise use only that the sort permutes its input. *)
Fixpoint insert {A : Type} (compare : A -> A -> R) (x : A) (sorted : list A) : list A :=
  match sorted with
  | [] => [x]
  | y :: rest =>
      if gtb (compare x y) 0 then y :: insert compare x rest
      else x :: y :: rest
  end.

Definition sort {A : Type} (compare : A -> A -> R) (arr : list A) : list A :=
  fold_right (insert compare) [] arr.

(** Descending order of a numeric key. *)
Definition desc {A : Type} (key : A -> R) (a b : A) : Prop := key b <= key a.

(** On the pair [(x, y)] the comparator decides by the key: [x] moves
    behind [y] only if its key is not larger, and stays in front only if
    its key is not smaller. *)
Definition by_key {A : Type} (compare : A -> A -> R) (key : A -> R) (x y : A) : Prop :=
  (gtb (compare x y) 0 = true -> key x <= key y)
  /\ (gtb (compare x y) 0 = false -> key y <= key x).

(** [s.toLowerCase()] on a string of ASCII characters. *)
Definition lower (c : ascii) : ascii :=
  let n := nat_of_ascii c in
  if (65 <=? n)%nat && (n <=? 90)%nat then ascii_of_nat (n + 32) else c.

Fixpoint toLowerCase (s : string) : string :=
  match s with
  | EmptyString => EmptyString
  | String c rest => String (lower c) (toLowerCase rest)
  end.

End JS.

(** ** Similarity scoring engine (image processor, lines 410-477) *)

Module Similarity.
Import JS.

(** [calculateCosineSimilarity]: one loop with three accumulators. *)
Definition calculateCosineSimilarity (features1 features2 : list R) : R :=
  let '(dotProduct, norm1, norm2) :=
    for_range (length features1)
      (fun acc i =>
         let '(dotProduct, norm1, norm2) := acc in
         (dotProduct + get features1 i * get features2 i,
          norm1 + get features1 i * get features1 i,
          norm2 + get features2 i * get features2 i))
      (0, 0, 0) in
  if eqb norm1 0 || eqb norm2 0 then 0
  else dotProduct / (Math_sqrt norm1 * Math_sqrt norm2).

(** [calculateEuclideanSimilarity]; [Math.pow(x, 2)] is [x ^ 2]. *)
Definition calculateEuclideanSimilarity (features1 features2 : list R) : R :=
  let squaredSum :=
    for_range (length features1)
      (fun squaredSum i => squaredSum + (get features1 i - get features2 i) ^ 2)
      0 in
  let distance := Math_sqrt squaredSum in
  1 / (1 + distance).

(** [calculateCorrelationSimilarity]. *)
Definition calculateCorrelationSimilarity (features1 features2 : list R) : R :=
  let n := length features1 in
  let mean1 := reduce (fun sum val => sum + val) 0 features1 / INR n in
  let mean2 := reduce (fun sum val => sum + val) 0 features2 / INR n in
  let '(numerator, sum1Sq, sum2Sq) :=
    for_range n
      (fun acc i =>
         let '(numerator, sum1Sq, sum2Sq) := acc in
         let diff1 := get features1 i - mean1 in
         let diff2 := get features2 i - mean2 in
         (numerator + diff1 * diff2,
          sum1Sq + diff1 * diff1,
          sum2Sq + diff2 * diff2))
      (0, 0, 0) in
  let denominator := Math_sqrt (sum1Sq * sum2Sq) in
  if eqb denominator 0 then 0 else Math_abs (numerator / denominator).

(** [calculateAdvancedSimilarity].  [!features] holds exactly of an absent
    array: an empty array is truthy in JavaScript. *)
Definition calculateAdvancedSimilarity (features1 features2 : option (list R)) : R :=
  match features1, features2 with
  | Some f1, Some f2 =>
      if negb (Nat.eqb (length f1) (length f2)) then 0
      else
        let cosineSim := calculateCosineSimilarity f1 f2 in
        let euclideanSim := calculateEuclideanSimilarity f1 f2 in
        let correlationSim := calculateCorrelationSimilarity f1 f2 in
        let finalSimilarity :=
          cosineSim * 0.5 + euclideanSim * 0.3 + correlationSim * 0.2 in
        Math_max 0 (Math_min 1 finalSimilarity)
  | _, _ => 0
  end.

(** *** The metrics as the specification words them *)

Fixpoint dot (a b : list R) : R :=
  match a, b with
  | x :: a', y :: b' => x * y + dot a' b'
  | _, _ => 0
  end.

Fixpoint total (a : list R) : R :=
  match a with
  | [] => 0
  | x :: a' => x + total a'
  end.

Fixpoint vsub (a b : list R) : list R :=
  match a, b with
  | x :: a', y :: b' => (x - y) :: vsub a' b'
  | _, _ => []
  end.

Definition norm (a : list R) : R := sqrt (dot a a).
Definition mean (a : list R) : R := total a / INR (length a).
Definition centered (a : list R) : list R := map (fun x => x - mean a) a.

(** Sum of squared deviations from the mean: [n] times the population
    variance; it is zero exactly when the variance is. *)
Definition deviation (a : list R) : R := dot (centered a) (centered a).

(** Population variance of the elements. *)
Definition variance (a : list R) : R := deviation a / INR (length a).

Definition clamp (x lo hi : R) : R := Rmax lo (Rmin hi x).

(** Cosine similarity = (a.b)/(|a| |b|); 0 if either norm is 0. *)
Definition cosine_spec (a b : list R) : R :=
  if eqb (norm a) 0 || eqb (norm b) 0 then 0
  else dot a b / (norm a * norm b).

(** Euclidean similarity = 1/(1 + |a - b|). *)
Definition euclidean_spec (a b : list R) : R := 1 / (1 + norm (vsub a b)).

(** Correlation similarity = |Pearson correlation|; 0 if either vector has
    zero variance. *)
Definition pearson (a b : list R) : R :=
  dot (centered a) (centered b) / (sqrt (deviation a) * sqrt (deviation b)).

Definition correlation_spec (a b : list R) : R :=
  if eqb (deviation a) 0 || eqb (deviation b) 0 then 0
  else Rabs (pearson a b).

Definition combined_spec (a b : list R) : R :=
  clamp (0.5 * cosine_spec a b + 0.3 * euclidean_spec a b
         + 0.2 * correlation_spec a b) 0 1.

End Similarity.

(** ** The similarity engine on binary64 numbers (image processor,
       lines 410-477)

    The four functions of [Similarity] once more, with the numbers of the
    JavaScript engine: [+], [-], [*], [/] and [Math.sqrt] round to the
    nearest binary64 number, and [=== 0] compares two such numbers. *)

Module Binary64.
Import JS PrimFloat.
#[local] Set Warnings "-inexact-float".
#[local] Open Scope float_scope.

(** [arr[i]] as an operand: outside the array the read is [undefined],
    which is NaN in arithmetic. *)
Definition get (arr : list float) (i : nat) : float := nth i arr nan.

(** [arr.length] as an operand. *)
Definition ofLength (n : nat) : float := of_uint63 (Uint63.of_Z (Z.of_nat n)).

Definition isNegativeZero (a : float) : bool :=
  match classify a with
  | FloatClass.NZero => true
  | _ => false
  end.

(** [Math.min(a, b)] and [Math.max(a, b)]: NaN if an argument is NaN, and
    -0 is smaller than +0. *)
Definition Math_min (a b : float) : float :=
  if is_nan a || is_nan b then nan
  else if a <? b then a
  else if b <? a then b
  else if isNegativeZero a then a else b.

Definition Math_max (a b : float) : float :=
  if is_nan a || is_nan b then nan
  else if a <? b then b
  else if b <? a then a
  else if isNegativeZero a then b else a.

Definition Math_sqrt (a : float) : float := sqrt a.
Definition Math_abs (a : float) : float := abs a.

(** [calculateCosineSimilarity] *)
Definition calculateCosineSimilarity (features1 features2 : list float) : float :=
  let '(dotProduct, norm1, norm2) :=
    for_range (length features1)
      (fun acc i =>
         let '(dotProduct, norm1, norm2) := acc in
         (dotProduct + get features1 i * get features2 i,
          norm1 + get features1 i * get features1 i,
          norm2 + get features2 i * get features2 i))
      (0, 0, 0) in
  if (norm1 =? 0) || (norm2 =? 0) then 0
  else dotProduct / (Math_sqrt norm1 * Math_sqrt norm2).

(** [calculateEuclideanSimilarity]; [Math.pow(d, 2)] is read as [d * d].
    The two agree at [d = 0], the only difference that the vectors
    evaluated below produce. *)
Definition calculateEuclideanSimilarity (features1 features2 : list float) : float :=
  let squaredSum :=
    for_range (length features1)
      (fun squaredSum i =>
         squaredSum
         + (get features1 i - get features2 i) * (get features1 i - get features2 i))
      0 in
  let distance := Math_sqrt squaredSum in
  1 / (1 + distance).

(** [calculateCorrelationSimilarity] *)
Definition calculateCorrelationSimilarity (features1 features2 : list float) : float :=
  let n := length features1 in
  let mean1 := reduce (fun sum val => sum + val) 0 features1 / ofLength n in
  let mean2 := reduce (fun sum val => sum + val) 0 features2 / ofLength n in
  let '(numerator, sum1Sq, sum2Sq) :=
    for_range n
      (fun acc i =>
         let '(numerator, sum1Sq, sum2Sq) := acc in
         let diff1 := get features1 i - mean1 in
         let diff2 := get features2 i - mean2 in
         (numerator + diff1 * diff2,
          sum1Sq + diff1 * diff1,
          sum2Sq + diff2 * diff2))
      (0, 0, 0) in
  let denominator := Math_sqrt (sum1Sq * sum2Sq) in
  if denominator =? 0 then 0 else Math_abs (numerator / denominator).

(** [calculateAdvancedSimilarity] *)
Definition calculateAdvancedSimilarity (features1 features2 : option (list float))
  : float :=
  match features1, features2 with
  | Some f1, Some f2 =>
      if negb (Nat.eqb (length f1) (length f2)) then 0
      else
        let cosineSim := calculateCosineSimilarity f1 f2 in
        let euclideanSim := calculateEuclideanSimilarity f1 f2 in
        let correlationSim := calculateCorrelationSimilarity f1 f2 in
        let finalSimilarity :=
          cosineSim * 0.5 + euclideanSim * 0.3 + correlationSim * 0.2 in
        Math_max 0 (Math_min 1 finalSimilarity)
  | _, _ => 0
  end.

End Binary64.

(** ** Feature extraction pipeline (image processor, lines 1-408, 520-627)

    The image library ([sharp]) and the HTTP client ([axios]) are external:
    they are the parameters [decode], [resample] and [download] below, and
    [None] stands for a rejected promise.  [sharp] delivers a raw buffer of
    exactly [size * size * channels] bytes, so every buffer read of the
    source falls inside the buffer; the model reads buffers under that
    contract.  [Math.random] is the parameter [random], indexed by the draw.
    A [try { body } catch { return fallback }] block is [try_catch]: the
    body is a computation in the option monad and [None] is a thrown
    exception. *)

Module Pipeline.
Import JS.

Inductive ColorMode := RGB | Grayscale.

Definition try_catch {A : Type} (body : option A) (fallback : A) : A :=
  match body with
  | Some v => v
  | None => fallback
  end.

Definition bind {A B : Type} (m : option A) (k : A -> option B) : option B :=
  match m with
  | Some v => k v
  | None => None
  end.

Notation "'await' x <- m ;; k" := (bind m (fun x => k))
  (at level 61, x name, m at next level, right associativity).

(** A byte of a buffer, read as a JavaScript number. *)
Definition byteZ (b : byte) : Z := Z.of_N (Byte.to_N b).

(** [buffer[i]] for an index inside the buffer. *)
Definition px (buffer : list byte) (i : Z) : Z := byteZ (nth (Z.to_nat i) buffer x00).

(** The indices [lo, lo+1, ..., hi-1] of a counting loop. *)
Definition zrange (lo hi : Z) : list Z :=
  map (fun i => (lo + Z.of_nat i)%Z) (seq 0 (Z.to_nat (hi - lo))).

(** [arr[index]++] and [arr[index] = v] on an array of numbers.  A
    negative index leaves the elements and the length alone; an index at or
    beyond the length would grow the array, which no caller below does
    (see [PipelineFacts.hist_index_bound] and its siblings). *)
Fixpoint update {A : Type} (arr : list A) (i : nat) (f : A -> A) : list A :=
  match arr, i with
  | [], _ => []
  | v :: rest, O => f v :: rest
  | v :: rest, S i' => v :: update rest i' f
  end.

Definition increment (arr : list R) (index : Z) : list R :=
  if (index <? 0)%Z then arr else update arr (Z.to_nat index) (fun v => v + 1).

Definition assign (arr : list R) (index : Z) (v : R) : list R :=
  if (index <? 0)%Z then arr else update arr (Z.to_nat index) (fun _ => v).

(** [x % y] on numbers: the remainder has the sign of the dividend. *)
Definition trunc (x : R) : Z := if Rlt_dec x 0 then Zceil x else Zfloor x.
Definition rem (x y : R) : R := x - y * IZR (trunc (x / y)).

(** [Math.max(...arr)] of a non-empty array. *)
Definition Math_max_spread (arr : list R) : R :=
  match arr with
  | [] => 0
  | v :: rest => fold_left Rmax rest v
  end.

(** [rgbToHsv] *)
Definition rgbToHsv (r g b : R) : R * R * R :=
  let max := Math_max r (Math_max g b) in
  let min := Math_min r (Math_min g b) in
  let diff := max - min in
  let h :=
    if negb (eqb diff 0) then
      if eqb max r then rem ((g - b) / diff) 6
      else if eqb max g then (b - r) / diff + 2
      else (r - g) / diff + 4
    else 0 in
  let h := h / 6 in
  let h := if ltb h 0 then h + 1 else h in
  let s := if eqb max 0 then 0 else diff / max in
  let v := max in
  (h, s, v).

(** [for (let i = 0; i < buffer.length; i += 3)] reading
    [buffer[i], buffer[i+1], buffer[i+2]]. *)
Fixpoint rgb_triples (buffer : list byte) : list (Z * Z * Z) :=
  match buffer with
  | r :: g :: b :: rest => (byteZ r, byteZ g, byteZ b) :: rgb_triples rest
  | _ => []
  end.

(** The bin index of one HSV pixel in the 16x8x8 histogram. *)
Definition hist_index (hsv : R * R * R) : Z :=
  let '(h, s, v) := hsv in
  let hBins := 16%Z in
  let sBins := 8%Z in
  let vBins := 8%Z in
  let hBin := Z.min (Math_floor (h * 16)) (hBins - 1) in
  let sBin := Z.min (Math_floor (s * 8)) (sBins - 1) in
  let vBin := Z.min (Math_floor (v * 8)) (vBins - 1) in
  (hBin * sBins * vBins + sBin * vBins + vBin)%Z.

(** The body of [extractColorHistogram] after the resampling. *)
Definition colorHistogram_of (sampleBuffer : list byte) : list R :=
  let pixels :=
    map (fun p => let '(r, g, b) := p in
                  rgbToHsv (IZR r / 255) (IZR g / 255) (IZR b / 255))
        (rgb_triples sampleBuffer) in
  let histogram := repeat 0 (16 * 8 * 8) in
  let histogram :=
    fold_left (fun histogram hsv => increment histogram (hist_index hsv))
              pixels histogram in
  let total := length pixels in
  map (fun count => count / INR total) histogram.

(** Sobel kernels. *)
Definition sobelX : list Z := [-1; 0; 1; -2; 0; 2; -1; 0; 1]%Z.
Definition sobelY : list Z := [-1; -2; -1; 0; 0; 0; 1; 2; 1]%Z.

Definition sobel (grayBuffer : list byte) (edgeWidth x y : Z) : R :=
  let '(gx, gy) :=
    fold_left (fun acc ky =>
      fold_left (fun acc kx =>
        let '(gx, gy) := acc in
        let pixel := px grayBuffer ((y + ky) * edgeWidth + (x + kx)) in
        let kernelIndex := Z.to_nat ((ky + 1) * 3 + (kx + 1)) in
        (gx + pixel * nth kernelIndex sobelX 0,
         gy + pixel * nth kernelIndex sobelY 0)%Z)
        [-1; 0; 1]%Z acc)
      [-1; 0; 1]%Z (0, 0)%Z in
  Math_sqrt (IZR (gx * gx + gy * gy)).

Definition edge_bin (maxEdge strength : R) : Z :=
  Z.min (Math_floor (strength / maxEdge * 16)) (16 - 1).

(** The body of [extractEdgeFeatures] after the resampling. *)
Definition edgeFeatures_of (grayBuffer : list byte) : list R :=
  let edgeWidth := 64%Z in
  let edgeHeight := 64%Z in
  let edgeStrength := repeat 0 (Z.to_nat (edgeWidth * edgeHeight)) in
  let edgeStrength :=
    fold_left (fun es y =>
      fold_left (fun es x =>
        assign es (y * edgeWidth + x) (sobel grayBuffer edgeWidth x y))
        (zrange 1 (edgeWidth - 1)) es)
      (zrange 1 (edgeHeight - 1)) edgeStrength in
  let bins := 16%nat in
  let maxEdge := Math_max_spread edgeStrength in
  let edgeHist := repeat 0 bins in
  let edgeHist :=
    if gtb maxEdge 0 then
      fold_left (fun edgeHist strength =>
                   increment edgeHist (edge_bin maxEdge strength))
                edgeStrength edgeHist
    else edgeHist in
  let total := length edgeStrength in
  map (fun count => count / INR total) edgeHist.

(** The 8-bit local binary pattern of the pixel at [(x, y)]. *)
Definition lbp (grayBuffer : list byte) (textureWidth x y : Z) : Z :=
  let center := px grayBuffer (y * textureWidth + x) in
  let neighbors :=
    [ px grayBuffer ((y - 1) * textureWidth + (x - 1));
      px grayBuffer ((y - 1) * textureWidth + x);
      px grayBuffer ((y - 1) * textureWidth + (x + 1));
      px grayBuffer (y * textureWidth + (x + 1));
      px grayBuffer ((y + 1) * textureWidth + (x + 1));
      px grayBuffer ((y + 1) * textureWidth + x);
      px grayBuffer ((y + 1) * textureWidth + (x - 1));
      px grayBuffer (y * textureWidth + (x - 1)) ]%Z in
  fold_left (fun lbpValue i =>
               if (center <=? nth (Z.to_nat i) neighbors 0)%Z
               then Z.lor lbpValue (Z.shiftl 1 i)
               else lbpValue)
            (zrange 0 8) 0%Z.

(** The body of [extractTextureFeatures] after the resampling. *)
Definition textureFeatures_of (grayBuffer : list byte) : list R :=
  let textureWidth := 64%Z in
  let textureHeight := 64%Z in
  let lbpHistogram := repeat 0 256 in
  let lbpHistogram :=
    fold_left (fun hist y =>
      fold_left (fun hist x =>
        increment hist (lbp grayBuffer textureWidth x y))
        (zrange 1 (textureWidth - 1)) hist)
      (zrange 1 (textureHeight - 1)) lbpHistogram in
  let total := ((textureWidth - 2) * (textureHeight - 2))%Z in
  map (fun count => count / IZR total) lbpHistogram.

(** [calculatePerimeter] *)
Definition calculatePerimeter (binaryBuffer : list byte) (width height threshold : Z) : Z :=
  fold_left (fun perimeter y =>
    fold_left (fun perimeter x =>
      let current := (threshold <? px binaryBuffer (y * width + x))%Z in
      if current then
        let neighbors :=
          [ if (0 <? y)%Z
            then (threshold <? px binaryBuffer ((y - 1) * width + x))%Z else false;
            if (x <? width - 1)%Z
            then (threshold <? px binaryBuffer (y * width + (x + 1)))%Z else false;
            if (y <? height - 1)%Z
            then (threshold <? px binaryBuffer ((y + 1) * width + x))%Z else false;
            if (0 <? x)%Z
            then (threshold <? px binaryBuffer (y * width + (x - 1)))%Z else false ] in
        if existsb negb neighbors then (perimeter + 1)%Z else perimeter
      else perimeter)
      (zrange 0 width) perimeter)
    (zrange 0 height) 0%Z.

(** The raw moments m00, m10, m01, m20, m11, m02 of the thresholded image. *)
Definition moments (grayBuffer : list byte) (shapeWidth shapeHeight threshold : Z)
  : Z * Z * Z * Z * Z * Z :=
  fold_left (fun acc y =>
    fold_left (fun acc x =>
      let '(m00, m10, m01, m20, m11, m02) := acc in
      let pixel :=
        if (threshold <? px grayBuffer (y * shapeWidth + x))%Z then 1%Z else 0%Z in
      (m00 + pixel, m10 + x * pixel, m01 + y * pixel,
       m20 + x * x * pixel, m11 + x * y * pixel, m02 + y * y * pixel)%Z)
      (zrange 0 shapeWidth) acc)
    (zrange 0 shapeHeight) (0, 0, 0, 0, 0, 0)%Z.

(** The body of [extractShapeFeatures] after the resampling. *)
Definition shapeFeatures_of (grayBuffer : list byte) : list R :=
  let shapeWidth := 64%Z in
  let shapeHeight := 64%Z in
  let threshold := 128%Z in
  let '(m00, m10, m01, m20, m11, m02) :=
    moments grayBuffer shapeWidth shapeHeight threshold in
  if (m00 =? 0)%Z then [0; 0; 0; 0; 0; 0; 0]
  else
    let xc := IZR m10 / IZR m00 in
    let yc := IZR m01 / IZR m00 in
    let mu20 := IZR m20 / IZR m00 - xc * xc in
    let mu11 := IZR m11 / IZR m00 - xc * yc in
    let mu02 := IZR m02 / IZR m00 - yc * yc in
    let eta20 := mu20 / IZR m00 ^ 2 in
    let eta11 := mu11 / IZR m00 ^ 2 in
    let eta02 := mu02 / IZR m00 ^ 2 in
    let hu1 := eta20 + eta02 in
    let hu2 := (eta20 - eta02) ^ 2 + 4 * eta11 * eta11 in
    let perimeter :=
      IZR (calculatePerimeter grayBuffer shapeWidth shapeHeight threshold) in
    let compactness :=
      if gtb perimeter 0 then (4 * PI * IZR m00) / (perimeter * perimeter) else 0 in
    let aspectRatio :=
      if gtb mu20 0 && gtb mu02 0 then Math_sqrt (mu20 / mu02) else 1 in
    [hu1; hu2; compactness; aspectRatio; eta20; eta11; eta02].

(** [euclideanDistance] on two RGB points. *)
Definition euclideanDistance (point1 point2 : R * R * R) : R :=
  let '(a0, a1, a2) := point1 in
  let '(b0, b1, b2) := point2 in
  Math_sqrt ((a0 - b0) ^ 2 + (a1 - b1) ^ 2 + (a2 - b2) ^ 2).

(** The inner [centroids.forEach]: the index of the nearest centroid.
    [minDist] starts at [Infinity], here [None]. *)
Definition closestCluster (centroids : list (R * R * R)) (pixel : R * R * R) : nat :=
  let '(_, closestCluster, _) :=
    fold_left (fun acc centroid =>
      let '(minDist, closestCluster, index) := acc in
      let dist := euclideanDistance pixel centroid in
      let closer :=
        match minDist with
        | None => true
        | Some m => ltb dist m
        end in
      if closer then (Some dist, index, S index)
      else (minDist, closestCluster, S index))
      centroids (None, O, O) in
  closestCluster.

(** One k-means iteration: assignment, then the new centroids. *)
Definition kmeans_step (k : nat) (pixels centroids : list (R * R * R))
  : list (R * R * R) :=
  let clusters := repeat (@nil (R * R * R)) k in
  let clusters :=
    fold_left (fun clusters pixel =>
                 update clusters (closestCluster centroids pixel)
                        (fun cluster => cluster ++ [pixel]))
              pixels clusters in
  map (fun cluster =>
         match cluster with
         | [] => (0, 0, 0)
         | _ =>
             let '(s0, s1, s2) :=
               reduce (fun acc pixel =>
                         let '(a0, a1, a2) := acc in
                         let '(p0, p1, p2) := pixel in
                         (a0 + p0, a1 + p1, a2 + p2))
                      (0, 0, 0) cluster in
             (s0 / INR (length cluster), s1 / INR (length cluster),
              s2 / INR (length cluster))
         end)
      clusters.

(** The initial centroids: [k] pixels drawn with [Math.random].  Spreading
    an [undefined] pixel throws. *)
Definition initial_centroids (random : nat -> R) (k : nat) (pixels : list (R * R * R))
  : option (list (R * R * R)) :=
  fold_left (fun centroids i =>
    await centroids <- centroids ;;
    let index := Math_floor (random i * INR (length pixels)) in
    await randomPixel <- nth_error pixels (Z.to_nat index) ;;
    Some (centroids ++ [randomPixel]))
    (seq 0 k) (Some []).

(** The body of [extractDominantColors] after the resampling. *)
Definition dominantColors_of (random : nat -> R) (resizedBuffer : list byte)
  : option (list R) :=
  let pixels :=
    map (fun p => let '(r, g, b) := p in (IZR r, IZR g, IZR b))
        (rgb_triples resizedBuffer) in
  let k := 5%nat in
  let maxIterations := 10%nat in
  await centroids <- initial_centroids random k pixels ;;
  let centroids :=
    for_range maxIterations (fun centroids _ => kmeans_step k pixels centroids)
              centroids in
  Some (map (fun val => val / 255)
            (flat_map (fun c => let '(c0, c1, c2) := c in [c0; c1; c2]) centroids)).

(** The body of [extractBrightnessFeatures] after the resampling;
    [Math.pow(variance, 1.5)] is read on a positive base. *)
Definition brightnessFeatures_of (grayBuffer : list byte) : list R :=
  let pixels := map (fun b => IZR (byteZ b)) grayBuffer in
  let mean := reduce (fun sum pixel => sum + pixel) 0 pixels / INR (length pixels) in
  let variance :=
    reduce (fun sum pixel => sum + (pixel - mean) ^ 2) 0 pixels
    / INR (length pixels) in
  let skewness :=
    if gtb variance 0 then
      reduce (fun sum pixel => sum + (pixel - mean) ^ 3) 0 pixels
      / (INR (length pixels) * Rpower variance 1.5)
    else 0 in
  [mean / 255; variance / (255 * 255); skewness].

(** The body of [extractContrastFeatures] after the resampling. *)
Definition contrastFeatures_of (grayBuffer : list byte) : list R :=
  let contrastWidth := 64%Z in
  let contrastHeight := 64%Z in
  let '(totalContrast, contrastCount) :=
    fold_left (fun acc y =>
      fold_left (fun acc x =>
        let '(totalContrast, contrastCount) := acc in
        let center := px grayBuffer (y * contrastWidth + x) in
        let neighbors :=
          [ px grayBuffer ((y - 1) * contrastWidth + x);
            px grayBuffer (y * contrastWidth + (x + 1));
            px grayBuffer ((y + 1) * contrastWidth + x);
            px grayBuffer (y * contrastWidth + (x - 1)) ]%Z in
        let localContrast :=
          reduce (fun sum neighbor => sum + IZR (Z.abs (center - neighbor)))
                 0 neighbors / 4 in
        (totalContrast + localContrast, S contrastCount))
        (zrange 1 (contrastWidth - 1)) acc)
      (zrange 1 (contrastHeight - 1)) (0, O) in
  let avgContrast :=
    if (0 <? contrastCount)%nat then totalContrast / INR contrastCount else 0 in
  [avgContrast / 255].

(** The [weights] object of [combineFeatures], in the order of its
    literal. *)
Definition weights : list (string * R) :=
  [ ("colorHistogram", 0.3); ("dominantColors", 0.25); ("edgeFeatures", 0.15);
    ("textureFeatures", 0.15); ("shapeFeatures", 0.1); ("brightness", 0.03);
    ("contrast", 0.02) ]%string.

(** The property names every object literal inherits from
    [Object.prototype]; [weights[name]] is then not a number. *)
Definition Object_prototype_names : list string :=
  [ "constructor"; "hasOwnProperty"; "isPrototypeOf"; "propertyIsEnumerable";
    "toLocaleString"; "toString"; "valueOf"; "__proto__"; "__defineGetter__";
    "__defineSetter__"; "__lookupGetter__"; "__lookupSetter__" ]%string.

(** [weights[featureType] || 0.1] *)
Definition weightOf (featureType : string) : R :=
  match lookup featureType weights with
  | Some w => or_default w 0.1
  | None => 0.1
  end.

(** [combineFeatures]: [Object.entries(features)] lists the own string
    keys of the object in insertion order, so the feature object is the
    association list of its literal. *)
Definition combineFeatures (features : list (string * list R)) : list R :=
  fold_left (fun combined entry =>
               let '(featureType, featureVector) := entry in
               let weight := weightOf featureType in
               let weightedFeatures := map (fun val => val * weight) featureVector in
               combined ++ weightedFeatures)
            features [].

(** The weighted concatenation of the seven named sub-vectors. *)
Definition layout (colorHistogram edgeFeatures textureFeatures shapeFeatures
                   dominantColors brightness contrast : list R) : list R :=
  map (fun val => val * 0.3) colorHistogram
  ++ map (fun val => val * 0.15) edgeFeatures
  ++ map (fun val => val * 0.15) textureFeatures
  ++ map (fun val => val * 0.1) shapeFeatures
  ++ map (fun val => val * 0.25) dominantColors
  ++ map (fun val => val * 0.03) brightness
  ++ map (fun val => val * 0.02) contrast.

(** The length D of a fingerprint: the sum of the seven fixed sub-vector
    lengths. *)
Definition fingerprint_length : nat := 1024 + 16 + 256 + 7 + 15 + 3 + 1.

Section Collaborators.

(** [sharp(imageBuffer).resize(224, 224).raw().toBuffer()] *)
Variable decode : list byte -> option (list byte).

(** [sharp(buffer, { raw: { width, height, channels: 3 } })
      .resize(size, size)[.grayscale()].raw().toBuffer()] *)
Variable resample : list byte -> nat -> nat -> nat -> ColorMode -> option (list byte).

(** [Math.random()], by the number of the draw. *)
Variable random : nat -> R.

(** [axios({ method: 'GET', url, responseType: 'arraybuffer' })] *)
Variable download : string -> option (list byte).

Definition extractColorHistogram_try (processedBuffer : list byte) (width height : nat)
  : option (list R) :=
  await sampleBuffer <- resample processedBuffer width height 128 RGB ;;
  Some (colorHistogram_of sampleBuffer).

Definition extractColorHistogram (processedBuffer : list byte) (width height : nat)
  : list R :=
  try_catch (extractColorHistogram_try processedBuffer width height) (repeat 0 1024).

Definition extractEdgeFeatures_try (processedBuffer : list byte) (width height : nat)
  : option (list R) :=
  await grayBuffer <- resample processedBuffer width height 64 Grayscale ;;
  Some (edgeFeatures_of grayBuffer).

Definition extractEdgeFeatures (processedBuffer : list byte) (width height : nat)
  : list R :=
  try_catch (extractEdgeFeatures_try processedBuffer width height) (repeat 0 16).

Definition extractTextureFeatures_try (processedBuffer : list byte) (width height : nat)
  : option (list R) :=
  await grayBuffer <- resample processedBuffer width height 64 Grayscale ;;
  Some (textureFeatures_of grayBuffer).

Definition extractTextureFeatures (processedBuffer : list byte) (width height : nat)
  : list R :=
  try_catch (extractTextureFeatures_try processedBuffer width height) (repeat 0 256).

Definition extractShapeFeatures_try (processedBuffer : list byte) (width height : nat)
  : option (list R) :=
  await grayBuffer <- resample processedBuffer width height 64 Grayscale ;;
  Some (shapeFeatures_of grayBuffer).

Definition extractShapeFeatures (processedBuffer : list byte) (width height : nat)
  : list R :=
  try_catch (extractShapeFeatures_try processedBuffer width height) (repeat 0 7).

Definition extractDominantColors_try (processedBuffer : list byte) (width height : nat)
  : option (list R) :=
  await resizedBuffer <- resample processedBuffer width height 32 RGB ;;
  dominantColors_of random resizedBuffer.

Definition extractDominantColors (processedBuffer : list byte) (width height : nat)
  : list R :=
  try_catch (extractDominantColors_try processedBuffer width height) (repeat 0 15).

Definition extractBrightnessFeatures_try (processedBuffer : list byte) (width height : nat)
  : option (list R) :=
  await grayBuffer <- resample processedBuffer width height 64 Grayscale ;;
  Some (brightnessFeatures_of grayBuffer).

Definition extractBrightnessFeatures (processedBuffer : list byte) (width height : nat)
  : list R :=
  try_catch (extractBrightnessFeatures_try processedBuffer width height) [0; 0; 0].

Definition extractContrastFeatures_try (processedBuffer : list byte) (width height : nat)
  : option (list R) :=
  await grayBuffer <- resample processedBuffer width height 64 Grayscale ;;
  Some (contrastFeatures_of grayBuffer).

Definition extractContrastFeatures (processedBuffer : list byte) (width height : nat)
  : list R :=
  try_catch (extractContrastFeatures_try processedBuffer width height) [0].

(** The [features] object literal of [extractAdvancedFeatures]. *)
Definition features_of (processedBuffer : list byte) (processedWidth processedHeight : nat)
  : list (string * list R) :=
  [ ("colorHistogram",
      extractColorHistogram processedBuffer processedWidth processedHeight);
    ("edgeFeatures",
      extractEdgeFeatures processedBuffer processedWidth processedHeight);
    ("textureFeatures",
      extractTextureFeatures processedBuffer processedWidth processedHeight);
    ("shapeFeatures",
      extractShapeFeatures processedBuffer processedWidth processedHeight);
    ("dominantColors",
      extractDominantColors processedBuffer processedWidth processedHeight);
    ("brightness",
      extractBrightnessFeatures processedBuffer processedWidth processedHeight);
    ("contrast",
      extractContrastFeatures processedBuffer processedWidth processedHeight) ]%string.

(** [extractAdvancedFeatures]: [None] is the rethrown error. *)
Definition extractAdvancedFeatures (imageBuffer : list byte) : option (list R) :=
  await processedBuffer <- decode imageBuffer ;;
  let processedWidth := 224%nat in
  let processedHeight := 224%nat in
  let features := features_of processedBuffer processedWidth processedHeight in
  Some (combineFeatures features).

(** [extractFeaturesFromUrl]: any error of the download or of the
    extraction is answered with the default vector. *)
Definition extractFeaturesFromUrl (imageUrl : string) : list R :=
  try_catch
    (await imageBuffer <- download imageUrl ;;
     extractAdvancedFeatures imageBuffer)
    (repeat 0.001 1331).

End Collaborators.

(** Collaborators for concrete instances: the decoder hands the
    bytes on, every resampling is rejected, and the download fails. *)
Definition decode_ok (imageBuffer : list byte) : option (list byte) := Some imageBuffer.
Definition resample_rejects (buffer : list byte) (width height size : nat)
           (mode : ColorMode) : option (list byte) := None.
Definition random_zero (draw : nat) : R := 0.

(** A resampler that answers every request with an all-white buffer. *)
Definition resample_white (buffer : list byte) (width height size : nat)
           (mode : ColorMode) : option (list byte) :=
  Some (repeat xff (size * size * match mode with RGB => 3 | Grayscale => 1 end)).
Definition download_fails (imageUrl : string) : option (list byte) := None.

(** A resampler that rejects every colour request and answers every
    grayscale request with an all-white buffer: the colour histogram and
    the dominant colours fail, the five grayscale extractors do not. *)
Definition resample_gray_only (buffer : list byte) (width height size : nat)
           (mode : ColorMode) : option (list byte) :=
  match mode with
  | RGB => None
  | Grayscale => Some (repeat xff (size * size))
  end.

End Pipeline.

(** ** Ranking and matching engine (image processor, lines 479-602;
       seedProducts.js, lines 729-731 and 830-881) *)

Module Ranking.
Import JS Similarity.

(** The fields of a catalog product that the ranking reads. *)
Record Product := {
  _id : string;
  category : string;
  price : R;
  colorFeatures : option (list R)
}.

(** A ranked match: the product's own fields and the fields the ranking
    adds to them. *)
Record Match := {
  product : Product;
  similarity : R;
  baseSimilarity : R;
  categoryMatch : bool;
  priceRange : string;
  matchStrategy : option string;
  originalSimilarity : option R
}.

Record Strategy := {
  name : string;
  products : list Match
}.

(** [arr[i]], [undefined] (here [None]) outside the array. *)
Definition at_index (arr : list R) (i : Z) : option R :=
  if (i <? 0)%Z then None else nth_error arr (Z.to_nat i).

(** [v || 0] on an array read. *)
Definition or_zero (v : option R) : R :=
  match v with
  | Some x => or_default x 0
  | None => 0
  end.

(** [inferCategoryFromFeatures] *)
Definition inferCategoryFromFeatures (features : option (list R)) : option string :=
  match features with
  | None => None
  | Some features =>
      if (length features =? 0)%nat then None
      else
        let avgBrightness :=
          or_zero (at_index features (Z.of_nat (length features) - 3)) in
        let avgContrast :=
          or_zero (at_index features (Z.of_nat (length features) - 1)) in
        if gtb avgBrightness 0.8 && ltb avgContrast 0.3 then Some "Electronics"%string
        else if ltb avgBrightness 0.4 then Some "Fashion"%string
        else if gtb avgContrast 0.6 then Some "Tools"%string
        else None
  end.

(** The average price of the candidate set. *)
Definition averagePrice (allProducts : list Product) : R :=
  let prices := map price allProducts in
  reduce (fun sum price => sum + price) 0 prices / INR (length prices).

(** [calculatePriceRelevance]; the division by the average price is read
    where that average is not 0. *)
Definition calculatePriceRelevance (productPrice : R) (allProducts : list Product) : R :=
  let avgPrice := averagePrice allProducts in
  let priceDeviation := Math_abs (productPrice - avgPrice) / avgPrice in
  Math_max 0 (1 - priceDeviation).

(** The candidate sets on which the model of [calculatePriceRelevance]
    is the source: the average price is not 0. *)
Definition priced (allProducts : list Product) : Prop :=
  allProducts <> [] -> averagePrice allProducts <> 0.

(** [getPriceRange] *)
Definition getPriceRange (price : R) : string :=
  if ltb price 30 then "budget"
  else if ltb price 100 then "mid-range"
  else if ltb price 300 then "premium"
  else "luxury".

(** Whether [findAdvancedSimilarProducts] grants the category boost:
    [inferredCategory && product.category.toLowerCase() ===
     inferredCategory.toLowerCase()]. *)
Definition boosted (inferredCategory : option string) (product : Product) : bool :=
  match inferredCategory with
  | Some c => String.eqb (toLowerCase (category product)) (toLowerCase c)
  | None => false
  end.

(** The callback of [products.map] in [findAdvancedSimilarProducts]. *)
Definition scoreProduct (uploadedFeatures : option (list R)) (allProducts : list Product)
           (categoryBoost : R) (product : Product) : Match :=
  let baseSimilarity :=
    calculateAdvancedSimilarity uploadedFeatures (colorFeatures product) in
  let inferredCategory := inferCategoryFromFeatures uploadedFeatures in
  let baseSimilarity :=
    if boosted inferredCategory product then baseSimilarity + categoryBoost
    else baseSimilarity in
  let priceWeight := calculatePriceRelevance (price product) allProducts in
  {| product := product;
     similarity := Math_min 1 (baseSimilarity + priceWeight * 0.05);
     baseSimilarity := baseSimilarity;
     categoryMatch :=
       match inferredCategory with
       | Some c => String.eqb c (category product)
       | None => false
       end;
     priceRange := getPriceRange (price product);
     matchStrategy := None;
     originalSimilarity := None |}.

(** A boolean as a number. *)
Definition toNumber (b : bool) : R := if b then 1 else 0.

(** The comparator of the sort in [findAdvancedSimilarProducts]. *)
Definition compareMatches (a b : Match) : R :=
  if gtb (Math_abs (similarity b - similarity a)) 0.05 then
    similarity b - similarity a
  else if negb (Bool.eqb (categoryMatch a) (categoryMatch b)) then
    toNumber (categoryMatch b) - toNumber (categoryMatch a)
  else
    Math_abs (price (product a) - 100) - Math_abs (price (product b) - 100).

(** [findAdvancedSimilarProducts]; [limit] is a count, so
    [slice(0, limit)] keeps the first [limit] entries. *)
Definition findAdvancedSimilarProducts (uploadedFeatures : option (list R))
           (products : list Product) (limit : nat) (categoryBoost : R) : list Match :=
  let similarities :=
    map (scoreProduct uploadedFeatures products categoryBoost) products in
  filter (fun product => gtb (similarity product) 0.15)
         (firstn limit (sort compareMatches similarities)).

(** The [strategyWeights] object of [combineSearchResults]. *)
Definition strategyWeights : list (string * R) :=
  [ ("AI Visual Similarity", 1.0); ("Category-Enhanced", 0.8);
    ("Price-Range Similar", 0.6) ]%string.

(** The comparator [(a, b) => b.similarity - a.similarity]. *)
Definition bySimilarity (a b : Match) : R := similarity b - similarity a.

(** [combineSearchResults]; the set [seenIds] is the list of the ids
    added so far. *)
Definition combineSearchResults (searchStrategies : list Strategy) : list Match :=
  let '(allResults, _) :=
    fold_left (fun acc strategy =>
      fold_left (fun acc product =>
        let '(allResults, seenIds) := acc in
        if existsb (String.eqb (_id (Ranking.product product))) seenIds then acc
        else
          let seenIds := _id (Ranking.product product) :: seenIds in
          let weight :=
            match lookup (name strategy) strategyWeights with
            | Some w => or_default w 0.5
            | None => 0.5
            end in
          let weightedSimilarity := similarity product * weight in
          (allResults ++
             [ {| product := Ranking.product product;
                  similarity := weightedSimilarity;
                  baseSimilarity := baseSimilarity product;
                  categoryMatch := categoryMatch product;
                  priceRange := priceRange product;
                  matchStrategy := Some (name strategy);
                  originalSimilarity := Some (similarity product) |} ],
           seenIds))
        (products strategy) acc)
      searchStrategies ([], []) in
  sort bySimilarity allResults.

(** The merged output of the upload route:
    [combineSearchResults(searchStrategies).slice(0, 12)]. *)
Definition topResults (searchStrategies : list Strategy) : list Match :=
  firstn 12 (combineSearchResults searchStrategies).

(** [calculateSearchConfidence] *)
Definition calculateSearchConfidence (results : list Match) : R :=
  match results with
  | [] => 0
  | first :: _ =>
      let topSimilarity := similarity first in
      let avgSimilarity :=
        reduce (fun sum p => sum + similarity p) 0 results / INR (length results) in
      let similarityVariance :=
        reduce (fun sum p => sum + (similarity p - avgSimilarity) ^ 2) 0 results
        / INR (length results) in
      let topScore := Math_min (topSimilarity * 2) 1 in
      let consistencyScore := Math_max 0 (1 - similarityVariance * 10) in
      let quantityScore := Math_min (INR (length results) / 10) 1 in
      topScore * 0.5 + consistencyScore * 0.3 + quantityScore * 0.2
  end.

(** The confidence as the specification words it, over the scores of the
    list. *)
Definition confidence_spec (scores : list R) : R :=
  match scores with
  | [] => 0
  | topScore :: _ =>
      0.5 * Rmin (2 * topScore) 1
      + 0.3 * Rmax 0 (1 - 10 * variance scores)
      + 0.2 * Rmin (INR (length scores) / 10) 1
  end.

(** Descending order of the final score. *)
Definition descending (results : list Match) : Prop :=
  Sorted (desc similarity) results.

(** The ranking property as the specification words it: no entry below
    the 0.15 floor, at most [limit] entries, descending scores. *)
Definition ranked (limit : nat) (results : list Match) : Prop :=
  Forall (fun m => 0.15 <= similarity m) results
  /\ (length results <= limit)%nat
  /\ descending results.

(** Two scores outside the 0.05 tie band of [compareMatches]. *)
Definition apart (a b : Match) : Prop :=
  0.05 < Rabs (similarity b - similarity a).

(** Two scores that [compareMatches] cannot put out of order: they are
    equal, or outside the tie band. *)
Definition settled (a b : Match) : Prop :=
  similarity a = similarity b \/ apart a b.

(** A concrete query and catalog: the fingerprint that the pipeline returns
    when all seven extractors fall back to their zero vectors, and three
    products that carry it. *)
Definition blank_features : option (list R) := Some (repeat 0 1322).

Definition lamp : Product :=
  {| _id := "p1"; category := "Home"; price := 100;
     colorFeatures := blank_features |}.
Definition chair : Product :=
  {| _id := "p2"; category := "Home"; price := 200;
     colorFeatures := blank_features |}.
Definition sofa : Product :=
  {| _id := "p3"; category := "Home"; price := 300;
     colorFeatures := blank_features |}.

Definition catalog : list Product := [lamp; chair; sofa].

(** A second catalog: a product of the inferred category beside one of
    another category, at one price. *)
Definition shirt : Product :=
  {| _id := "p4"; category := "Fashion"; price := 100;
     colorFeatures := blank_features |}.

Definition boutique : list Product := [lamp; shirt].

(** A price-aware strategy that found one product, with score 0.2. *)
Definition price_match : Match :=
  {| product := lamp; similarity := 0.2; baseSimilarity := 0.2;
     categoryMatch := false; priceRange := "premium";
     matchStrategy := None; originalSimilarity := None |}.

Definition price_only : list Strategy :=
  [ {| name := "Price-Range Similar"; products := [price_match] |} ].

End Ranking.

(** ** The other ranking strategies of the upload route and the price
       bucket of the route (seedProducts.js, lines 797-828 and 883-889) *)

Module Strategies.
Import JS Similarity Ranking.

(** [getPriceRange] of the route. *)
Definition getPriceRange (price : R) : string :=
  if ltb price 30 then "budget"
  else if ltb price 100 then "mid-range"
  else if ltb price 300 then "premium"
  else "luxury".

(** An entry of the price-aware strategy: a base match with the fields
    [matchType] and [inferredPriceRange] added. *)
Record PriceAwareMatch := {
  entry : Match;
  matchType : string;
  inferredPriceRange : string
}.

(** The average price of the five products most similar to the query. *)
Definition topSimilar (uploadedFeatures : option (list R)) (products : list Product)
  : list (Product * R) :=
  let similarities :=
    map (fun product =>
           (product, calculateAdvancedSimilarity uploadedFeatures (colorFeatures product)))
        products in
  firstn 5 (sort (fun a b => snd b - snd a) similarities).

Definition topAveragePrice (uploadedFeatures : option (list R)) (products : list Product)
  : R :=
  let topSimilar := topSimilar uploadedFeatures products in
  reduce (fun sum p => sum + price (fst p)) 0 topSimilar / INR (length topSimilar).

(** The filter of [findPriceAwareSimilarProducts]; the relative distance is
    read where the average price is not 0. *)
Definition inPriceWindow (avgPrice : R) (product : Product) : bool :=
  String.eqb (getPriceRange (price product)) (getPriceRange avgPrice)
  || ltb (Math_abs (price product - avgPrice) / avgPrice) 0.5.

(** [findPriceAwareSimilarProducts]; the base match runs with its default
    category boost 0.1. *)
Definition findPriceAwareSimilarProducts (uploadedFeatures : option (list R))
           (products : list Product) (limit : nat) : list PriceAwareMatch :=
  match topSimilar uploadedFeatures products with
  | [] => []
  | _ =>
      let avgPrice := topAveragePrice uploadedFeatures products in
      let priceRange := getPriceRange avgPrice in
      let priceFilteredProducts := filter (inPriceWindow avgPrice) products in
      map (fun product =>
             {| entry := product; matchType := "price-aware";
                inferredPriceRange := priceRange |})
          (findAdvancedSimilarProducts uploadedFeatures priceFilteredProducts limit 0.1)
  end.

End Strategies.

(** ** The product model (models/Product.js, lines 1, 124-131 and 157-184) *)

Module Catalog.
Import JS Similarity Ranking.

(** The price bucket that the pre-save hook stores in
    [productMetadata.priceRange]. *)
Definition presavePriceRange (price : R) : string :=
  if ltb price 30 then "budget"
  else if ltb price 100 then "mid-range"
  else if ltb price 300 then "premium"
  else "luxury".


(** The outcome of a call: the value it returns, or the name of the error
    it throws (for an [async] function: the rejection of its promise). *)
Inductive outcome (A : Type) : Type :=
| Returns (value : A)
| Throws (error : string).
Arguments Returns {A} value.
Arguments Throws {A} error.


(** The identifier [calculateAdvancedSimilarity] in [Product.js]: the file
    requires only [mongoose] and declares no such name, so evaluating the
    identifier throws a [ReferenceError] before any argument is used. *)
Definition calculateAdvancedSimilarity (features colorFeatures : option (list R))
  : outcome R :=
  Throws "ReferenceError".


End Catalog.

(** ** The seeding script (seedProducts.js, lines 225-252 and 423-504) *)

Module Seeding.
Import JS.

(** [getPriceRange] of the seeding script. *)
Definition getPriceRange (price : R) : string :=
  if ltb price 30 then "budget"
  else if ltb price 100 then "mid-range"
  else if ltb price 300 then "premium"
  else "luxury".

(** [arr.slice(start, end)] for two indices that are not negative. *)
Definition slice {A : Type} (arr : list A) (start finish : nat) : list A :=
  firstn (finish - start) (skipn start arr).

(** The [visualFeatures] object that the seeding script cuts out of a
    feature vector. *)
Record VisualFeatures := {
  colorHistogram : list R;
  edgeFeatures : list R;
  textureFeatures : list R;
  shapeFeatures : list R;
  dominantColors : list R;
  brightnessFeatures : list R;
  contrastFeatures : list R
}.

Definition decompose (advancedFeatures : list R) : VisualFeatures :=
  let featureLength := INR (length advancedFeatures) in
  let colorHistStart := 0%nat in
  let colorHistLength := Z.to_nat (Math_floor (featureLength * 0.3)) in
  let edgeStart := (colorHistStart + colorHistLength)%nat in
  let edgeLength := Z.to_nat (Math_floor (featureLength * 0.15)) in
  let textureStart := (edgeStart + edgeLength)%nat in
  let textureLength := Z.to_nat (Math_floor (featureLength * 0.15)) in
  let shapeStart := (textureStart + textureLength)%nat in
  let shapeLength := 7%nat in
  let dominantStart := (shapeStart + shapeLength)%nat in
  let dominantLength := 15%nat in
  let brightnessStart := (dominantStart + dominantLength)%nat in
  let brightnessLength := 3%nat in
  let contrastStart := (brightnessStart + brightnessLength)%nat in
  {| colorHistogram :=
       slice advancedFeatures colorHistStart (colorHistStart + colorHistLength);
     edgeFeatures := slice advancedFeatures edgeStart (edgeStart + edgeLength);
     textureFeatures :=
       slice advancedFeatures textureStart (textureStart + textureLength);
     shapeFeatures := slice advancedFeatures shapeStart (shapeStart + shapeLength);
     dominantColors :=
       slice advancedFeatures dominantStart (dominantStart + dominantLength);
     brightnessFeatures :=
       slice advancedFeatures brightnessStart (brightnessStart + brightnessLength);
     contrastFeatures := slice advancedFeatures contrastStart (contrastStart + 1) |}.

(** [inferCategoryConfidence] *)
Definition inferCategoryConfidence (actualCategory : string)
           (visualFeatures : VisualFeatures) : R :=
  let confidence := 0.5 in
  let avgBrightness :=
    match brightnessFeatures visualFeatures with
    | first :: _ => first
    | [] => 0.5
    end in
  let avgContrast :=
    match contrastFeatures visualFeatures with
    | first :: _ => first
    | [] => 0.5
    end in
  let category := toLowerCase actualCategory in
  let confidence :=
    if String.eqb category "electronics" then
      if gtb avgBrightness 0.6 && ltb avgContrast 0.4 then confidence + 0.3
      else confidence
    else if String.eqb category "fashion" || String.eqb category "shoes" then
      if gtb avgBrightness 0.3 && ltb avgBrightness 0.8 then confidence + 0.2
      else confidence
    else if String.eqb category "tools" then
      if gtb avgContrast 0.5 then confidence + 0.3 else confidence
    else if String.eqb category "kitchen" then
      if gtb avgBrightness 0.5 || gtb avgContrast 0.4 then confidence + 0.2
      else confidence
    else confidence + 0.1 in
  Math_min 1.0 confidence.

(** [getColorName] *)
Definition getColorName (r g b : R) : string :=
  let brightness := (r + g + b) / 3 in
  if ltb brightness 50 then "black"
  else if gtb brightness 200 then "white"
  else if gtb r (g + 50) && gtb r (b + 50) then "red"
  else if gtb g (r + 50) && gtb g (b + 50) then "green"
  else if gtb b (r + 50) && gtb b (g + 50) then "blue"
  else if gtb r 150 && gtb g 150 && ltb b 100 then "yellow"
  else if gtb r 150 && ltb g 100 && gtb b 150 then "purple"
  else if ltb r 100 && gtb g 150 && gtb b 150 then "cyan"
  else if gtb r 150 && gtb g 100 && ltb b 100 then "orange"
  else if gtb r 100 && gtb g 100 && gtb b 100 then "gray"
  else if gtb r 139 && gtb g 69 && gtb b 19 && ltb r 160 && ltb g 90 && ltb b 40
       then "brown"
  else "mixed".

(** A string as a condition: the empty string is falsy. *)
Definition truthy (s : string) : bool := negb (String.eqb s "").

(** [extractColorNames]; the loop reads the five colours at
    [i = 0, 3, 6, 9, 12], inside the array. *)
Definition extractColorNames (dominantColors : option (list R)) : list string :=
  match dominantColors with
  | None => ["unknown"%string]
  | Some dominantColors =>
      if (length dominantColors <? 15)%nat then ["unknown"%string]
      else
        let colorNames :=
          fold_left (fun colorNames i =>
                       let r := get dominantColors i * 255 in
                       let g := get dominantColors (i + 1) * 255 in
                       let b := get dominantColors (i + 2) * 255 in
                       let colorName := getColorName r g b in
                       if truthy colorName
                          && negb (existsb (String.eqb colorName) colorNames)
                       then colorNames ++ [colorName]
                       else colorNames)
                    [0; 3; 6; 9; 12]%nat [] in
        match colorNames with
        | [] => ["mixed"%string]
        | _ => colorNames
        end
  end.

End Seeding.

(** ** Provenance of a merged entry *)

Module Provenance.
Import JS Ranking.

(** The identity under which [combineSearchResults] deduplicates. *)
Definition identity (m : Match) : string := _id (product m).

(** [strategyWeights[name] || 0.5] *)
Definition strategyWeight (name : string) : R :=
  match lookup name strategyWeights with
  | Some w => or_default w 0.5
  | None => 0.5
  end.

(** The merged entry [m] was made from the entry [p] of the strategy [st]. *)
Definition made_from (m : Match) (st : Strategy) (p : Match) : Prop :=
  product m = product p
  /\ matchStrategy m = Some (name st)
  /\ originalSimilarity m = Some (similarity p)
  /\ similarity m = similarity p * strategyWeight (name st).

(** The two loops of [combineSearchResults], before the final sort. *)
Definition merge_loop (searchStrategies : list Strategy) : list Match * list string :=
  fold_left (fun acc strategy =>
    fold_left (fun acc product =>
      let '(allResults, seenIds) := acc in
      if existsb (String.eqb (_id (Ranking.product product))) seenIds then acc
      else
        let seenIds := _id (Ranking.product product) :: seenIds in
        let weight :=
          match lookup (name strategy) strategyWeights with
          | Some w => or_default w 0.5
          | None => 0.5
          end in
        let weightedSimilarity := similarity product * weight in
        (allResults ++
           [ {| product := Ranking.product product;
                similarity := weightedSimilarity;
                baseSimilarity := baseSimilarity product;
                categoryMatch := categoryMatch product;
                priceRange := priceRange product;
                matchStrategy := Some (name strategy);
                originalSimilarity := Some (similarity product) |} ],
         seenIds))
      (products strategy) acc)
    searchStrategies ([], []).

(** What the loops keep: the seen identities are those of the collected
    entries, no identity is collected twice, and every collected entry was
    made from an entry of a strategy. *)
Definition merged (searchStrategies : list Strategy)
           (state : list Match * list string) : Prop :=
  let '(allResults, seenIds) := state in
  (forall id, In id seenIds <-> In id (map identity allResults))
  /\ NoDup (map identity allResults)
  /\ Forall (fun m => exists st p,
                 In st searchStrategies /\ In p (products st) /\ made_from m st p)
            allResults.

End Provenance.

(** ** Predicates of the extractor properties *)

Module Gamut.

(** A colour whose three channels lie in [0, 255]. *)
Definition in_gamut (c : R * R * R) : Prop :=
  let '(c0, c1, c2) := c in
  0 <= c0 <= 255 /\ 0 <= c1 <= 255 /\ 0 <= c2 <= 255.

End Gamut.

(** * Properties *)

(** ** Facts about the JavaScript primitives *)

Module JSFacts.
Import JS.

Lemma eqb_true a b : a = b -> eqb a b = true.
Proof. intros H; unfold eqb; destruct (Req_dec_T a b); congruence. Qed.

Lemma eqb_false a b : a <> b -> eqb a b = false.
Proof. intros H; unfold eqb; destruct (Req_dec_T a b); congruence. Qed.

Lemma ltb_true a b : a < b -> ltb a b = true.
Proof. intros H; unfold ltb; destruct (Rlt_dec a b); [reflexivity | contradiction]. Qed.

Lemma ltb_false a b : b <= a -> ltb a b = false.
Proof. intros H; unfold ltb; destruct (Rlt_dec a b); [lra | reflexivity]. Qed.

Lemma fold_left_through_map {A B S : Type} (f : S -> B -> S) (g : A -> B) l s :
  fold_left f (map g l) s = fold_left (fun s x => f s (g x)) l s.
Proof. revert s; induction l as [|x l IH]; intros s; simpl; [reflexivity | apply IH]. Qed.

(** An index loop over two arrays of one length visits the pairs of
    elements in order. *)
Lemma for_range_zip {S : Type} (g : S -> R -> R -> S) a b s0 :
  length a = length b ->
  for_range (length a) (fun s i => g s (get a i) (get b i)) s0
  = fold_left (fun s p => g s (fst p) (snd p)) (combine a b) s0.
Proof.
  unfold for_range, get.
  revert b s0; induction a as [|x a IH]; intros [|y b] s0 Hlen; simpl in *;
    try discriminate; try reflexivity.
  rewrite <- seq_shift, fold_left_through_map.
  apply IH; congruence.
Qed.

Lemma reduce_sum_acc l s : reduce (fun sum val => sum + val) s l = s + fold_right Rplus 0 l.
Proof.
  unfold reduce; revert s; induction l as [|x l IH]; intros s; simpl.
  - lra.
  - rewrite IH; lra.
Qed.

Lemma ltb_inv a b : ltb a b = true -> a < b.
Proof. unfold ltb. destruct (Rlt_dec a b); [auto | discriminate]. Qed.

Lemma ltb_inv_false a b : ltb a b = false -> b <= a.
Proof. unfold ltb. destruct (Rlt_dec a b); [discriminate | lra]. Qed.

(** *** The sort *)

Section Sort.
Context {A : Type}.
Variable compare : A -> A -> R.
Variable key : A -> R.

Lemma insert_In x y l : In y (insert compare x l) <-> y = x \/ In y l.
Proof.
  induction l as [|z l IH]; simpl.
  - intuition.
  - destruct (gtb (compare x z) 0); simpl; rewrite ?IH; intuition.
Qed.

Lemma sort_In y l : In y (sort compare l) <-> In y l.
Proof.
  induction l as [|x l IH]; simpl; [reflexivity|].
  rewrite insert_In, IH. intuition.
Qed.

Lemma insert_length x l : length (insert compare x l) = S (length l).
Proof.
  induction l as [|z l IH]; simpl; [reflexivity|].
  destruct (gtb (compare x z) 0); simpl; auto.
Qed.

Lemma sort_length l : length (sort compare l) = length l.
Proof.
  induction l as [|x l IH]; simpl; [reflexivity|].
  rewrite insert_length, IH. reflexivity.
Qed.

Lemma insert_desc x l :
  StronglySorted (desc key) l ->
  Forall (by_key compare key x) l ->
  StronglySorted (desc key) (insert compare x l).
Proof.
  induction 1 as [|y l Hs IH Hy]; intros Hk; simpl.
  - constructor; constructor.
  - inversion_clear Hk as [|? ? [Hgt Hle] Hk'].
    destruct (gtb (compare x y) 0) eqn:E.
    + constructor; [apply IH; exact Hk'|].
      apply Forall_forall. intros z Hz. apply insert_In in Hz.
      destruct Hz as [->|Hz].
      * apply Hgt; reflexivity.
      * rewrite Forall_forall in Hy. apply Hy; exact Hz.
    + constructor; [constructor; assumption|].
      constructor; [apply Hle; reflexivity|].
      apply Forall_forall. intros z Hz.
      rewrite Forall_forall in Hy. specialize (Hy z Hz).
      specialize (Hle eq_refl). unfold desc in *. lra.
Qed.

(** The sort orders a list by descending key when the comparator
    decides every pair of its elements by the key. *)
Lemma sort_desc l :
  ForallOrdPairs (by_key compare key) l -> StronglySorted (desc key) (sort compare l).
Proof.
  induction 1 as [|x l Hx _ IH]; simpl.
  - constructor.
  - apply insert_desc; [exact IH|].
    apply Forall_forall. intros y Hy. apply (proj1 (sort_In y l)) in Hy.
    rewrite Forall_forall in Hx. apply Hx; exact Hy.
Qed.

End Sort.

Lemma firstn_desc {A : Type} (key : A -> R) n l : StronglySorted (desc key) l -> StronglySorted (desc key) (firstn n l).
Proof.
  intros H. revert n; induction H as [|y l Hs IH Hy]; intros [|n]; simpl;
    try constructor.
  - apply IH.
  - apply Forall_forall. intros z Hz.
    rewrite Forall_forall in Hy. apply Hy.
    rewrite <- (firstn_skipn n l). apply in_or_app; left; exact Hz.
Qed.

Lemma filter_desc {A : Type} (key : A -> R) f l : StronglySorted (desc key) l -> StronglySorted (desc key) (filter f l).
Proof.
  induction 1 as [|y l Hs IH Hy]; simpl; [constructor|].
  destruct (f y); [|exact IH].
  constructor; [exact IH|].
  apply Forall_forall. intros z Hz. apply filter_In in Hz.
  rewrite Forall_forall in Hy. apply Hy. tauto.
Qed.

End JSFacts.

(** ** The similarity engine *)

Module SimilarityFacts.
Import JS JSFacts Similarity.

Lemma dot_comm a b : dot a b = dot b a.
Proof.
  revert b; induction a as [|x a IH]; intros [|y b]; simpl; try reflexivity.
  rewrite IH; lra.
Qed.

Lemma dot_self_nonneg a : 0 <= dot a a.
Proof. induction a as [|x a IH]; simpl; [lra | nra]. Qed.

Lemma vsub_length a b : length a = length b -> length (vsub a b) = length a.
Proof.
  revert b; induction a as [|x a IH]; intros [|y b] H; simpl in *;
    try discriminate; auto.
Qed.

Lemma vsub_sq_comm a b : dot (vsub a b) (vsub a b) = dot (vsub b a) (vsub b a).
Proof.
  revert b; induction a as [|x a IH]; intros [|y b]; simpl; try reflexivity.
  rewrite IH; lra.
Qed.

Lemma vsub_self_sq a : dot (vsub a a) (vsub a a) = 0.
Proof. induction a as [|x a IH]; simpl; [reflexivity | rewrite IH; lra]. Qed.

Lemma total_fold a : fold_right Rplus 0 a = total a.
Proof. induction a as [|x a IH]; simpl; congruence. Qed.

Lemma dot_map_shift m1 m2 a b :
  dot (map (fun x => x - m1) a) (map (fun x => x - m2) b)
  = dot (vsub a (map (fun _ => m1) a)) (vsub b (map (fun _ => m2) b)).
Proof.
  revert b; induction a as [|x a IH]; intros [|y b]; simpl; try reflexivity.
  rewrite IH; reflexivity.
Qed.

(** The three accumulators of the cosine loop. *)
Lemma cosine_loop a b d n1 n2 :
  length a = length b ->
  fold_left (fun s p => let '(d, n1, n2) := s in
               (d + fst p * snd p, n1 + fst p * fst p, n2 + snd p * snd p))
    (combine a b) (d, n1, n2)
  = (d + dot a b, n1 + dot a a, n2 + dot b b).
Proof.
  revert b d n1 n2; induction a as [|x a IH]; intros [|y b] d n1 n2 H;
    simpl in *; try discriminate.
  - f_equal; [f_equal|]; lra.
  - rewrite IH by congruence. f_equal; [f_equal|]; lra.
Qed.

Lemma euclid_loop a b s :
  length a = length b ->
  fold_left (fun s p => s + (fst p - snd p) ^ 2) (combine a b) s
  = s + dot (vsub a b) (vsub a b).
Proof.
  revert b s; induction a as [|x a IH]; intros [|y b] s H;
    simpl in *; try discriminate.
  - lra.
  - rewrite IH by congruence. lra.
Qed.

Lemma correlation_loop m1 m2 a b d n1 n2 :
  length a = length b ->
  fold_left (fun s p => let '(d, n1, n2) := s in
               (d + (fst p - m1) * (snd p - m2),
                n1 + (fst p - m1) * (fst p - m1),
                n2 + (snd p - m2) * (snd p - m2)))
    (combine a b) (d, n1, n2)
  = (d + dot (map (fun x => x - m1) a) (map (fun x => x - m2) b),
     n1 + dot (map (fun x => x - m1) a) (map (fun x => x - m1) a),
     n2 + dot (map (fun x => x - m2) b) (map (fun x => x - m2) b)).
Proof.
  revert b d n1 n2; induction a as [|x a IH]; intros [|y b] d n1 n2 H;
    simpl in *; try discriminate.
  - f_equal; [f_equal|]; lra.
  - rewrite IH by congruence. f_equal; [f_equal|]; lra.
Qed.

Lemma sqrt_zero_iff x : 0 <= x -> (sqrt x = 0 <-> x = 0).
Proof.
  intros Hx; split; intros H.
  - apply sqrt_eq_0; assumption.
  - subst; apply sqrt_0.
Qed.

Lemma eqb_sqrt x : 0 <= x -> eqb (sqrt x) 0 = eqb x 0.
Proof.
  intros Hx. destruct (Req_dec_T x 0) as [E|E].
  - rewrite !eqb_true; auto. subst; apply sqrt_0.
  - rewrite !eqb_false; auto. rewrite sqrt_zero_iff; auto.
Qed.

(** The source's cosine function computes the specification's cosine. *)
Lemma cosine_refines a b :
  length a = length b -> calculateCosineSimilarity a b = cosine_spec a b.
Proof.
  intros H. unfold calculateCosineSimilarity, cosine_spec, norm, Math_sqrt.
  rewrite (for_range_zip
             (fun s x y => let '(d, n1, n2) := s in
                           (d + x * y, n1 + x * x, n2 + y * y)) a b (0, 0, 0) H).
  rewrite (cosine_loop a b 0 0 0 H).
  rewrite !Rplus_0_l, !eqb_sqrt by apply dot_self_nonneg.
  reflexivity.
Qed.

Lemma euclidean_refines a b :
  length a = length b -> calculateEuclideanSimilarity a b = euclidean_spec a b.
Proof.
  intros H. unfold calculateEuclideanSimilarity, euclidean_spec, norm, Math_sqrt.
  rewrite (for_range_zip (fun s x y => s + (x - y) ^ 2) a b 0 H).
  rewrite (euclid_loop a b 0 H), Rplus_0_l. reflexivity.
Qed.

Lemma correlation_refines a b :
  length a = length b -> calculateCorrelationSimilarity a b = correlation_spec a b.
Proof.
  intros H.
  unfold calculateCorrelationSimilarity, correlation_spec, pearson, deviation,
    centered, mean, Math_sqrt, Math_abs.
  cbv zeta.
  rewrite !reduce_sum_acc, (total_fold a), (total_fold b), !Rplus_0_l.
  rewrite <- H.
  set (m1 := total a / INR (length a)).
  set (m2 := total b / INR (length a)).
  rewrite (for_range_zip
             (fun s x y => let '(d, n1, n2) := s in
                           (d + (x - m1) * (y - m2),
                            n1 + (x - m1) * (x - m1),
                            n2 + (y - m2) * (y - m2))) a b (0, 0, 0) H).
  rewrite (correlation_loop m1 m2 a b 0 0 0 H), !Rplus_0_l.
  set (s1 := dot (map (fun x => x - m1) a) (map (fun x => x - m1) a)).
  set (s2 := dot (map (fun x => x - m2) b) (map (fun x => x - m2) b)).
  assert (H1 : 0 <= s1) by apply dot_self_nonneg.
  assert (H2 : 0 <= s2) by apply dot_self_nonneg.
  rewrite sqrt_mult by assumption.
  destruct (Req_dec_T s1 0) as [E1|E1]; destruct (Req_dec_T s2 0) as [E2|E2].
  - rewrite E1, sqrt_0, Rmult_0_l, !eqb_true by reflexivity. reflexivity.
  - rewrite E1, sqrt_0, Rmult_0_l, !eqb_true by reflexivity. reflexivity.
  - rewrite E2, sqrt_0, Rmult_0_r, (eqb_true 0 0) by reflexivity.
    rewrite orb_true_r. reflexivity.
  - rewrite (eqb_false s1), (eqb_false s2) by assumption.
    rewrite eqb_false; [reflexivity|].
    intros E. apply Rmult_integral in E.
    destruct E as [E|E]; apply sqrt_eq_0 in E; auto.
Qed.

Lemma combined_refines a b :
  length a = length b ->
  calculateAdvancedSimilarity (Some a) (Some b) = combined_spec a b.
Proof.
  intros H. unfold calculateAdvancedSimilarity, combined_spec, clamp, Math_max, Math_min.
  rewrite H, Nat.eqb_refl. simpl negb. cbv iota zeta.
  rewrite cosine_refines, euclidean_refines, correlation_refines by assumption.
  do 2 f_equal. lra.
Qed.

Lemma clamp_range x : 0 <= clamp x 0 1 <= 1.
Proof.
  unfold clamp. split.
  - apply Rmax_l.
  - apply Rmax_lub; [lra | apply Rmin_l].
Qed.

Lemma cosine_spec_comm a b : cosine_spec a b = cosine_spec b a.
Proof.
  unfold cosine_spec.
  rewrite orb_comm, dot_comm, (Rmult_comm (norm a)). reflexivity.
Qed.

Lemma euclidean_spec_comm a b : euclidean_spec a b = euclidean_spec b a.
Proof. unfold euclidean_spec, norm. rewrite vsub_sq_comm. reflexivity. Qed.

Lemma correlation_spec_comm a b : correlation_spec a b = correlation_spec b a.
Proof.
  unfold correlation_spec, pearson.
  rewrite orb_comm, dot_comm, (Rmult_comm (sqrt (deviation a))). reflexivity.
Qed.

Lemma self_ratio x : 0 <= x -> x <> 0 -> x / (sqrt x * sqrt x) = 1.
Proof. intros H0 H1. rewrite sqrt_sqrt by assumption. field. assumption. Qed.


(** The guard of [calculateAdvancedSimilarity]: an absent input or two
    inputs of different lengths score 0. *)
Lemma similarity_guard f1 f2 :
  f1 = None \/ f2 = None
  \/ (exists a b, f1 = Some a /\ f2 = Some b /\ length a <> length b) ->
  calculateAdvancedSimilarity f1 f2 = 0.
Proof.
  intros [H | [H | (a & b & Ha & Hb & Hlen)]]; subst.
  - reflexivity.
  - destruct f1; reflexivity.
  - unfold calculateAdvancedSimilarity.
    apply Nat.eqb_neq in Hlen. rewrite Hlen. reflexivity.
Qed.

(** C2.  The specification lets two empty vectors score 0.  They pass the
    guard of [calculateAdvancedSimilarity] (an empty array is not absent
    and the two lengths agree), the cosine and the correlation are 0, the
    Euclidean similarity is 1/(1+0) = 1, and the score is 0.3. *)
Theorem empty_vectors_score :
  calculateAdvancedSimilarity (Some []) (Some []) = 0.3.
Proof.
  unfold calculateAdvancedSimilarity, calculateCosineSimilarity,
    calculateEuclideanSimilarity, calculateCorrelationSimilarity,
    for_range, reduce, Math_sqrt, Math_abs, Math_max, Math_min.
  simpl.
  rewrite Rmult_0_l, sqrt_0, (eqb_true 0 0) by reflexivity.
  simpl orb. cbv iota.
  replace (0 * 0.5 + 1 / (1 + 0) * 0.3 + 0 * 0.2) with 0.3 by lra.
  rewrite Rmin_right by lra. rewrite Rmax_right by lra. reflexivity.
Qed.

(** In exact arithmetic the score of two vectors of one length is
    clamp(0.5 cosine + 0.3 euclidean + 0.2 correlation, 0, 1), with the
    cosine 0 when a norm is 0 and the correlation the absolute Pearson
    correlation, 0 when a variance is 0; the score lies in [0,1]. *)
Theorem combined_similarity_formula (a b : list R) :
  length a = length b ->
  calculateAdvancedSimilarity (Some a) (Some b) = combined_spec a b
  /\ 0 <= calculateAdvancedSimilarity (Some a) (Some b) <= 1.
Proof.
  intros H. rewrite (combined_refines a b H).
  split; [reflexivity | apply clamp_range].
Qed.

Lemma combined_similarity_formula_witness :
  length [1; 0] = length [0; 1]
  /\ calculateAdvancedSimilarity (Some [1; 0]) (Some [0; 1]) = combined_spec [1; 0] [0; 1]
  /\ 0 <= calculateAdvancedSimilarity (Some [1; 0]) (Some [0; 1]) <= 1.
Proof.
  split; [reflexivity | apply (combined_similarity_formula [1; 0] [0; 1]); reflexivity].
Defined.



(** C6.  The similarity score is symmetric in its two arguments. *)
Theorem similarity_symmetric (f1 f2 : option (list R)) :
  calculateAdvancedSimilarity f1 f2 = calculateAdvancedSimilarity f2 f1.
Proof.
  destruct f1 as [a|], f2 as [b|]; try reflexivity.
  destruct (Nat.eq_dec (length a) (length b)) as [E|E].
  - rewrite (combined_refines a b E), (combined_refines b a (eq_sym E)).
    unfold combined_spec.
    rewrite cosine_spec_comm, euclidean_spec_comm, correlation_spec_comm.
    reflexivity.
  - rewrite !similarity_guard; auto.
    + right; right; exists b, a; auto.
    + right; right; exists a, b; auto.
Qed.

(** *** Constant vectors *)

Lemma total_repeat c n : total (repeat c n) = INR n * c.
Proof.
  induction n as [|n IH]; [simpl; lra|].
  cbn [repeat total]. rewrite IH, S_INR. lra.
Qed.

Lemma dot_repeat a b n : dot (repeat a n) (repeat b n) = INR n * (a * b).
Proof.
  induction n as [|n IH]; [simpl; lra|].
  cbn [repeat dot]. rewrite IH, S_INR. lra.
Qed.

Lemma deviation_repeat c n : deviation (repeat c n) = 0.
Proof.
  unfold deviation, centered. rewrite map_repeat, dot_repeat.
  unfold mean. rewrite total_repeat, repeat_length.
  destruct n as [|n]; [simpl; lra|].
  assert (Hn : INR (S n) <> 0) by (apply not_0_INR; discriminate).
  replace (c - INR (S n) * c / INR (S n)) with 0 by (field; exact Hn).
  lra.
Qed.

(** The zero vector scores 0.3 with itself: its norm and its variance are
    0, so only the Euclidean similarity, 1, contributes. *)
Lemma zero_vector_score n :
  calculateAdvancedSimilarity (Some (repeat 0 n)) (Some (repeat 0 n)) = 0.3.
Proof.
  rewrite combined_refines by reflexivity.
  assert (Hnorm : norm (repeat 0 n) = 0).
  { unfold norm. rewrite dot_repeat.
    replace (INR n * (0 * 0)) with 0 by lra. apply sqrt_0. }
  unfold combined_spec, cosine_spec, euclidean_spec, correlation_spec.
  rewrite (eqb_true (norm (repeat 0 n)) 0) by exact Hnorm.
  rewrite (eqb_true (deviation (repeat 0 n)) 0) by apply deviation_repeat.
  simpl orb. cbv iota.
  unfold norm. rewrite vsub_self_sq, sqrt_0.
  unfold clamp. rewrite Rmin_right by lra. rewrite Rmax_right by lra. lra.
Qed.

(** In exact arithmetic a constant vector that is not the zero vector
    scores 0.8 with itself: the cosine and the Euclidean similarity are 1,
    and the variance is 0, so the correlation is 0. *)
Lemma constant_vector_formula x n :
  x <> 0 -> n <> O ->
  combined_spec (repeat x n) (repeat x n) = 0.8
  /\ correlation_spec (repeat x n) (repeat x n) = 0.
Proof.
  intros Hx Hn.
  assert (Hd : dot (repeat x n) (repeat x n) <> 0).
  { rewrite dot_repeat. apply Rmult_integral_contrapositive_currified.
    - apply not_0_INR. exact Hn.
    - apply Rmult_integral_contrapositive_currified; exact Hx. }
  assert (Hnorm : norm (repeat x n) <> 0).
  { unfold norm. intros E. apply Hd.
    apply sqrt_eq_0; [apply dot_self_nonneg | exact E]. }
  assert (Hcorr : correlation_spec (repeat x n) (repeat x n) = 0).
  { unfold correlation_spec.
    rewrite (eqb_true (deviation (repeat x n)) 0) by apply deviation_repeat.
    reflexivity. }
  split; [|exact Hcorr].
  unfold combined_spec. rewrite Hcorr. unfold cosine_spec, euclidean_spec.
  rewrite (eqb_false (norm (repeat x n)) 0) by exact Hnorm.
  simpl orb. cbv iota.
  unfold norm. rewrite vsub_self_sq, sqrt_0.
  rewrite self_ratio by (try apply dot_self_nonneg; exact Hd).
  unfold clamp.
  replace (0.5 * 1 + 0.3 * (1 / (1 + 0)) + 0.2 * 0) with 0.8 by lra.
  rewrite Rmin_right by lra. rewrite Rmax_right by lra. reflexivity.
Qed.

End SimilarityFacts.

(** ** The similarity engine on binary64 numbers *)

Module Binary64Facts.
Import JS JSFacts Similarity SimilarityFacts PrimFloat.
#[local] Set Warnings "-inexact-float".


(** C4.  The code scores a constant vector that is not the zero vector
    against itself at 1, where the formula of the claim gives 0.8: the
    variance of such a vector is 0, so the formula's correlation is 0, but
    the mean that the code computes is rounded, the deviations from it are
    not 0, the test [denominator === 0] fails and the correlation comes out
    as 1.  Shown on [0.1, 0.1, 0.1] and on the default vector of 1331
    elements 0.001. *)
Theorem zero_variance_guard_missed :
  Binary64.calculateCorrelationSimilarity [0.1; 0.1; 0.1]%float [0.1; 0.1; 0.1]%float
  = 1%float
  /\ correlation_spec [0.1; 0.1; 0.1] [0.1; 0.1; 0.1] = 0
  /\ Binary64.calculateAdvancedSimilarity (Some [0.1; 0.1; 0.1]%float)
                                          (Some [0.1; 0.1; 0.1]%float)
     = 1%float
  /\ combined_spec [0.1; 0.1; 0.1] [0.1; 0.1; 0.1] = 0.8
  /\ Binary64.calculateAdvancedSimilarity (Some (repeat 0.001%float 1331))
                                          (Some (repeat 0.001%float 1331))
     = 1%float
  /\ combined_spec (repeat 0.001 1331) (repeat 0.001 1331) = 0.8.
Proof.
  change [0.1; 0.1; 0.1] with (repeat 0.1 3).
  destruct (constant_vector_formula 0.1 3) as [H3 Hcorr]; [lra | discriminate |].
  destruct (constant_vector_formula 0.001 1331) as [H1331 _]; [lra | discriminate |].
  split; [vm_compute; reflexivity|].
  split; [exact Hcorr|].
  split; [vm_compute; reflexivity|].
  split; [exact H3|].
  split; [vm_compute; reflexivity | exact H1331].
Qed.

End Binary64Facts.

(** ** The feature extraction pipeline *)

Module PipelineFacts.
Import JS JSFacts Pipeline.

Lemma update_length {A : Type} (arr : list A) i f : length (update arr i f) = length arr.
Proof.
  revert i; induction arr as [|v arr IH]; intros [|i]; simpl; auto.
Qed.

Lemma increment_length arr index : length (increment arr index) = length arr.
Proof. unfold increment. destruct (index <? 0)%Z; auto using update_length. Qed.

Lemma assign_length arr index v : length (assign arr index v) = length arr.
Proof. unfold assign. destruct (index <? 0)%Z; auto using update_length. Qed.

(** A loop whose body keeps the length of the array keeps it. *)
Lemma fold_left_keeps_length {A B : Type} (f : list A -> B -> list A) l acc :
  (forall acc x, length (f acc x) = length acc) ->
  length (fold_left f l acc) = length acc.
Proof.
  intros Hf. revert acc; induction l as [|x l IH]; intros acc; simpl; auto.
  rewrite IH. apply Hf.
Qed.

Create HintDb lengths.
Local Hint Resolve increment_length assign_length update_length : lengths.

(** The bin indices stay below the lengths of their histograms, so no
    histogram of the source ever grows. *)
Lemma hist_index_bound hsv : (hist_index hsv <= 1023)%Z.
Proof. destruct hsv as [[h s0] v]. unfold hist_index. cbv zeta. lia. Qed.

Lemma edge_bin_bound maxEdge strength : (edge_bin maxEdge strength <= 15)%Z.
Proof. unfold edge_bin. lia. Qed.

Lemma lbp_bound grayBuffer w x y : (0 <= lbp grayBuffer w x y <= 255)%Z.
Proof.
  unfold lbp. cbv zeta.
  set (center := px grayBuffer (y * w + x)).
  unfold zrange. simpl fold_left.
  repeat match goal with
         | |- context [if ?c then _ else _] => destruct c
         end; cbn; lia.
Qed.

Lemma In_zrange lo hi i : In i (zrange lo hi) -> (lo <= i < hi)%Z.
Proof.
  unfold zrange. rewrite in_map_iff. intros (n & <- & Hn).
  apply in_seq in Hn. lia.
Qed.

(** *** Fixed lengths of the seven sub-vectors *)

Lemma colorHistogram_of_length buf : length (colorHistogram_of buf) = 1024%nat.
Proof.
  unfold colorHistogram_of. cbv zeta.
  rewrite length_map, fold_left_keeps_length by auto with lengths.
  apply repeat_length.
Qed.

Lemma edgeFeatures_of_length buf : length (edgeFeatures_of buf) = 16%nat.
Proof.
  unfold edgeFeatures_of. cbv zeta. rewrite length_map.
  destruct (gtb _ 0).
  - rewrite fold_left_keeps_length by auto with lengths. apply repeat_length.
  - apply repeat_length.
Qed.

Lemma textureFeatures_of_length buf : length (textureFeatures_of buf) = 256%nat.
Proof.
  unfold textureFeatures_of. cbv zeta. rewrite length_map.
  rewrite fold_left_keeps_length.
  - apply repeat_length.
  - intros acc y. apply fold_left_keeps_length. auto with lengths.
Qed.

Lemma shapeFeatures_of_length buf : length (shapeFeatures_of buf) = 7%nat.
Proof.
  unfold shapeFeatures_of. cbv zeta.
  destruct (moments buf 64 64 128) as [[[[[m00 m10] m01] m20] m11] m02].
  destruct (m00 =? 0)%Z; reflexivity.
Qed.

Lemma kmeans_step_length k pixels centroids :
  length (kmeans_step k pixels centroids) = k.
Proof.
  unfold kmeans_step. cbv zeta.
  rewrite length_map, fold_left_keeps_length by auto with lengths.
  apply repeat_length.
Qed.

Lemma flatten_triples_length (cs : list (R * R * R)) :
  length (flat_map (fun c => let '(c0, c1, c2) := c in [c0; c1; c2]) cs)
  = (3 * length cs)%nat.
Proof.
  induction cs as [|[[c0 c1] c2] cs IH]; simpl; [reflexivity|].
  simpl in IH. rewrite IH. lia.
Qed.

Lemma dominantColors_of_length random buf v :
  dominantColors_of random buf = Some v -> length v = 15%nat.
Proof.
  unfold dominantColors_of. cbv zeta.
  destruct (initial_centroids _ _ _) as [cs|]; simpl; [|discriminate].
  intros H; injection H as <-.
  rewrite length_map, flatten_triples_length.
  unfold for_range. simpl fold_left.
  rewrite kmeans_step_length. reflexivity.
Qed.

Lemma brightnessFeatures_of_length buf : length (brightnessFeatures_of buf) = 3%nat.
Proof. reflexivity. Qed.

Lemma contrastFeatures_of_length buf : length (contrastFeatures_of buf) = 1%nat.
Proof.
  unfold contrastFeatures_of. cbv zeta.
  destruct (fold_left _ _ _) as [totalContrast contrastCount]. reflexivity.
Qed.

(** *** The weight table *)

Lemma or_default_nonzero v d : v <> 0 -> or_default v d = v.
Proof. intros H. unfold or_default. rewrite eqb_false by assumption. reflexivity. Qed.

Lemma lookup_absent key obj : ~ In key (map fst obj) -> lookup key obj = None.
Proof.
  induction obj as [|[k v] obj IH]; simpl; intros H; [reflexivity|].
  destruct (String.eqb_spec key k) as [->|_].
  - exfalso; apply H; left; reflexivity.
  - apply IH. intros Hin; apply H; right; exact Hin.
Qed.

Ltac weight_of := unfold weightOf; simpl; apply or_default_nonzero; lra.

Lemma weight_colorHistogram : weightOf "colorHistogram" = 0.3.
Proof. weight_of. Qed.
Lemma weight_edgeFeatures : weightOf "edgeFeatures" = 0.15.
Proof. weight_of. Qed.
Lemma weight_textureFeatures : weightOf "textureFeatures" = 0.15.
Proof. weight_of. Qed.
Lemma weight_shapeFeatures : weightOf "shapeFeatures" = 0.1.
Proof. weight_of. Qed.
Lemma weight_dominantColors : weightOf "dominantColors" = 0.25.
Proof. weight_of. Qed.
Lemma weight_brightness : weightOf "brightness" = 0.03.
Proof. weight_of. Qed.
Lemma weight_contrast : weightOf "contrast" = 0.02.
Proof. weight_of. Qed.

Lemma weight_unrecognized key :
  ~ In key (map fst weights) -> weightOf key = 0.1.
Proof. intros H. unfold weightOf. rewrite lookup_absent by assumption. reflexivity. Qed.

(** The loop of [combineFeatures] appends one weighted sub-vector per
    entry, in the order of the entries. *)
Lemma combine_loop features combined :
  fold_left (fun combined entry =>
               let '(featureType, featureVector) := entry in
               let weight := weightOf featureType in
               let weightedFeatures := map (fun val => val * weight) featureVector in
               combined ++ weightedFeatures)
            features combined
  = combined ++ flat_map (fun entry => map (fun val => val * weightOf (fst entry))
                                           (snd entry)) features.
Proof.
  revert combined; induction features as [|[k v] features IH]; intros combined; simpl.
  - rewrite app_nil_r; reflexivity.
  - rewrite IH, app_assoc. reflexivity.
Qed.

Lemma combineFeatures_flat features :
  combineFeatures features
  = flat_map (fun entry => map (fun val => val * weightOf (fst entry)) (snd entry))
             features.
Proof. unfold combineFeatures. rewrite combine_loop. reflexivity. Qed.

Lemma combineFeatures_layout ch ef tf sf dc br ct :
  combineFeatures
    [ ("colorHistogram", ch); ("edgeFeatures", ef); ("textureFeatures", tf);
      ("shapeFeatures", sf); ("dominantColors", dc); ("brightness", br);
      ("contrast", ct) ]%string
  = layout ch ef tf sf dc br ct.
Proof.
  rewrite combineFeatures_flat. unfold layout. cbn [flat_map fst snd].
  rewrite weight_colorHistogram, weight_edgeFeatures, weight_textureFeatures,
    weight_shapeFeatures, weight_dominantColors, weight_brightness, weight_contrast.
  rewrite app_nil_r. reflexivity.
Qed.

Lemma layout_length ch ef tf sf dc br ct :
  length (layout ch ef tf sf dc br ct)
  = (length ch + length ef + length tf + length sf + length dc + length br
     + length ct)%nat.
Proof. unfold layout. rewrite !length_app, !length_map. lia. Qed.

Section Collaborators.

Variable decode : list byte -> option (list byte).
Variable resample : list byte -> nat -> nat -> nat -> ColorMode -> option (list byte).
Variable random : nat -> R.
Variable download : string -> option (list byte).

Lemma extractColorHistogram_length pb w h :
  length (extractColorHistogram resample pb w h) = 1024%nat.
Proof.
  unfold extractColorHistogram, extractColorHistogram_try, bind, try_catch.
  destruct (resample pb w h 128%nat RGB);
    [apply colorHistogram_of_length | apply repeat_length].
Qed.

Lemma extractEdgeFeatures_length pb w h :
  length (extractEdgeFeatures resample pb w h) = 16%nat.
Proof.
  unfold extractEdgeFeatures, extractEdgeFeatures_try, bind, try_catch.
  destruct (resample pb w h 64%nat Grayscale);
    [apply edgeFeatures_of_length | apply repeat_length].
Qed.

Lemma extractTextureFeatures_length pb w h :
  length (extractTextureFeatures resample pb w h) = 256%nat.
Proof.
  unfold extractTextureFeatures, extractTextureFeatures_try, bind, try_catch.
  destruct (resample pb w h 64%nat Grayscale);
    [apply textureFeatures_of_length | apply repeat_length].
Qed.

Lemma extractShapeFeatures_length pb w h :
  length (extractShapeFeatures resample pb w h) = 7%nat.
Proof.
  unfold extractShapeFeatures, extractShapeFeatures_try, bind, try_catch.
  destruct (resample pb w h 64%nat Grayscale);
    [apply shapeFeatures_of_length | apply repeat_length].
Qed.

Lemma extractDominantColors_length pb w h :
  length (extractDominantColors resample random pb w h) = 15%nat.
Proof.
  unfold extractDominantColors, extractDominantColors_try, bind, try_catch.
  destruct (resample pb w h 32%nat RGB) as [buf|]; [|apply repeat_length].
  destruct (dominantColors_of random buf) as [v|] eqn:E; [|apply repeat_length].
  apply (dominantColors_of_length random buf v E).
Qed.

Lemma extractBrightnessFeatures_length pb w h :
  length (extractBrightnessFeatures resample pb w h) = 3%nat.
Proof.
  unfold extractBrightnessFeatures, extractBrightnessFeatures_try, bind, try_catch.
  destruct (resample pb w h 64%nat Grayscale); reflexivity.
Qed.

Lemma extractContrastFeatures_length pb w h :
  length (extractContrastFeatures resample pb w h) = 1%nat.
Proof.
  unfold extractContrastFeatures, extractContrastFeatures_try, bind, try_catch.
  destruct (resample pb w h 64%nat Grayscale);
    [apply contrastFeatures_of_length | reflexivity].
Qed.

(** The fingerprint of an image is the layout of its seven sub-vectors. *)
Lemma extractAdvancedFeatures_layout imageBuffer processedBuffer :
  decode imageBuffer = Some processedBuffer ->
  extractAdvancedFeatures decode resample random imageBuffer
  = Some (layout
            (extractColorHistogram resample processedBuffer 224 224)
            (extractEdgeFeatures resample processedBuffer 224 224)
            (extractTextureFeatures resample processedBuffer 224 224)
            (extractShapeFeatures resample processedBuffer 224 224)
            (extractDominantColors resample random processedBuffer 224 224)
            (extractBrightnessFeatures resample processedBuffer 224 224)
            (extractContrastFeatures resample processedBuffer 224 224)).
Proof.
  intros H. unfold extractAdvancedFeatures, bind. rewrite H. cbv zeta.
  unfold features_of. rewrite combineFeatures_layout. reflexivity.
Qed.

(** Every image that decodes has a fingerprint, of D = 1322 elements. *)
Lemma extractAdvancedFeatures_length imageBuffer processedBuffer :
  decode imageBuffer = Some processedBuffer ->
  exists fingerprint,
    extractAdvancedFeatures decode resample random imageBuffer = Some fingerprint
    /\ length fingerprint = 1322%nat.
Proof.
  intros H. eexists; split; [apply extractAdvancedFeatures_layout; exact H|].
  rewrite layout_length, extractColorHistogram_length, extractEdgeFeatures_length,
    extractTextureFeatures_length, extractShapeFeatures_length,
    extractDominantColors_length, extractBrightnessFeatures_length,
    extractContrastFeatures_length.
  reflexivity.
Qed.

(** C1.  The specification gives every fallback vector the length
    D = 1322 of the real fingerprints.  Every image that decodes gets a
    fingerprint of exactly D elements, but the default vector that
    [extractFeaturesFromUrl] returns when the download fails has 1331
    elements. *)
Theorem default_vector_length (imageUrl : string) :
  download imageUrl = None ->
  length (extractFeaturesFromUrl decode resample random download imageUrl)
  = 1331%nat
  /\ 1331%nat <> fingerprint_length
  /\ (forall imageBuffer processedBuffer,
         decode imageBuffer = Some processedBuffer ->
         exists fingerprint,
           extractAdvancedFeatures decode resample random imageBuffer
           = Some fingerprint
           /\ length fingerprint = fingerprint_length).
Proof.
  intros H. unfold extractFeaturesFromUrl, bind, try_catch. rewrite H.
  split; [apply repeat_length|].
  split; [unfold fingerprint_length; simpl; lia|].
  intros imageBuffer processedBuffer Hd.
  apply (extractAdvancedFeatures_length imageBuffer processedBuffer Hd).
Qed.

(** C7.  [combineFeatures] multiplies every element of a sub-vector by
    the weight of its category (0.30, 0.15, 0.15, 0.10, 0.25, 0.03, 0.02
    for the seven categories, 0.10 for a name that is not in the table)
    and concatenates the weighted sub-vectors in the order
    colorHistogram, edgeFeatures, textureFeatures, shapeFeatures,
    dominantColors, brightness, contrast; the fingerprint of every image
    is built this way. *)
Theorem combineFeatures_weights_and_order :
  (weightOf "colorHistogram" = 0.3 /\ weightOf "edgeFeatures" = 0.15
   /\ weightOf "textureFeatures" = 0.15 /\ weightOf "shapeFeatures" = 0.1
   /\ weightOf "dominantColors" = 0.25 /\ weightOf "brightness" = 0.03
   /\ weightOf "contrast" = 0.02)
  /\ (forall key,
         ~ In key (map fst weights) -> ~ In key Object_prototype_names ->
         weightOf key = 0.1)
  /\ (forall features,
         combineFeatures features
         = flat_map (fun entry =>
                       map (fun val => val * weightOf (fst entry)) (snd entry))
                    features)
  /\ (forall ch ef tf sf dc br ct,
         combineFeatures
           [ ("colorHistogram", ch); ("edgeFeatures", ef); ("textureFeatures", tf);
             ("shapeFeatures", sf); ("dominantColors", dc); ("brightness", br);
             ("contrast", ct) ]%string
         = layout ch ef tf sf dc br ct)
  /\ (forall imageBuffer processedBuffer,
         decode imageBuffer = Some processedBuffer ->
         extractAdvancedFeatures decode resample random imageBuffer
         = Some (layout
                   (extractColorHistogram resample processedBuffer 224 224)
                   (extractEdgeFeatures resample processedBuffer 224 224)
                   (extractTextureFeatures resample processedBuffer 224 224)
                   (extractShapeFeatures resample processedBuffer 224 224)
                   (extractDominantColors resample random processedBuffer 224 224)
                   (extractBrightnessFeatures resample processedBuffer 224 224)
                   (extractContrastFeatures resample processedBuffer 224 224))).
Proof.
  split.
  { repeat split; auto using weight_colorHistogram, weight_edgeFeatures,
      weight_textureFeatures, weight_shapeFeatures, weight_dominantColors,
      weight_brightness, weight_contrast. }
  split; [intros key H _; apply weight_unrecognized; exact H|].
  split; [apply combineFeatures_flat|].
  split; [apply combineFeatures_layout|].
  apply extractAdvancedFeatures_layout.
Qed.

Lemma try_catch_some {A B : Type} (f : A -> B) (x : A) (fallback : B) :
  try_catch (option_map f (Some x)) fallback = f x.
Proof. reflexivity. Qed.

Lemma try_catch_none {A B : Type} (f : A -> B) (fallback : B) :
  try_catch (option_map f None) fallback = fallback.
Proof. reflexivity. Qed.

Lemma try_catch_unbound {A B : Type} (k : A -> option B) (fallback : B) :
  try_catch (bind None k) fallback = fallback.
Proof. reflexivity. Qed.

(** C8.  Once the image is decoded the pipeline always returns a
    fingerprint of 1322 elements, whatever requests of the extractors the
    resampler rejects.  Each of the seven sub-vectors depends on the
    request of its own extractor alone: it is the zero vector of its fixed
    length (1024, 16, 256, 7, 15, 3, 1) when that extractor fails, and the
    extractor's features otherwise, also when other extractors fail. *)
Theorem extractor_failure_isolated (imageBuffer processedBuffer : list byte) :
  decode imageBuffer = Some processedBuffer ->
  let request := resample processedBuffer 224 224 in
  let fingerprint :=
    layout
      (try_catch (option_map colorHistogram_of (request 128%nat RGB)) (repeat 0 1024))
      (try_catch (option_map edgeFeatures_of (request 64%nat Grayscale)) (repeat 0 16))
      (try_catch (option_map textureFeatures_of (request 64%nat Grayscale))
                 (repeat 0 256))
      (try_catch (option_map shapeFeatures_of (request 64%nat Grayscale)) (repeat 0 7))
      (try_catch (bind (request 32%nat RGB) (dominantColors_of random)) (repeat 0 15))
      (try_catch (option_map brightnessFeatures_of (request 64%nat Grayscale))
                 (repeat 0 3))
      (try_catch (option_map contrastFeatures_of (request 64%nat Grayscale))
                 (repeat 0 1)) in
  extractAdvancedFeatures decode resample random imageBuffer = Some fingerprint
  /\ length fingerprint = 1322%nat.
Proof.
  intros Hd request fingerprint.
  assert (E : layout
                (extractColorHistogram resample processedBuffer 224 224)
                (extractEdgeFeatures resample processedBuffer 224 224)
                (extractTextureFeatures resample processedBuffer 224 224)
                (extractShapeFeatures resample processedBuffer 224 224)
                (extractDominantColors resample random processedBuffer 224 224)
                (extractBrightnessFeatures resample processedBuffer 224 224)
                (extractContrastFeatures resample processedBuffer 224 224)
              = fingerprint).
  { unfold fingerprint, request, extractColorHistogram, extractEdgeFeatures,
      extractTextureFeatures, extractShapeFeatures, extractDominantColors,
      extractBrightnessFeatures, extractContrastFeatures, try_catch,
      extractColorHistogram_try, extractEdgeFeatures_try, extractTextureFeatures_try,
      extractShapeFeatures_try, extractDominantColors_try,
      extractBrightnessFeatures_try, extractContrastFeatures_try, bind, option_map.
    destruct (resample processedBuffer 224 224 128 RGB),
      (resample processedBuffer 224 224 64 Grayscale),
      (resample processedBuffer 224 224 32 RGB); reflexivity. }
  rewrite <- E. split.
  - apply extractAdvancedFeatures_layout. exact Hd.
  - rewrite layout_length, extractColorHistogram_length, extractEdgeFeatures_length,
      extractTextureFeatures_length, extractShapeFeatures_length,
      extractDominantColors_length, extractBrightnessFeatures_length,
      extractContrastFeatures_length.
    reflexivity.
Qed.

End Collaborators.

Lemma default_vector_length_witness :
  download_fails "http://example.invalid/a.png" = None
  /\ length (extractFeaturesFromUrl decode_ok resample_rejects random_zero
               download_fails "http://example.invalid/a.png") = 1331%nat.
Proof.
  split; [reflexivity|].
  apply (default_vector_length decode_ok resample_rejects random_zero
           download_fails "http://example.invalid/a.png" eq_refl).
Defined.

Lemma extractor_failure_isolated_witness :
  extractAdvancedFeatures decode_ok resample_gray_only random_zero []
  = Some (layout (repeat 0 1024)
                 (edgeFeatures_of (repeat xff 4096))
                 (textureFeatures_of (repeat xff 4096))
                 (shapeFeatures_of (repeat xff 4096))
                 (repeat 0 15)
                 (brightnessFeatures_of (repeat xff 4096))
                 (contrastFeatures_of (repeat xff 4096)))
  /\ length (layout (repeat 0 1024)
                    (edgeFeatures_of (repeat xff 4096))
                    (textureFeatures_of (repeat xff 4096))
                    (shapeFeatures_of (repeat xff 4096))
                    (repeat 0 15)
                    (brightnessFeatures_of (repeat xff 4096))
                    (contrastFeatures_of (repeat xff 4096))) = 1322%nat.
Proof.
  pose proof (extractor_failure_isolated decode_ok resample_gray_only random_zero
                [] [] eq_refl) as H.
  cbv zeta in H.
  assert (Egray : resample_gray_only [] 224 224 64 Grayscale
                  = Some (repeat xff 4096)) by reflexivity.
  assert (Ehist : resample_gray_only [] 224 224 128 RGB = None) by reflexivity.
  assert (Edom : resample_gray_only [] 224 224 32 RGB = None) by reflexivity.
  rewrite Egray, Ehist, Edom in H.
  rewrite !try_catch_some, try_catch_none, try_catch_unbound in H.
  exact H.
Defined.

End PipelineFacts.

(** ** The ranking engine *)

Module RankingFacts.
Import JS JSFacts Similarity SimilarityFacts Pipeline PipelineFacts Ranking.

(** *** Search confidence *)

Lemma sum_scores_loop results acc :
  reduce (fun sum p => sum + similarity p) acc results
  = acc + total (map similarity results).
Proof.
  unfold reduce. revert acc; induction results as [|m results IH]; intros acc; simpl.
  - lra.
  - rewrite IH. lra.
Qed.

Lemma sum_squares_loop avg results acc :
  reduce (fun sum p => sum + (similarity p - avg) ^ 2) acc results
  = acc + dot (map (fun x => x - avg) (map similarity results))
              (map (fun x => x - avg) (map similarity results)).
Proof.
  unfold reduce. revert acc; induction results as [|m results IH]; intros acc; simpl.
  - lra.
  - rewrite IH. simpl. lra.
Qed.

(** C9.  The search confidence of a non-empty result list is
    0.5 min(2 top, 1) + 0.3 max(0, 1 - 10 variance) + 0.2 min(count/10, 1),
    with the first entry's score as the top score and the population
    variance of the scores; the confidence of the empty list is 0. *)
Theorem confidence_formula (results : list Match) :
  calculateSearchConfidence results = confidence_spec (map similarity results).
Proof.
  destruct results as [|first rest]; [reflexivity|].
  unfold calculateSearchConfidence, confidence_spec. cbv zeta.
  rewrite sum_scores_loop, sum_squares_loop, !Rplus_0_l.
  unfold Math_min, Math_max, variance, deviation, centered, mean.
  rewrite !length_map.
  change (similarity first :: map similarity rest)
    with (map similarity (first :: rest)).
  set (scores := map similarity (first :: rest)).
  set (n := INR (length (first :: rest))).
  set (v := dot _ _ / n).
  unfold scores at 1. cbn [map].
  replace (similarity first * 2) with (2 * similarity first) by lra.
  replace (v * 10) with (10 * v) by lra.
  lra.
Qed.

(** *** Category inference on pipeline fingerprints *)

Lemma byte_range b : 0 <= IZR (byteZ b) <= 255.
Proof.
  unfold byteZ. pose proof (Byte.to_N_bounded b) as H.
  split; apply IZR_le; lia.
Qed.

Lemma total_range pixels :
  Forall (fun p => 0 <= p <= 255) pixels ->
  0 <= total pixels <= 255 * INR (length pixels).
Proof.
  induction 1 as [|p pixels Hp _ IH].
  - simpl. lra.
  - cbn [total]. rewrite length_cons, S_INR. lra.
Qed.

Lemma mean_range pixels :
  Forall (fun p => 0 <= p <= 255) pixels ->
  0 <= total pixels / INR (length pixels) <= 255.
Proof.
  intros H. pose proof (total_range pixels H) as Ht.
  destruct pixels as [|p pixels].
  - simpl. unfold Rdiv. rewrite Rmult_0_l. lra.
  - assert (Hn : 0 < INR (length (p :: pixels))) by (apply lt_0_INR; simpl; lia).
    split.
    + apply Rmult_le_pos; [lra | left; apply Rinv_0_lt_compat; exact Hn].
    + apply Rmult_le_reg_r with (r := INR (length (p :: pixels))); [exact Hn|].
      unfold Rdiv. rewrite Rmult_assoc, Rinv_l by lra. lra.
Qed.

Lemma squares_loop_range m pixels acc :
  0 <= m <= 255 ->
  Forall (fun p => 0 <= p <= 255) pixels ->
  acc <= reduce (fun sum pixel => sum + (pixel - m) ^ 2) acc pixels
      <= acc + 255 * 255 * INR (length pixels).
Proof.
  intros Hm H. unfold reduce. revert acc.
  induction H as [|p pixels Hp _ IH]; intros acc.
  - simpl. lra.
  - cbn [fold_left]. rewrite length_cons, S_INR.
    assert (Hsq : 0 <= (p - m) ^ 2 <= 255 * 255).
    { clear IH. replace ((p - m) ^ 2) with ((p - m) * (p - m)) by ring.
      assert (Hd : -255 <= p - m <= 255) by lra.
      split; [exact (Rle_0_sqr (p - m))|].
      assert (0 <= (255 - (p - m)) * (255 + (p - m))) by (apply Rmult_le_pos; lra).
      lra. }
    specialize (IH (acc + (p - m) ^ 2)).
    set (rest := fold_left _ pixels _) in *.
    set (sq := (p - m) ^ 2) in *.
    lra.
Qed.

(** The second brightness component, variance / 255^2, lies in [0,1]. *)
Lemma brightnessFeatures_of_shape buf :
  exists b0 b1 b2,
    brightnessFeatures_of buf = [b0; b1; b2] /\ 0 <= b1 <= 1.
Proof.
  unfold brightnessFeatures_of. cbv zeta.
  set (pixels := map (fun b => IZR (byteZ b)) buf).
  assert (Hp : Forall (fun p => 0 <= p <= 255) pixels).
  { apply Forall_forall. intros p Hin. apply in_map_iff in Hin.
    destruct Hin as (b & <- & _). apply byte_range. }
  set (mean := reduce _ 0 pixels / INR (length pixels)).
  assert (Hm : 0 <= mean <= 255).
  { unfold mean. rewrite reduce_sum_acc, total_fold, Rplus_0_l.
    apply mean_range; exact Hp. }
  do 3 eexists. split; [reflexivity|].
  pose proof (squares_loop_range mean pixels 0 Hm Hp) as Hs.
  set (sq := reduce (fun sum pixel => sum + (pixel - mean) ^ 2) 0 pixels) in *.
  clearbody mean sq.
  set (n := INR (length pixels)) in *.
  assert (Hn : 0 <= n) by apply pos_INR.
  assert (Hv : 0 <= sq / n <= 255 * 255).
  { destruct (Req_dec_T n 0) as [E|E].
    - rewrite E in *. assert (Hsq : sq = 0) by lra.
      rewrite Hsq. unfold Rdiv. rewrite Rmult_0_l. lra.
    - assert (Hpos : 0 < n) by lra. split.
      + apply Rmult_le_pos; [lra | left; apply Rinv_0_lt_compat; exact Hpos].
      + apply Rmult_le_reg_r with (r := n); [exact Hpos|].
        unfold Rdiv. rewrite Rmult_assoc, Rinv_l by lra. lra. }
  set (v := sq / n) in *.
  split.
  - apply Rmult_le_pos; [lra | left; apply Rinv_0_lt_compat; lra].
  - apply Rmult_le_reg_r with (r := 255 * 255); [lra|].
    unfold Rdiv. rewrite Rmult_assoc, Rinv_l by lra. lra.
Qed.

Lemma extractBrightnessFeatures_shape resample pb w h :
  exists b0 b1 b2,
    extractBrightnessFeatures resample pb w h = [b0; b1; b2] /\ 0 <= b1 <= 1.
Proof.
  unfold extractBrightnessFeatures, extractBrightnessFeatures_try, bind, try_catch.
  destruct (resample pb w h 64%nat Grayscale) as [buf|].
  - apply brightnessFeatures_of_shape.
  - exists 0, 0, 0. split; [reflexivity | lra].
Qed.

Lemma extractContrastFeatures_shape resample pb w h :
  exists c, extractContrastFeatures resample pb w h = [c].
Proof.
  pose proof (extractContrastFeatures_length resample pb w h) as H.
  destruct (extractContrastFeatures resample pb w h) as [|c [|c' l]];
    try discriminate.
  exists c; reflexivity.
Qed.

(** The read at offset [length - 3] of an array that ends in four given
    elements. *)
Lemma at_index_third_from_end pre a b c d :
  at_index (pre ++ [a; b; c; d]) (Z.of_nat (length (pre ++ [a; b; c; d])) - 3)
  = Some b.
Proof.
  unfold at_index. rewrite length_app. cbn [length].
  destruct (Z.ltb_spec (Z.of_nat (length pre + 4) - 3) 0) as [Hlt|_]; [lia|].
  replace (Z.to_nat (Z.of_nat (length pre + 4) - 3)) with (length pre + 1)%nat by lia.
  rewrite nth_error_app2 by lia.
  replace (length pre + 1 - length pre)%nat with 1%nat by lia.
  reflexivity.
Qed.

(** A fingerprint of the pipeline ends in the three weighted brightness
    components and the weighted contrast. *)
Lemma layout_tail ch ef tf sf dc b0 b1 b2 c :
  exists pre,
    layout ch ef tf sf dc [b0; b1; b2] [c]
    = pre ++ [b0 * 0.03; b1 * 0.03; b2 * 0.03; c * 0.02].
Proof.
  unfold layout.
  exists (map (fun val => val * 0.3) ch ++ map (fun val => val * 0.15) ef
          ++ map (fun val => val * 0.15) tf ++ map (fun val => val * 0.1) sf
          ++ map (fun val => val * 0.25) dc).
  rewrite <- !app_assoc. reflexivity.
Qed.

Lemma infer_dark (features : list R) b :
  features <> [] ->
  at_index features (Z.of_nat (length features) - 3) = Some b ->
  0 <= b <= 0.03 ->
  inferCategoryFromFeatures (Some features) = Some "Fashion"%string.
Proof.
  intros Hne Hat Hb. unfold inferCategoryFromFeatures.
  assert (Hlen : (length features =? 0)%nat = false).
  { apply Nat.eqb_neq. destruct features; simpl; congruence. }
  rewrite Hlen. cbv zeta. rewrite Hat.
  assert (Hz : 0 <= or_zero (Some b) <= 0.03).
  { unfold or_zero, or_default. destruct (eqb b 0); lra. }
  set (avgBrightness := or_zero (Some b)) in *.
  unfold gtb. rewrite (ltb_false 0.8 avgBrightness) by lra.
  rewrite (ltb_true avgBrightness 0.4) by lra.
  reflexivity.
Qed.

Lemma boosted_fashion product :
  boosted (Some "Fashion"%string) product
  = String.eqb (toLowerCase (category product)) "fashion".
Proof. reflexivity. Qed.

(** C10.  On the fingerprint of any image, [inferCategoryFromFeatures]
    reads at offset [length - 3] the second brightness component weighted
    by 0.03, a value in [0, 0.03]; it fails the [> 0.8] test and passes the
    [< 0.4] test, so the inferred category is 'Fashion', and
    [findAdvancedSimilarProducts] adds the category boost exactly to the
    candidates whose lower-cased category is 'fashion'. *)
Theorem pipeline_category_is_fashion
        (decode : list byte -> option (list byte))
        (resample : list byte -> nat -> nat -> nat -> ColorMode -> option (list byte))
        (random : nat -> R) (imageBuffer processedBuffer : list byte) :
  decode imageBuffer = Some processedBuffer ->
  exists fingerprint,
    extractAdvancedFeatures decode resample random imageBuffer = Some fingerprint
    /\ (exists b0 b1 b2,
           extractBrightnessFeatures resample processedBuffer 224 224 = [b0; b1; b2]
           /\ at_index fingerprint (Z.of_nat (length fingerprint) - 3)
              = Some (b1 * 0.03)
           /\ 0 <= b1 * 0.03 <= 0.03)
    /\ inferCategoryFromFeatures (Some fingerprint) = Some "Fashion"%string
    /\ (forall allProducts categoryBoost product,
           baseSimilarity
             (scoreProduct (Some fingerprint) allProducts categoryBoost product)
           = if String.eqb (toLowerCase (category product)) "fashion"
             then calculateAdvancedSimilarity (Some fingerprint) (colorFeatures product)
                  + categoryBoost
             else calculateAdvancedSimilarity (Some fingerprint)
                                              (colorFeatures product)).
Proof.
  intros Hd.
  destruct (extractBrightnessFeatures_shape resample processedBuffer 224 224)
    as (b0 & b1 & b2 & Hb & Hrange).
  destruct (extractContrastFeatures_shape resample processedBuffer 224 224)
    as (c & Hc).
  pose proof (extractAdvancedFeatures_layout decode resample random
                imageBuffer processedBuffer Hd) as Hfp.
  rewrite Hb, Hc in Hfp.
  destruct (layout_tail
              (extractColorHistogram resample processedBuffer 224 224)
              (extractEdgeFeatures resample processedBuffer 224 224)
              (extractTextureFeatures resample processedBuffer 224 224)
              (extractShapeFeatures resample processedBuffer 224 224)
              (extractDominantColors resample random processedBuffer 224 224)
              b0 b1 b2 c) as (pre & Hpre).
  rewrite Hpre in Hfp.
  set (fingerprint := pre ++ [b0 * 0.03; b1 * 0.03; b2 * 0.03; c * 0.02]) in *.
  assert (Hat : at_index fingerprint (Z.of_nat (length fingerprint) - 3)
                = Some (b1 * 0.03)) by apply at_index_third_from_end.
  assert (Hw : 0 <= b1 * 0.03 <= 0.03) by lra.
  assert (Hne : fingerprint <> []).
  { unfold fingerprint. destruct pre; discriminate. }
  pose proof (infer_dark fingerprint (b1 * 0.03) Hne Hat Hw) as Hinfer.
  exists fingerprint. split; [exact Hfp|].
  split; [exists b0, b1, b2; auto|].
  split; [exact Hinfer|].
  intros allProducts categoryBoost product.
  unfold scoreProduct. cbn [baseSimilarity]. rewrite Hinfer, boosted_fashion.
  reflexivity.
Qed.

Lemma pipeline_category_is_fashion_witness :
  decode_ok [] = Some []
  /\ exists fingerprint,
       extractAdvancedFeatures decode_ok resample_white random_zero []
       = Some fingerprint
       /\ inferCategoryFromFeatures (Some fingerprint) = Some "Fashion"%string.
Proof.
  split; [reflexivity|].
  destruct (pipeline_category_is_fashion decode_ok resample_white random_zero
              [] [] eq_refl) as (fingerprint & Hfp & _ & Hinfer & _).
  exists fingerprint. split; assumption.
Defined.

(** *** Ranked lists *)

Lemma compareMatches_apart a b :
  apart a b -> compareMatches a b = similarity b - similarity a.
Proof.
  unfold apart, compareMatches, gtb, Math_abs. intros H.
  rewrite ltb_true by exact H. reflexivity.
Qed.

Lemma by_key_difference (compare : Match -> Match -> R) a b :
  compare a b = similarity b - similarity a -> by_key compare similarity a b.
Proof.
  intros E. unfold by_key, gtb. rewrite E. split; intros H.
  - apply ltb_inv in H. lra.
  - apply ltb_inv_false in H. lra.
Qed.

Lemma ordered_pairs_impl {A : Type} (P Q : A -> A -> Prop) l :
  (forall a b, P a b -> Q a b) -> ForallOrdPairs P l -> ForallOrdPairs Q l.
Proof.
  intros HPQ. induction 1 as [|x l Hx _ IH]; constructor; [|exact IH].
  eapply Forall_impl; [|exact Hx]. apply HPQ.
Qed.

Lemma ordered_pairs_total {A : Type} (Q : A -> A -> Prop) l :
  (forall a b, Q a b) -> ForallOrdPairs Q l.
Proof.
  intros HQ. induction l as [|x l IH]; constructor; [|exact IH].
  apply Forall_forall. intros y _. apply HQ.
Qed.

(** Every entry of a base match is above the 0.15 floor. *)
Lemma base_match_floor q candidates limit boost :
  Forall (fun m => 0.15 < similarity m)
         (findAdvancedSimilarProducts q candidates limit boost).
Proof.
  unfold findAdvancedSimilarProducts. apply Forall_forall. intros m Hm.
  apply filter_In in Hm. destruct Hm as [_ Hm]. apply ltb_inv. exact Hm.
Qed.

Lemma base_match_limit q candidates limit boost :
  (length (findAdvancedSimilarProducts q candidates limit boost) <= limit)%nat.
Proof.
  unfold findAdvancedSimilarProducts.
  eapply Nat.le_trans; [apply filter_length_le | apply firstn_le_length].
Qed.

Lemma compareMatches_settled a b : settled a b -> by_key compareMatches similarity a b.
Proof.
  intros [E|H].
  - unfold by_key. rewrite E. split; intros _; lra.
  - apply by_key_difference, compareMatches_apart, H.
Qed.

(** Where every two scores are equal or outside the tie band the base
    match is in descending order. *)
Lemma base_match_descending q candidates limit boost :
  ForallOrdPairs settled (map (scoreProduct q candidates boost) candidates) ->
  descending (findAdvancedSimilarProducts q candidates limit boost).
Proof.
  intros H. unfold descending, findAdvancedSimilarProducts.
  apply StronglySorted_Sorted, filter_desc, firstn_desc, sort_desc.
  eapply ordered_pairs_impl; [|exact H].
  intros a b Hab. apply compareMatches_settled, Hab.
Qed.

Lemma combineSearchResults_descending strategies :
  StronglySorted (desc similarity) (combineSearchResults strategies).
Proof.
  unfold combineSearchResults.
  destruct (fold_left _ strategies _) as [allResults seenIds].
  apply sort_desc, ordered_pairs_total.
  intros a b. apply by_key_difference. reflexivity.
Qed.

Lemma topResults_descending strategies : descending (topResults strategies).
Proof.
  unfold descending, topResults.
  apply StronglySorted_Sorted, firstn_desc, combineSearchResults_descending.
Qed.

Lemma topResults_limit strategies : (length (topResults strategies) <= 12)%nat.
Proof. unfold topResults. apply firstn_le_length. Qed.

(** *** The blank fingerprint against a catalog of blank fingerprints *)

(** The fingerprint of an image whose seven extractors all fail. *)
Lemma blank_fingerprint imageBuffer :
  extractAdvancedFeatures decode_ok resample_rejects random_zero imageBuffer
  = blank_features.
Proof.
  rewrite (extractAdvancedFeatures_layout decode_ok resample_rejects random_zero
             imageBuffer imageBuffer eq_refl).
  unfold blank_features, layout, extractColorHistogram, extractEdgeFeatures,
    extractTextureFeatures, extractShapeFeatures, extractDominantColors,
    extractBrightnessFeatures, extractContrastFeatures, try_catch.
  cbn [extractColorHistogram_try extractEdgeFeatures_try extractTextureFeatures_try
       extractShapeFeatures_try extractDominantColors_try
       extractBrightnessFeatures_try extractContrastFeatures_try
       resample_rejects bind].
  change [0; 0; 0] with (repeat 0 3). change [0] with (repeat 0 1).
  rewrite !map_repeat, !Rmult_0_l, <- !repeat_app. reflexivity.
Qed.

Lemma infer_blank : inferCategoryFromFeatures blank_features = Some "Fashion"%string.
Proof.
  unfold blank_features.
  apply (infer_dark (repeat 0 1322) 0).
  - discriminate.
  - unfold at_index. rewrite repeat_length.
    change (Z.of_nat 1322 - 3)%Z with 1319%Z.
    change (1319 <? 0)%Z with false. cbv iota.
    apply nth_error_repeat. lia.
  - lra.
Qed.

Lemma blank_score : calculateAdvancedSimilarity blank_features blank_features = 0.3.
Proof. unfold blank_features. apply zero_vector_score. Qed.

Lemma averagePrice_catalog : averagePrice catalog = 200.
Proof.
  unfold averagePrice, catalog, reduce.
  cbn [map fold_left length price lamp chair sofa].
  simpl INR. lra.
Qed.

Lemma price_relevance_catalog (p : R) :
  100 <= p <= 300 ->
  calculatePriceRelevance p catalog = 1 - Rabs (p - 200) / 200.
Proof.
  intros Hp. unfold calculatePriceRelevance, Math_max, Math_abs. cbv zeta.
  rewrite averagePrice_catalog. apply Rmax_right.
  assert (Rabs (p - 200) <= 100) by (apply Rabs_le; lra).
  lra.
Qed.

(** The entry that [findAdvancedSimilarProducts] computes for a product of
    the catalog above. *)
Lemma catalog_entry (p : Product) :
  colorFeatures p = blank_features ->
  category p = "Home"%string ->
  100 <= price p <= 300 ->
  let entry := scoreProduct blank_features catalog 0.1 p in
  similarity entry = 0.3 + (1 - Rabs (price p - 200) / 200) * 0.05
  /\ categoryMatch entry = false
  /\ product entry = p.
Proof.
  intros Hf Hc Hp entry. unfold entry, scoreProduct. cbv zeta.
  cbn [similarity categoryMatch product].
  rewrite infer_blank. unfold boosted. rewrite Hc, Hf.
  change (toLowerCase "Home" =? toLowerCase "Fashion")%string with false.
  change ("Fashion" =? "Home")%string with false.
  cbv iota. rewrite blank_score, price_relevance_catalog by exact Hp.
  split; [|split; reflexivity].
  unfold Math_min. apply Rmin_right.
  assert (0 <= Rabs (price p - 200)) by apply Rabs_pos.
  lra.
Qed.

Lemma compareMatches_tie a b :
  Rabs (similarity b - similarity a) <= 0.05 ->
  categoryMatch a = categoryMatch b ->
  compareMatches a b
  = Rabs (price (product a) - 100) - Rabs (price (product b) - 100).
Proof.
  intros Hs Hc. unfold compareMatches, gtb, Math_abs.
  rewrite ltb_false by exact Hs. rewrite Hc, Bool.eqb_reflx. reflexivity.
Qed.

Lemma sort_three (compare : Match -> Match -> R) a b c :
  gtb (compare b c) 0 = false -> gtb (compare a b) 0 = false ->
  sort compare [a; b; c] = [a; b; c].
Proof.
  intros Hbc Hab. unfold sort. cbn [fold_right insert].
  rewrite Hbc. cbn [insert]. rewrite Hab. reflexivity.
Qed.

Lemma keep_three a b c :
  0.15 < similarity a -> 0.15 < similarity b -> 0.15 < similarity c ->
  filter (fun m => gtb (similarity m) 0.15) (firstn 8 [a; b; c]) = [a; b; c].
Proof.
  intros Ha Hb Hc. cbn [firstn filter]. unfold gtb.
  rewrite !ltb_true by assumption. reflexivity.
Qed.

(** The base match of the blank query over the catalog: the three
    products tie within the 0.05 band and are ordered by the distance of
    their price from 100, with scores 0.325, 0.35 and 0.325. *)
Lemma blank_base_match :
  exists a b c,
    findAdvancedSimilarProducts blank_features catalog 8 0.1 = [a; b; c]
    /\ similarity a = 0.325 /\ similarity b = 0.35 /\ similarity c = 0.325.
Proof.
  destruct (catalog_entry lamp) as (Sa & Ca & Pa);
    [reflexivity | reflexivity | simpl; lra |].
  destruct (catalog_entry chair) as (Sb & Cb & Pb);
    [reflexivity | reflexivity | simpl; lra |].
  destruct (catalog_entry sofa) as (Sc & Cc & Pc);
    [reflexivity | reflexivity | simpl; lra |].
  cbv zeta in *.
  set (a := scoreProduct blank_features catalog 0.1 lamp) in *.
  set (b := scoreProduct blank_features catalog 0.1 chair) in *.
  set (c := scoreProduct blank_features catalog 0.1 sofa) in *.
  change (price lamp) with 100 in Sa.
  change (price chair) with 200 in Sb.
  change (price sofa) with 300 in Sc.
  assert (Ea : similarity a = 0.325).
  { rewrite Sa. rewrite Rabs_left by lra. lra. }
  assert (Eb : similarity b = 0.35).
  { rewrite Sb. rewrite Rabs_pos_eq by lra. lra. }
  assert (Ec : similarity c = 0.325).
  { rewrite Sc. rewrite Rabs_pos_eq by lra. lra. }
  exists a, b, c. split; [|auto].
  unfold findAdvancedSimilarProducts. cbv zeta.
  change (map (scoreProduct blank_features catalog 0.1) catalog) with [a; b; c].
  rewrite sort_three.
  - apply keep_three; lra.
  - rewrite compareMatches_tie.
    + rewrite Pb, Pc. change (price chair) with 200. change (price sofa) with 300.
      replace (200 - 100) with 100 by lra. replace (300 - 100) with 200 by lra.
      rewrite !Rabs_pos_eq by lra. unfold gtb. apply ltb_false. lra.
    + rewrite Eb, Ec. apply Rabs_le. lra.
    + congruence.
  - rewrite compareMatches_tie.
    + rewrite Pa, Pb. change (price lamp) with 100. change (price chair) with 200.
      replace (100 - 100) with 0 by lra. replace (200 - 100) with 100 by lra.
      rewrite !Rabs_pos_eq by lra. unfold gtb. apply ltb_false. lra.
    + rewrite Ea, Eb. apply Rabs_le. lra.
    + congruence.
Qed.

(** C3, as the specification words it, fails: the base match of the blank
    query over the catalog is not in descending order of score: its first entry scores 0.325 and its second 0.35. *)
Lemma tie_band_breaks_order :
  ~ ranked 8 (findAdvancedSimilarProducts blank_features catalog 8 0.1).
Proof.
  destruct blank_base_match as (a & b & c & -> & Ea & Eb & _).
  intros (_ & _ & Hdesc). unfold descending in Hdesc.
  apply Sorted_inv in Hdesc. destruct Hdesc as [_ Hhd].
  apply HdRel_inv in Hhd. unfold desc in Hhd. lra.
Qed.

(** The merged output of a price-aware strategy that found one product
    with score 0.2: the strategy weight 0.6 takes the score under the
    floor. *)
Lemma merged_below_floor : ~ ranked 12 (topResults price_only).
Proof.
  unfold topResults, combineSearchResults, price_only.
  cbn [fold_left products name existsb lookup strategyWeights String.eqb
       Ascii.eqb Bool.eqb app sort fold_right insert firstn].
  rewrite or_default_nonzero by lra.
  intros (Hfloor & _). apply Forall_inv in Hfloor.
  cbn [similarity price_match] in Hfloor. lra.
Qed.

(** The scores of the blank query over the boutique: 0.35 for the lamp
    and, with the category boost, 0.45 for the shirt. *)
Lemma boutique_scores :
  similarity (scoreProduct blank_features boutique 0.1 lamp) = 0.35
  /\ similarity (scoreProduct blank_features boutique 0.1 shirt) = 0.45.
Proof.
  assert (Hrel : calculatePriceRelevance 100 boutique = 1).
  { unfold calculatePriceRelevance, averagePrice, boutique, reduce, Math_max, Math_abs.
    cbn [map fold_left length price lamp shirt]. simpl INR.
    replace ((0 + 100 + 100) / (1 + 1)) with 100 by lra.
    replace (100 - 100) with 0 by lra. rewrite Rabs_R0.
    rewrite Rmax_right by lra. lra. }
  unfold scoreProduct. cbv zeta. cbn [similarity].
  rewrite infer_blank. unfold boosted.
  cbn [category colorFeatures price lamp shirt].
  change (toLowerCase "Home" =? toLowerCase "Fashion")%string with false.
  change (toLowerCase "Fashion" =? toLowerCase "Fashion")%string with true.
  cbv iota. rewrite blank_score, Hrel. unfold Math_min.
  split; (rewrite Rmin_right by lra; lra).
Qed.

(** C3.  On a candidate set whose average price is not 0 a base match
    holds only entries with a score above 0.15 and at most [limit]
    entries, and it is in descending order of score whenever every two
    candidates' scores are equal or more than 0.05 apart; the merged
    output is in descending order of the weighted score and holds at most
    12 entries. *)
Theorem ranking_guarantees (uploadedFeatures : option (list R))
        (candidates : list Product) (limit : nat) (categoryBoost : R)
        (searchStrategies : list Strategy) :
  priced candidates ->
  let base :=
    findAdvancedSimilarProducts uploadedFeatures candidates limit categoryBoost in
  Forall (fun m => 0.15 < similarity m) base
  /\ (length base <= limit)%nat
  /\ (ForallOrdPairs settled
        (map (scoreProduct uploadedFeatures candidates categoryBoost) candidates) ->
      descending base)
  /\ descending (topResults searchStrategies)
  /\ (length (topResults searchStrategies) <= 12)%nat.
Proof.
  intros _ base. unfold base.
  split; [apply base_match_floor|].
  split; [apply base_match_limit|].
  split; [apply base_match_descending|].
  split; [apply topResults_descending | apply topResults_limit].
Qed.

Lemma ranking_guarantees_witness :
  priced boutique
  /\ ForallOrdPairs settled (map (scoreProduct blank_features boutique 0.1) boutique)
  /\ Forall (fun m => 0.15 < similarity m)
            (findAdvancedSimilarProducts blank_features boutique 8 0.1)
  /\ (length (findAdvancedSimilarProducts blank_features boutique 8 0.1) <= 8)%nat
  /\ descending (findAdvancedSimilarProducts blank_features boutique 8 0.1)
  /\ descending (topResults price_only)
  /\ (length (topResults price_only) <= 12)%nat.
Proof.
  assert (Hp : priced boutique).
  { intros _. unfold averagePrice, boutique, reduce.
    cbn [map fold_left length price lamp shirt]. simpl INR. lra. }
  assert (Hs : ForallOrdPairs settled
                 (map (scoreProduct blank_features boutique 0.1) boutique)).
  { destruct boutique_scores as [Hlamp Hshirt].
    cbn [map boutique]. constructor; [|constructor; [constructor | constructor]].
    constructor; [|constructor].
    right. unfold apart. rewrite Hlamp, Hshirt.
    replace (0.45 - 0.35) with 0.1 by lra. rewrite Rabs_pos_eq by lra. lra. }
  destruct (ranking_guarantees blank_features boutique 8 0.1 price_only Hp)
    as (Hfloor & Hlimit & Horder & Hdesc & Htop).
  repeat split; try assumption. apply Horder, Hs.
Defined.

End RankingFacts.

(** * Further properties of the code *)

(** ** The guard of the similarity score *)

Module SimilarityBounds.
Import JS JSFacts Similarity SimilarityFacts.

(** X1.  An absent vector, or two vectors of different lengths (so also an
    empty vector against a non-empty one), score exactly 0. *)
Theorem incomparable_vectors_score_zero (f1 f2 : option (list R)) :
  (f1 = None \/ f2 = None
   \/ exists a b, f1 = Some a /\ f2 = Some b /\ length a <> length b) ->
  calculateAdvancedSimilarity f1 f2 = 0.
Proof. apply similarity_guard. Qed.

Lemma incomparable_vectors_score_zero_witness :
  calculateAdvancedSimilarity (Some []) (Some [1; 2]) = 0
  /\ calculateAdvancedSimilarity None (Some [1; 2]) = 0.
Proof.
  split; apply incomparable_vectors_score_zero.
  - right; right. exists [], [1; 2]. repeat split. simpl. lia.
  - left; reflexivity.
Defined.

End SimilarityBounds.

(** ** Value ranges and normalisation of the extractors *)

Module PipelineRanges.
Import JS JSFacts Similarity SimilarityFacts Pipeline PipelineFacts Gamut.

Lemma quotient_range n d : 0 < d -> - d <= n <= d -> -1 <= n / d <= 1.
Proof.
  intros Hd Hn. split.
  - apply Rmult_le_reg_r with (r := d); [exact Hd|].
    unfold Rdiv. rewrite Rmult_assoc, Rinv_l by lra. lra.
  - apply Rmult_le_reg_r with (r := d); [exact Hd|].
    unfold Rdiv. rewrite Rmult_assoc, Rinv_l by lra. lra.
Qed.

Lemma fraction_range n d : 0 < d -> 0 <= n <= d -> 0 <= n / d <= 1.
Proof.
  intros Hd Hn. split.
  - apply Rmult_le_pos; [lra | left; apply Rinv_0_lt_compat; exact Hd].
  - apply Rmult_le_reg_r with (r := d); [exact Hd|].
    unfold Rdiv. rewrite Rmult_assoc, Rinv_l by lra. lra.
Qed.

(** The remainder by 6 of a number in [-1, 1] is the number itself. *)
Lemma rem_small x : -1 <= x <= 1 -> rem x 6 = x.
Proof.
  intros Hx. unfold rem, trunc.
  destruct (Rlt_dec (x / 6) 0) as [Hneg|Hpos].
  - rewrite (Zceil_eq 0); [simpl; lra|]. simpl. lra.
  - rewrite (Zfloor_eq 0); [simpl; lra|]. simpl. lra.
Qed.

Lemma rgbToHsv_range3 (r g b : R) :
  0 <= r <= 1 -> 0 <= g <= 1 -> 0 <= b <= 1 ->
  let '(h, s, v) := rgbToHsv r g b in
  0 <= h <= 1 /\ 0 <= s <= 1 /\ 0 <= v <= 1
  /\ (r = g -> g = b -> h = 0 /\ s = 0).
Proof.
  intros Hr Hg Hb. unfold rgbToHsv. cbv zeta.
  set (max := Math_max r (Math_max g b)).
  set (min := Math_min r (Math_min g b)).
  assert (Hmax : r <= max /\ g <= max /\ b <= max /\ max <= 1).
  { unfold max, Math_max, Rmax. repeat destruct (Rle_dec _ _); lra. }
  assert (Hmin : min <= r /\ min <= g /\ min <= b /\ 0 <= min).
  { unfold min, Math_min, Rmin. repeat destruct (Rle_dec _ _); lra. }
  assert (Hgray : r = g -> g = b -> max - min = 0).
  { intros -> ->. unfold max, min, Math_max, Math_min, Rmax, Rmin.
    repeat destruct (Rle_dec _ _); lra. }
  clearbody max min.
  set (diff := max - min) in *.
  assert (Hdiff : 0 <= diff) by (unfold diff; lra).
  set (h0 := if negb (eqb diff 0) then _ else 0).
  assert (Hh0 : -1 <= h0 <= 5 /\ (diff = 0 -> h0 = 0)).
  { unfold h0. destruct (Req_dec_T diff 0) as [E|E];
      [rewrite (eqb_true _ _ E) | rewrite (eqb_false _ _ E)]; cbn [negb].
    - split; [lra | reflexivity].
    - split; [|contradiction].
      assert (Hd : 0 < diff) by lra.
      destruct (eqb max r).
      + rewrite rem_small; [|apply quotient_range; unfold diff in *; lra].
        pose proof (quotient_range (g - b) diff Hd) as Q.
        assert (- diff <= g - b <= diff) by (unfold diff; lra). lra.
      + destruct (eqb max g).
        * pose proof (quotient_range (b - r) diff Hd) as Q.
          assert (- diff <= b - r <= diff) by (unfold diff; lra). lra.
        * pose proof (quotient_range (r - g) diff Hd) as Q.
          assert (- diff <= r - g <= diff) by (unfold diff; lra). lra. }
  clearbody h0.
  assert (Hs : 0 <= (if eqb max 0 then 0 else diff / max) <= 1
               /\ (diff = 0 -> (if eqb max 0 then 0 else diff / max) = 0)).
  { unfold eqb. destruct (Req_dec_T max 0) as [E|E].
    - split; [lra | reflexivity].
    - split.
      + apply fraction_range; unfold diff; lra.
      + intros ->. unfold Rdiv. apply Rmult_0_l. }
  destruct Hh0 as [Hh0 Hh0z]. destruct Hs as [Hs Hsz].
  split.
  { unfold ltb. destruct (Rlt_dec (h0 / 6) 0); lra. }
  split; [exact Hs|].
  split; [lra|].
  intros E1 E2. specialize (Hgray E1 E2).
  rewrite (Hh0z Hgray). split; [|apply Hsz; exact Hgray].
  unfold ltb. destruct (Rlt_dec (0 / 6) 0); lra.
Qed.

(** X6.  [rgbToHsv] maps three channels in [0, 1] to a hue, a saturation and
    a value in [0, 1]; a gray pixel has hue 0 and saturation 0. *)
Theorem rgbToHsv_range (r g b : R) :
  0 <= r <= 1 -> 0 <= g <= 1 -> 0 <= b <= 1 ->
  let '(h, s, v) := rgbToHsv r g b in
  0 <= h <= 1 /\ 0 <= s <= 1 /\ 0 <= v <= 1
  /\ (r = g -> g = b -> h = 0 /\ s = 0).
Proof. apply rgbToHsv_range3. Qed.

Lemma rgbToHsv_range_witness :
  0 <= 1 <= 1 /\ 0 <= 0 <= 1
  /\ (let '(h, s, v) := rgbToHsv 1 0 0 in 0 <= v <= 1).
Proof.
  assert (H1 : 0 <= 1 <= 1) by lra. assert (H0 : 0 <= 0 <= 1) by lra.
  split; [exact H1 | split; [exact H0|]].
  pose proof (rgbToHsv_range 1 0 0 H1 H0 H0) as H.
  destruct (rgbToHsv 1 0 0) as [[h s] v]. tauto.
Defined.

(** *** Histograms *)

Lemma fold_left_invariant {A B : Type} (P : A -> Prop) (f : A -> B -> A) l a :
  P a -> (forall a x, P a -> P (f a x)) -> P (fold_left f l a).
Proof.
  intros Ha Hf. revert a Ha; induction l as [|x l IH]; intros a Ha; simpl; auto.
Qed.

Lemma update_total arr i :
  (i < length arr)%nat -> total (update arr i (fun v => v + 1)) = total arr + 1.
Proof.
  revert i; induction arr as [|v arr IH]; intros [|i] H; simpl in *; try lia.
  - lra.
  - rewrite IH by lia. lra.
Qed.

Lemma increment_total arr index :
  (0 <= index < Z.of_nat (length arr))%Z ->
  total (increment arr index) = total arr + 1.
Proof.
  intros H. unfold increment.
  destruct (Z.ltb_spec index 0); [lia|]. apply update_total. lia.
Qed.

Lemma update_Forall {A : Type} (P : A -> Prop) arr i f :
  Forall P arr -> (forall v, P v -> P (f v)) -> Forall P (update arr i f).
Proof.
  intros H Hf. revert i; induction H as [|v arr Hv Harr IH]; intros [|i]; simpl;
    constructor; auto.
Qed.

Lemma increment_nonneg arr index :
  Forall (fun v => 0 <= v) arr -> Forall (fun v => 0 <= v) (increment arr index).
Proof.
  intros H. unfold increment. destruct (index <? 0)%Z; [exact H|].
  apply update_Forall; [exact H | intros v Hv; lra].
Qed.

Lemma assign_nonneg arr index v :
  0 <= v -> Forall (fun v => 0 <= v) arr -> Forall (fun v => 0 <= v) (assign arr index v).
Proof.
  intros Hv H. unfold assign. destruct (index <? 0)%Z; [exact H|].
  apply update_Forall; [exact H | intros; exact Hv].
Qed.

(** A loop of in-range increments adds one to the sum of the bins per
    iteration. *)
Lemma increments_total {A : Type} (index : A -> Z) l hist :
  Forall (fun x => (0 <= index x < Z.of_nat (length hist))%Z) l ->
  total (fold_left (fun h x => increment h (index x)) l hist)
  = total hist + INR (length l).
Proof.
  intros H. revert hist H; induction l as [|x l IH]; intros hist H.
  - simpl. lra.
  - inversion_clear H as [|? ? Hx Hl]. cbn [fold_left]. rewrite IH.
    + rewrite increment_total by exact Hx. rewrite length_cons, S_INR. lra.
    + rewrite increment_length. exact Hl.
Qed.

Lemma nested_increments_total (index : Z -> Z -> Z) xs ys hist :
  (forall x y, (0 <= index x y < Z.of_nat (length hist))%Z) ->
  total (fold_left
           (fun h y => fold_left (fun h x => increment h (index x y)) xs h) ys hist)
  = total hist + INR (length ys) * INR (length xs).
Proof.
  intros H. revert hist H; induction ys as [|y ys IH]; intros hist H.
  - simpl. lra.
  - cbn [fold_left]. rewrite IH.
    + rewrite (increments_total (fun x => index x y)).
      * rewrite length_cons, S_INR. lra.
      * apply Forall_forall. intros x _. apply H.
    + intros x y'. rewrite fold_left_keeps_length by (intros; apply increment_length).
      apply H.
Qed.

Lemma total_scaled l d : total (map (fun count => count / d) l) = total l / d.
Proof.
  induction l as [|x l IH]; simpl.
  - unfold Rdiv. rewrite Rmult_0_l. reflexivity.
  - rewrite IH. unfold Rdiv. lra.
Qed.

Lemma scaled_nonneg l d :
  0 < d -> Forall (fun v => 0 <= v) l ->
  Forall (fun v => 0 <= v) (map (fun count => count / d) l).
Proof.
  intros Hd H. apply Forall_forall. intros v Hv. apply in_map_iff in Hv.
  destruct Hv as (c & <- & Hc). rewrite Forall_forall in H.
  apply Rmult_le_pos; [apply H; exact Hc | left; apply Rinv_0_lt_compat; exact Hd].
Qed.

Lemma zeros_nonneg n : Forall (fun v => 0 <= v) (repeat 0 n).
Proof. apply Forall_forall. intros v Hv. apply repeat_spec in Hv. lra. Qed.

Lemma zeros_total n : total (repeat 0 n) = 0.
Proof. rewrite total_repeat. lra. Qed.

Lemma byteZ_range b : (0 <= byteZ b <= 255)%Z.
Proof. unfold byteZ. pose proof (Byte.to_N_bounded b). lia. Qed.

Lemma channel_range z : (0 <= z <= 255)%Z -> 0 <= IZR z / 255 <= 1.
Proof.
  intros [H0 H1]. apply IZR_le in H0. apply IZR_le in H1.
  apply fraction_range; lra.
Qed.

Lemma rgb_triples_range buffer :
  Forall (fun p => let '(r, g, b) := p in
                   (0 <= r <= 255 /\ 0 <= g <= 255 /\ 0 <= b <= 255)%Z)
         (rgb_triples buffer).
Proof.
  assert (H : forall n buffer, (length buffer <= n)%nat ->
              Forall (fun p => let '(r, g, b) := p in
                               (0 <= r <= 255 /\ 0 <= g <= 255 /\ 0 <= b <= 255)%Z)
                     (rgb_triples buffer)).
  { induction n as [|n IH]; intros [|r [|g [|b rest]]] Hlen; simpl in *;
      try constructor; try lia.
    - auto using byteZ_range.
    - apply IH. lia. }
  apply (H (length buffer)). lia.
Qed.

Lemma rgb_triples_nonempty buffer :
  (3 <= length buffer)%nat -> rgb_triples buffer <> [].
Proof. destruct buffer as [|r [|g [|b rest]]]; simpl; intros H; try lia. discriminate. Qed.

Lemma hist_index_range r g b :
  (0 <= r <= 255)%Z -> (0 <= g <= 255)%Z -> (0 <= b <= 255)%Z ->
  (0 <= hist_index (rgbToHsv (IZR r / 255) (IZR g / 255) (IZR b / 255)) < 1024)%Z.
Proof.
  intros Hr Hg Hb.
  pose proof (rgbToHsv_range3 (IZR r / 255) (IZR g / 255) (IZR b / 255)
                (channel_range r Hr) (channel_range g Hg) (channel_range b Hb)) as H.
  pose proof (hist_index_bound
                (rgbToHsv (IZR r / 255) (IZR g / 255) (IZR b / 255))) as Hup.
  destruct (rgbToHsv _ _ _) as [[h s] v]. destruct H as (Hh & Hs & Hv & _).
  split; [|lia].
  unfold hist_index. cbv zeta. unfold Math_floor.
  assert (0 <= Zfloor (h * 16))%Z by (apply Zfloor_lub; simpl; lra).
  assert (0 <= Zfloor (s * 8))%Z by (apply Zfloor_lub; simpl; lra).
  assert (0 <= Zfloor (v * 8))%Z by (apply Zfloor_lub; simpl; lra).
  lia.
Qed.

(** X7.  The colour histogram of a sample buffer that holds at least one
    pixel has no negative bin and its 1024 bins sum to 1. *)
Theorem colorHistogram_normalised (sampleBuffer : list byte) :
  (3 <= length sampleBuffer)%nat ->
  Forall (fun v => 0 <= v) (colorHistogram_of sampleBuffer)
  /\ total (colorHistogram_of sampleBuffer) = 1.
Proof.
  intros Hlen. unfold colorHistogram_of. cbv zeta.
  set (pixels := map _ (rgb_triples sampleBuffer)).
  assert (Hn : 0 < INR (length pixels)).
  { apply lt_0_INR. unfold pixels. rewrite length_map.
    pose proof (rgb_triples_nonempty sampleBuffer Hlen).
    destruct (rgb_triples sampleBuffer); [congruence | simpl; lia]. }
  assert (Hidx : Forall (fun hsv =>
                   (0 <= hist_index hsv < Z.of_nat (length (repeat 0 (16 * 8 * 8))))%Z)
                   pixels).
  { unfold pixels. apply Forall_forall. intros hsv Hin.
    apply in_map_iff in Hin. destruct Hin as ([[r g] b] & <- & Hin).
    pose proof (rgb_triples_range sampleBuffer) as Hb.
    rewrite Forall_forall in Hb. specialize (Hb _ Hin). cbv beta iota in Hb.
    rewrite repeat_length.
    change (Z.of_nat (16 * 8 * 8)) with 1024%Z.
    apply hist_index_range; tauto. }
  split.
  - apply scaled_nonneg; [exact Hn|].
    apply fold_left_invariant; [apply zeros_nonneg|].
    intros a x Ha. apply increment_nonneg, Ha.
  - rewrite total_scaled, (increments_total hist_index) by exact Hidx.
    rewrite zeros_total. field. lra.
Qed.

Lemma colorHistogram_normalised_witness :
  (3 <= length [x10; x20; x30])%nat
  /\ total (colorHistogram_of [x10; x20; x30]) = 1.
Proof.
  split; [simpl; lia|].
  apply (colorHistogram_normalised [x10; x20; x30]). simpl; lia.
Defined.

(** X8.  The texture histogram has no negative bin and its 256 bins sum to
    1: each of the 62 x 62 interior pixels falls in exactly one bin. *)
Theorem textureFeatures_normalised (grayBuffer : list byte) :
  Forall (fun v => 0 <= v) (textureFeatures_of grayBuffer)
  /\ total (textureFeatures_of grayBuffer) = 1.
Proof.
  unfold textureFeatures_of. cbv zeta.
  change (IZR ((64 - 2) * (64 - 2))) with 3844.
  split.
  - apply scaled_nonneg; [lra|].
    apply fold_left_invariant; [apply zeros_nonneg|].
    intros a y Ha. apply fold_left_invariant; [exact Ha|].
    intros a' x Ha'. apply increment_nonneg, Ha'.
  - rewrite total_scaled.
    rewrite (nested_increments_total (fun x y => lbp grayBuffer 64 x y)).
    + rewrite zeros_total.
      change (length (zrange 1 (64 - 1))) with 62%nat.
      replace (INR 62) with 62 by (simpl; lra). lra.
    + intros x y. rewrite repeat_length.
      pose proof (lbp_bound grayBuffer 64 x y). simpl. lia.
Qed.

(** The strengths of the edge map are never negative. *)
Lemma sobel_nonneg grayBuffer w x y : 0 <= sobel grayBuffer w x y.
Proof.
  unfold sobel. destruct (fold_left _ _ _) as [gx gy]. apply sqrt_pos.
Qed.

Lemma edge_bin_range maxEdge strength :
  0 < maxEdge -> 0 <= strength -> (0 <= edge_bin maxEdge strength < 16)%Z.
Proof.
  intros Hm Hs. pose proof (edge_bin_bound maxEdge strength) as Hup.
  split; [|lia]. unfold edge_bin, Math_floor.
  assert (0 <= Zfloor (strength / maxEdge * 16))%Z; [|lia].
  apply Zfloor_lub. simpl.
  assert (0 <= strength / maxEdge).
  { apply Rmult_le_pos; [exact Hs | left; apply Rinv_0_lt_compat; exact Hm]. }
  lra.
Qed.

(** X9.  The edge histogram has no negative bin; either all of its 16 bins
    are 0 (the largest gradient magnitude is 0) or they sum to 1. *)
Theorem edgeFeatures_normalised (grayBuffer : list byte) :
  Forall (fun v => 0 <= v) (edgeFeatures_of grayBuffer)
  /\ (Forall (fun v => v = 0) (edgeFeatures_of grayBuffer)
      \/ total (edgeFeatures_of grayBuffer) = 1).
Proof.
  unfold edgeFeatures_of. cbv zeta.
  set (edgeStrength := fold_left _ (zrange 1 (64 - 1)) _).
  assert (Hlen : length edgeStrength = 4096%nat).
  { unfold edgeStrength. rewrite fold_left_keeps_length.
    - rewrite repeat_length. reflexivity.
    - intros acc y. apply fold_left_keeps_length. intros; apply assign_length. }
  assert (Hpos : Forall (fun v => 0 <= v) edgeStrength).
  { unfold edgeStrength. apply fold_left_invariant; [apply zeros_nonneg|].
    intros a y Ha. apply fold_left_invariant; [exact Ha|].
    intros a' x Ha'. apply assign_nonneg; [apply sobel_nonneg | exact Ha']. }
  clearbody edgeStrength.
  assert (Hn : 0 < INR (length edgeStrength)).
  { rewrite Hlen. apply lt_0_INR. lia. }
  set (maxEdge := Math_max_spread edgeStrength).
  unfold gtb. destruct (ltb 0 maxEdge) eqn:E.
  - apply ltb_inv in E.
    assert (Hidx : Forall (fun strength =>
                     (0 <= edge_bin maxEdge strength
                      < Z.of_nat (length (repeat 0 16)))%Z) edgeStrength).
    { eapply Forall_impl; [|exact Hpos]. intros v Hv. cbv beta.
      rewrite repeat_length. apply edge_bin_range; assumption. }
    split.
    + apply scaled_nonneg; [exact Hn|].
      apply fold_left_invariant; [apply zeros_nonneg|].
      intros a x Ha. apply increment_nonneg, Ha.
    + right. rewrite total_scaled, (increments_total (edge_bin maxEdge)) by exact Hidx.
      rewrite zeros_total. field. lra.
  - split.
    + apply scaled_nonneg; [exact Hn | apply zeros_nonneg].
    + left. rewrite map_repeat. apply Forall_forall. intros v Hv.
      apply repeat_spec in Hv. subst v. unfold Rdiv. apply Rmult_0_l.
Qed.

(** *** Shape, brightness and contrast *)

Lemma fold_left_invariant_In {A B : Type} (P : A -> Prop) (f : A -> B -> A) l a :
  P a -> (forall a x, In x l -> P a -> P (f a x)) -> P (fold_left f l a).
Proof.
  revert a; induction l as [|x l IH]; intros a Ha Hf; simpl; [exact Ha|].
  apply IH.
  - apply Hf; [left; reflexivity | exact Ha].
  - intros a' x' Hin. apply Hf. right; exact Hin.
Qed.

Lemma px_range buffer i : (0 <= px buffer i <= 255)%Z.
Proof. unfold px. apply byteZ_range. Qed.

Lemma px_dark buffer i :
  Forall (fun b => (byteZ b <= 128)%Z) buffer -> (px buffer i <= 128)%Z.
Proof.
  intros H. unfold px.
  destruct (nth_in_or_default (Z.to_nat i) buffer x00) as [Hin|Hd].
  - rewrite Forall_forall in H. apply H, Hin.
  - rewrite Hd. vm_compute. discriminate.
Qed.

(** X10.  An image with no pixel above the threshold 128 has no foreground,
    and its shape descriptor is the zero vector of length 7. *)
Theorem shapeFeatures_dark (grayBuffer : list byte) :
  Forall (fun b => (byteZ b <= 128)%Z) grayBuffer ->
  shapeFeatures_of grayBuffer = [0; 0; 0; 0; 0; 0; 0].
Proof.
  intros Hdark. unfold shapeFeatures_of. cbv zeta.
  assert (Hm : moments grayBuffer 64 64 128 = (0, 0, 0, 0, 0, 0)%Z).
  { unfold moments.
    apply (fold_left_invariant (fun acc => acc = (0, 0, 0, 0, 0, 0)%Z));
      [reflexivity|].
    intros acc y Hacc.
    apply (fold_left_invariant (fun acc => acc = (0, 0, 0, 0, 0, 0)%Z));
      [exact Hacc|].
    intros acc' x ->.
    pose proof (px_dark grayBuffer (y * 64 + x) Hdark) as Hpx.
    destruct (Z.ltb_spec 128 (px grayBuffer (y * 64 + x))); [lia|].
    repeat f_equal; lia. }
  rewrite Hm. reflexivity.
Qed.

Lemma shapeFeatures_dark_witness :
  Forall (fun b => (byteZ b <= 128)%Z) [x00; x7f; x80]
  /\ shapeFeatures_of [x00; x7f; x80] = [0; 0; 0; 0; 0; 0; 0].
Proof.
  assert (H : Forall (fun b => (byteZ b <= 128)%Z) [x00; x7f; x80]).
  { repeat constructor; vm_compute; discriminate. }
  split; [exact H | apply (shapeFeatures_dark [x00; x7f; x80] H)].
Defined.

Lemma pixels_range (grayBuffer : list byte) :
  Forall (fun p => 0 <= p <= 255) (map (fun b => IZR (byteZ b)) grayBuffer).
Proof.
  apply Forall_forall. intros p Hin. apply in_map_iff in Hin.
  destruct Hin as (b & <- & _).
  pose proof (byteZ_range b) as [H0 H1]. split; apply IZR_le; assumption.
Qed.

(** X11.  The first two brightness features, mean / 255 and
    variance / 255^2, lie in [0, 1] for every gray buffer. *)
Theorem brightnessFeatures_range (grayBuffer : list byte) :
  exists mean variance skewness,
    brightnessFeatures_of grayBuffer = [mean; variance; skewness]
    /\ 0 <= mean <= 1 /\ 0 <= variance <= 1.
Proof.
  unfold brightnessFeatures_of. cbv zeta.
  pose proof (pixels_range grayBuffer) as Hp.
  set (pixels := map (fun b => IZR (byteZ b)) grayBuffer) in *.
  set (mean := reduce (fun sum pixel => sum + pixel) 0 pixels / INR (length pixels)).
  assert (Hm : 0 <= mean <= 255).
  { unfold mean. rewrite reduce_sum_acc, total_fold, Rplus_0_l.
    apply RankingFacts.mean_range; exact Hp. }
  do 3 eexists. split; [reflexivity|].
  pose proof (RankingFacts.squares_loop_range mean pixels 0 Hm Hp) as Hs.
  set (sq := reduce (fun sum pixel => sum + (pixel - mean) ^ 2) 0 pixels) in *.
  clearbody mean sq.
  set (n := INR (length pixels)) in *.
  assert (Hn : 0 <= n) by apply pos_INR.
  assert (Hv : 0 <= sq / n <= 255 * 255).
  { destruct (Req_dec_T n 0) as [E|E].
    - rewrite E in *. assert (Hsq : sq = 0) by lra.
      rewrite Hsq. unfold Rdiv. rewrite Rmult_0_l. lra.
    - assert (Hpos : 0 < n) by lra. split.
      + apply Rmult_le_pos; [lra | left; apply Rinv_0_lt_compat; exact Hpos].
      + apply Rmult_le_reg_r with (r := n); [exact Hpos|].
        unfold Rdiv. rewrite Rmult_assoc, Rinv_l by lra. lra. }
  set (v := sq / n) in *.
  split; apply fraction_range; lra.
Qed.

Lemma squares_loop_flat m pixels acc :
  Forall (fun p => p = m) pixels ->
  reduce (fun sum pixel => sum + (pixel - m) ^ 2) acc pixels = acc.
Proof.
  intros H. unfold reduce. revert acc; induction H as [|p pixels Hp _ IH]; intros acc.
  - reflexivity.
  - cbn [fold_left]. rewrite IH, Hp. ring.
Qed.

(** X12.  A gray buffer of one repeated value [v] has the brightness
    features [v / 255, 0, 0]: the variance and the skewness of a uniform
    image are 0. *)
Theorem brightnessFeatures_uniform (value : byte) (n : nat) :
  n <> O ->
  brightnessFeatures_of (repeat value n) = [IZR (byteZ value) / 255; 0; 0].
Proof.
  intros Hn. unfold brightnessFeatures_of. cbv zeta.
  rewrite map_repeat. set (v := IZR (byteZ value)).
  rewrite reduce_sum_acc, total_fold, total_repeat, repeat_length, Rplus_0_l.
  assert (Hnz : INR n <> 0) by (apply not_0_INR; exact Hn).
  replace (INR n * v / INR n) with v by (field; exact Hnz).
  rewrite squares_loop_flat
    by (apply Forall_forall; intros p Hp; apply repeat_spec in Hp; exact Hp).
  unfold gtb. rewrite ltb_false; [|unfold Rdiv; rewrite Rmult_0_l; lra].
  replace (0 / INR n / (255 * 255)) with 0
    by (unfold Rdiv; rewrite !Rmult_0_l; reflexivity).
  reflexivity.
Qed.

Lemma brightnessFeatures_uniform_witness :
  4096%nat <> O
  /\ brightnessFeatures_of (repeat xff 4096) = [IZR (byteZ xff) / 255; 0; 0].
Proof.
  split; [discriminate|].
  apply (brightnessFeatures_uniform xff 4096). discriminate.
Defined.

Lemma local_contrast_range (center n0 n1 n2 n3 : Z) :
  (0 <= center <= 255)%Z -> (0 <= n0 <= 255)%Z -> (0 <= n1 <= 255)%Z ->
  (0 <= n2 <= 255)%Z -> (0 <= n3 <= 255)%Z ->
  0 <= reduce (fun sum neighbor => sum + IZR (Z.abs (center - neighbor)))
              0 [n0; n1; n2; n3] / 4 <= 255.
Proof.
  intros Hc H0 H1 H2 H3. unfold reduce. cbn [fold_left].
  assert (A : forall n, (0 <= n <= 255)%Z -> 0 <= IZR (Z.abs (center - n)) <= 255).
  { intros n Hn. split; apply IZR_le; lia. }
  pose proof (A n0 H0). pose proof (A n1 H1). pose proof (A n2 H2).
  pose proof (A n3 H3). lra.
Qed.

(** X13.  The contrast feature lies in [0, 1] for every gray buffer. *)
Theorem contrastFeatures_range (grayBuffer : list byte) :
  exists contrast,
    contrastFeatures_of grayBuffer = [contrast] /\ 0 <= contrast <= 1.
Proof.
  unfold contrastFeatures_of. cbv zeta.
  set (loop := fold_left _ (zrange 1 (64 - 1)) (0, O)).
  assert (H : let '(t, c) := loop in 0 <= t <= 255 * INR c).
  { unfold loop.
    apply (fold_left_invariant (fun acc => let '(t, c) := acc in 0 <= t <= 255 * INR c)).
    - simpl. lra.
    - intros acc y Hacc.
      apply (fold_left_invariant
               (fun acc => let '(t, c) := acc in 0 <= t <= 255 * INR c));
        [exact Hacc|].
      intros [t c] x Ht. rewrite S_INR.
      pose proof (local_contrast_range
                    (px grayBuffer (y * 64 + x))
                    (px grayBuffer ((y - 1) * 64 + x))
                    (px grayBuffer (y * 64 + (x + 1)))
                    (px grayBuffer ((y + 1) * 64 + x))
                    (px grayBuffer (y * 64 + (x - 1)))
                    (px_range _ _) (px_range _ _) (px_range _ _)
                    (px_range _ _) (px_range _ _)) as Hl.
      set (l := reduce _ 0 _ / 4) in *. lra. }
  destruct loop as [t c]. eexists. split; [reflexivity|].
  destruct (Nat.ltb_spec 0 c) as [Hc|Hc].
  - assert (0 < INR c) by (apply lt_0_INR; exact Hc).
    assert (0 <= t / INR c <= 255).
    { split.
      - apply Rmult_le_pos; [lra | left; apply Rinv_0_lt_compat; assumption].
      - apply Rmult_le_reg_r with (r := INR c); [assumption|].
        unfold Rdiv. rewrite Rmult_assoc, Rinv_l by lra. lra. }
    apply fraction_range; lra.
  - apply fraction_range; lra.
Qed.

(** *** Dominant colours *)

Lemma channel_sums_range cluster a0 a1 a2 :
  Forall in_gamut cluster ->
  let '(s0, s1, s2) :=
    reduce (fun acc pixel =>
              let '(a0, a1, a2) := acc in
              let '(p0, p1, p2) := pixel in
              (a0 + p0, a1 + p1, a2 + p2))
           (a0, a1, a2) cluster in
  a0 <= s0 <= a0 + 255 * INR (length cluster)
  /\ a1 <= s1 <= a1 + 255 * INR (length cluster)
  /\ a2 <= s2 <= a2 + 255 * INR (length cluster).
Proof.
  intros H. unfold reduce. revert a0 a1 a2.
  induction H as [|[[p0 p1] p2] cluster Hp _ IH]; intros a0 a1 a2.
  - simpl. lra.
  - cbn [fold_left]. specialize (IH (a0 + p0) (a1 + p1) (a2 + p2)).
    destruct (fold_left _ cluster _) as [[s0 s1] s2].
    rewrite length_cons, S_INR. unfold in_gamut in Hp. lra.
Qed.

Lemma kmeans_step_gamut k pixels centroids :
  Forall in_gamut pixels -> Forall in_gamut (kmeans_step k pixels centroids).
Proof.
  intros Hp. unfold kmeans_step. cbv zeta.
  set (clusters := fold_left _ pixels _).
  assert (Hc : Forall (Forall in_gamut) clusters).
  { unfold clusters. apply fold_left_invariant_In.
    - apply Forall_forall. intros c Hin. apply repeat_spec in Hin. subst. constructor.
    - intros cs pixel Hin Hcs. apply update_Forall; [exact Hcs|].
      intros cluster Hcl. apply Forall_app. split; [exact Hcl|].
      constructor; [|constructor]. rewrite Forall_forall in Hp. apply Hp, Hin. }
  clearbody clusters.
  apply Forall_forall. intros c Hin. apply in_map_iff in Hin.
  destruct Hin as (cluster & <- & Hin).
  rewrite Forall_forall in Hc. specialize (Hc cluster Hin).
  destruct cluster as [|p cluster]; [unfold in_gamut; lra|].
  pose proof (channel_sums_range (p :: cluster) 0 0 0 Hc) as Hs.
  destruct (reduce _ (0, 0, 0) (p :: cluster)) as [[s0 s1] s2].
  assert (Hn : 0 < INR (length (p :: cluster))) by (apply lt_0_INR; simpl; lia).
  set (n := INR (length (p :: cluster))) in *.
  destruct Hs as (H0 & H1 & H2).
  assert (A : forall s, 0 <= s <= 0 + 255 * n -> 0 <= s / n <= 255).
  { intros s Hs. split.
    - apply Rmult_le_pos; [lra | left; apply Rinv_0_lt_compat; exact Hn].
    - apply Rmult_le_reg_r with (r := n); [exact Hn|].
      unfold Rdiv. rewrite Rmult_assoc, Rinv_l by lra. lra. }
  unfold in_gamut. auto.
Qed.

Lemma triples_gamut buffer :
  Forall in_gamut
         (map (fun p => let '(r, g, b) := p in (IZR r, IZR g, IZR b))
              (rgb_triples buffer)).
Proof.
  apply Forall_forall. intros c Hin. apply in_map_iff in Hin.
  destruct Hin as ([[r g] b] & <- & Hin).
  pose proof (rgb_triples_range buffer) as H. rewrite Forall_forall in H.
  specialize (H _ Hin). cbv beta iota in H. unfold in_gamut.
  destruct H as ((? & ?) & (? & ?) & (? & ?)).
  repeat split; apply IZR_le; assumption.
Qed.

Lemma dominantColors_of_unit random buffer v :
  dominantColors_of random buffer = Some v -> Forall (fun x => 0 <= x <= 1) v.
Proof.
  unfold dominantColors_of. cbv zeta.
  destruct (initial_centroids _ _ _) as [cs|]; simpl; [|discriminate].
  intros H; injection H as <-.
  unfold for_range. cbn [seq fold_left].
  set (pixels := map _ (rgb_triples buffer)).
  set (before := kmeans_step 5 pixels (kmeans_step 5 pixels (kmeans_step 5 pixels
                   (kmeans_step 5 pixels (kmeans_step 5 pixels (kmeans_step 5 pixels
                     (kmeans_step 5 pixels (kmeans_step 5 pixels
                       (kmeans_step 5 pixels cs))))))))).
  pose proof (kmeans_step_gamut 5 pixels before (triples_gamut buffer)) as Hg.
  apply Forall_forall. intros x Hx. apply in_map_iff in Hx.
  destruct Hx as (c & <- & Hc). apply in_flat_map in Hc.
  destruct Hc as ([[c0 c1] c2] & Hin & Hc).
  rewrite Forall_forall in Hg. specialize (Hg _ Hin). unfold in_gamut in Hg.
  assert (0 <= c <= 255) by (simpl in Hc; intuition (subst; lra)).
  apply fraction_range; lra.
Qed.

(** X14.  Every dominant-colour feature lies in [0, 1], whatever the random
    draws of the k-means initialisation, and also when the extractor falls
    back to its zero vector. *)
Theorem extractDominantColors_unit
        (resample : list byte -> nat -> nat -> nat -> ColorMode -> option (list byte))
        (random : nat -> R) (processedBuffer : list byte) (width height : nat) :
  Forall (fun x => 0 <= x <= 1)
         (extractDominantColors resample random processedBuffer width height).
Proof.
  unfold extractDominantColors, extractDominantColors_try, bind, try_catch.
  destruct (resample processedBuffer width height 32%nat RGB) as [buffer|].
  - destruct (dominantColors_of random buffer) as [v|] eqn:E.
    + apply (dominantColors_of_unit random buffer v E).
    + apply Forall_forall. intros x Hx. apply repeat_spec in Hx. lra.
  - apply Forall_forall. intros x Hx. apply repeat_spec in Hx. lra.
Qed.

(** X15.  [extractFeaturesFromUrl] always returns a vector: the fingerprint
    of 1322 elements when the download and the decoding succeed, and the
    default vector of 1331 elements 0.001 when either of them fails. *)
Theorem extractFeaturesFromUrl_total
        (decode : list byte -> option (list byte))
        (resample : list byte -> nat -> nat -> nat -> ColorMode -> option (list byte))
        (random : nat -> R) (download : string -> option (list byte))
        (imageUrl : string) :
  let result := extractFeaturesFromUrl decode resample random download imageUrl in
  (forall imageBuffer processedBuffer,
      download imageUrl = Some imageBuffer ->
      decode imageBuffer = Some processedBuffer ->
      extractAdvancedFeatures decode resample random imageBuffer = Some result
      /\ length result = 1322%nat)
  /\ (download imageUrl = None
      \/ (exists imageBuffer, download imageUrl = Some imageBuffer
                              /\ decode imageBuffer = None) ->
      result = repeat 0.001 1331).
Proof.
  intros result. unfold result, extractFeaturesFromUrl, bind, try_catch. split.
  - intros imageBuffer processedBuffer Hdl Hd. rewrite Hdl.
    destruct (extractAdvancedFeatures_length decode resample random
                imageBuffer processedBuffer Hd) as (fp & Hfp & Hlen).
    rewrite Hfp. split; [reflexivity | exact Hlen].
  - intros [Hdl | (imageBuffer & Hdl & Hd)]; rewrite Hdl; [reflexivity|].
    unfold extractAdvancedFeatures, bind. rewrite Hd. reflexivity.
Qed.

End PipelineRanges.

(** ** Price buckets, price relevance and the base match *)

Module RankingBounds.
Import JS JSFacts Similarity SimilarityFacts Ranking RankingFacts.

(** X16.  The four price-bucket helpers of the code (image processor,
    upload route, seeding script, pre-save hook of the product model) agree
    on every price, with the boundaries 30, 100 and 300 belonging to the
    upper bucket. *)
Theorem price_buckets_agree (price : R) :
  Strategies.getPriceRange price = getPriceRange price
  /\ Seeding.getPriceRange price = getPriceRange price
  /\ Catalog.presavePriceRange price = getPriceRange price
  /\ (price < 30 -> getPriceRange price = "budget"%string)
  /\ (30 <= price < 100 -> getPriceRange price = "mid-range"%string)
  /\ (100 <= price < 300 -> getPriceRange price = "premium"%string)
  /\ (300 <= price -> getPriceRange price = "luxury"%string).
Proof.
  repeat split; try reflexivity; intros H; unfold getPriceRange.
  - rewrite ltb_true by lra. reflexivity.
  - rewrite ltb_false, ltb_true by lra. reflexivity.
  - rewrite !ltb_false, ltb_true by lra. reflexivity.
  - rewrite !ltb_false by lra. reflexivity.
Qed.

(** X17.  Over a candidate set with a positive average price the price
    relevance lies in [0, 1]; it is 1 exactly at the average price and 0 for
    every price of at least twice the average. *)
Theorem price_relevance_range (productPrice : R) (allProducts : list Product) :
  0 < averagePrice allProducts ->
  0 <= calculatePriceRelevance productPrice allProducts <= 1
  /\ (calculatePriceRelevance productPrice allProducts = 1
      <-> productPrice = averagePrice allProducts)
  /\ (2 * averagePrice allProducts <= productPrice ->
      calculatePriceRelevance productPrice allProducts = 0).
Proof.
  intros Havg. unfold calculatePriceRelevance, Math_max, Math_abs. cbv zeta.
  set (avg := averagePrice allProducts) in *.
  set (d := Rabs (productPrice - avg) / avg).
  assert (Hd : 0 <= d).
  { unfold d. apply Rmult_le_pos; [apply Rabs_pos|].
    left. apply Rinv_0_lt_compat. exact Havg. }
  assert (Hz : d = 0 <-> productPrice = avg).
  { unfold d. split.
    - intros E. unfold Rdiv in E. apply Rmult_integral in E.
      destruct E as [E|E].
      + unfold Rabs in E. destruct (Rcase_abs _); lra.
      + pose proof (Rinv_0_lt_compat avg Havg). lra.
    - intros ->. replace (avg - avg) with 0 by lra.
      rewrite Rabs_R0. unfold Rdiv. apply Rmult_0_l. }
  split.
  { unfold Rmax. destruct (Rle_dec 0 (1 - d)); lra. }
  split.
  { rewrite <- Hz. unfold Rmax. destruct (Rle_dec 0 (1 - d)); lra. }
  intros Hfar.
  assert (1 <= d).
  { unfold d. rewrite Rabs_pos_eq by lra.
    apply Rmult_le_reg_r with (r := avg); [exact Havg|].
    unfold Rdiv. rewrite Rmult_assoc, Rinv_l by lra. lra. }
  unfold Rmax. destruct (Rle_dec 0 (1 - d)); lra.
Qed.

Lemma price_relevance_range_witness :
  0 < averagePrice catalog
  /\ 0 <= calculatePriceRelevance 100 catalog <= 1.
Proof.
  assert (H : 0 < averagePrice catalog) by (rewrite averagePrice_catalog; lra).
  split; [exact H | apply (price_relevance_range 100 catalog H)].
Defined.

Lemma In_firstn {A : Type} (x : A) n l : In x (firstn n l) -> In x l.
Proof.
  intros H. rewrite <- (firstn_skipn n l). apply in_or_app. left; exact H.
Qed.

(** X18.  Every entry that the base match returns is the scored entry of
    one of the candidates, with a score above 0.15 and at most 1, and the
    base match never returns more entries than there are candidates. *)
Theorem base_match_entries (uploadedFeatures : option (list R))
        (candidates : list Product) (limit : nat) (categoryBoost : R) :
  priced candidates ->
  let results :=
    findAdvancedSimilarProducts uploadedFeatures candidates limit categoryBoost in
  Forall (fun m =>
            (exists p, In p candidates
                       /\ m = scoreProduct uploadedFeatures candidates categoryBoost p)
            /\ In (product m) candidates
            /\ 0.15 < similarity m <= 1) results
  /\ (length results <= length candidates)%nat.
Proof.
  intros _ results. unfold results, findAdvancedSimilarProducts. cbv zeta. split.
  - apply Forall_forall. intros m Hm. apply filter_In in Hm.
    destruct Hm as [Hin Hfloor]. apply In_firstn in Hin.
    apply (proj1 (sort_In compareMatches similarity m _)) in Hin.
    apply in_map_iff in Hin.
    destruct Hin as (p & <- & Hp).
    split; [exists p; auto|]. split; [exact Hp|].
    split; [apply ltb_inv; exact Hfloor|].
    unfold scoreProduct. cbn [similarity]. apply Rmin_l.
  - eapply Nat.le_trans; [apply filter_length_le|].
    rewrite length_firstn, sort_length, length_map. apply Nat.le_min_r.
Qed.

Lemma base_match_entries_witness :
  priced catalog
  /\ (length (findAdvancedSimilarProducts blank_features catalog 8 0.1)
      <= length catalog)%nat.
Proof.
  assert (Hp : priced catalog).
  { intros _. rewrite averagePrice_catalog. lra. }
  split; [exact Hp|].
  apply (base_match_entries blank_features catalog 8 0.1 Hp).
Defined.

(** X19.  The search confidence of a result list whose first score is not
    negative lies in [0, 1]. *)
Theorem confidence_range (results : list Match) :
  match results with
  | [] => True
  | first :: _ => 0 <= similarity first
  end ->
  0 <= calculateSearchConfidence results <= 1.
Proof.
  destruct results as [|first rest]; intros H; [simpl; lra|].
  unfold calculateSearchConfidence. cbv zeta.
  set (variance := reduce _ 0 (first :: rest) / INR (length (first :: rest))).
  set (n := INR (length (first :: rest))).
  assert (Hn : 0 <= n) by apply pos_INR.
  unfold Math_min, Math_max.
  assert (H1 : 0 <= Rmin (similarity first * 2) 1 <= 1).
  { unfold Rmin. destruct (Rle_dec _ _); lra. }
  assert (H2 : 0 <= Rmax 0 (1 - variance * 10) <= 1).
  { split; [apply Rmax_l|].
    apply Rmax_lub; [lra|].
    assert (0 <= variance); [|lra].
    unfold variance. apply Rmult_le_pos.
    - pose proof (RankingFacts.sum_squares_loop
                    (reduce (fun sum p => sum + similarity p) 0 (first :: rest)
                     / INR (length (first :: rest))) (first :: rest) 0) as E.
      rewrite E, Rplus_0_l. apply dot_self_nonneg.
    - destruct (Req_dec_T n 0) as [E|E].
      + fold n. rewrite E, Rinv_0. lra.
      + left. apply Rinv_0_lt_compat. fold n. lra. }
  assert (H3 : 0 <= Rmin (n / 10) 1 <= 1).
  { unfold Rmin. destruct (Rle_dec _ _); lra. }
  lra.
Qed.

Lemma confidence_range_witness :
  0 <= similarity price_match
  /\ 0 <= calculateSearchConfidence [price_match] <= 1.
Proof.
  assert (H : 0 <= similarity price_match) by (simpl; lra).
  split; [exact H | apply (confidence_range [price_match] H)].
Defined.

Lemma infer_unread (features : list R) :
  features <> [] ->
  at_index features (Z.of_nat (length features) - 3) = None ->
  inferCategoryFromFeatures (Some features) = Some "Fashion"%string.
Proof.
  intros Hne Hat. unfold inferCategoryFromFeatures.
  assert (Hlen : (length features =? 0)%nat = false).
  { apply Nat.eqb_neq. destruct features; simpl; congruence. }
  rewrite Hlen. cbv zeta. rewrite Hat. cbn [or_zero].
  unfold gtb. rewrite (ltb_false 0.8 0), (ltb_true 0 0.4) by lra.
  reflexivity.
Qed.

(** X20.  [inferCategoryFromFeatures] infers nothing from an absent or an
    empty vector, and 'Fashion' from every vector of one or two elements:
    the brightness read at [length - 3] is [undefined] there and counts
    as 0. *)
Theorem inferCategory_short_vectors :
  inferCategoryFromFeatures None = None
  /\ inferCategoryFromFeatures (Some []) = None
  /\ (forall x, inferCategoryFromFeatures (Some [x]) = Some "Fashion"%string)
  /\ (forall x y, inferCategoryFromFeatures (Some [x; y]) = Some "Fashion"%string).
Proof.
  split; [reflexivity|]. split; [reflexivity|].
  split; intros; apply infer_unread; try discriminate; reflexivity.
Qed.

End RankingBounds.

(** ** The merge of the strategy results *)

Module MergeFacts.
Import JS JSFacts Ranking RankingFacts Provenance.

Lemma insert_perm {A : Type} (compare : A -> A -> R) x l :
  Permutation (insert compare x l) (x :: l).
Proof.
  induction l as [|y l IH]; simpl; [reflexivity|].
  destruct (gtb (compare x y) 0); [|reflexivity].
  rewrite IH. apply perm_swap.
Qed.

Lemma sort_perm {A : Type} (compare : A -> A -> R) l :
  Permutation (sort compare l) l.
Proof.
  induction l as [|x l IH]; simpl; [reflexivity|].
  rewrite insert_perm, IH. reflexivity.
Qed.

Lemma NoDup_snoc {A : Type} (x : A) l : NoDup l -> ~ In x l -> NoDup (l ++ [x]).
Proof.
  intros Hl Hx. apply NoDup_rev in Hl.
  rewrite <- (rev_involutive (l ++ [x])). apply NoDup_rev.
  rewrite rev_app_distr. simpl. constructor; [|exact Hl].
  rewrite <- in_rev. exact Hx.
Qed.

Lemma seen_spec id seenIds :
  existsb (String.eqb id) seenIds = true <-> In id seenIds.
Proof.
  rewrite existsb_exists. split.
  - intros (x & Hin & E). apply String.eqb_eq in E. subst. exact Hin.
  - intros H. exists id. split; [exact H | apply String.eqb_refl].
Qed.

Lemma combineSearchResults_loop searchStrategies :
  combineSearchResults searchStrategies
  = sort bySimilarity (fst (merge_loop searchStrategies)).
Proof.
  unfold combineSearchResults, merge_loop.
  destruct (fold_left _ searchStrategies _) as [allResults seenIds]. reflexivity.
Qed.

Lemma merge_loop_merged searchStrategies :
  merged searchStrategies (merge_loop searchStrategies).
Proof.
  unfold merge_loop.
  apply PipelineRanges.fold_left_invariant_In.
  - simpl. repeat split; try tauto; constructor.
  - intros state st Hst Hstate.
    apply PipelineRanges.fold_left_invariant_In; [exact Hstate|].
    intros [allResults seenIds] p Hp (Hseen & Hnodup & Hprov).
    destruct (existsb (String.eqb (_id (product p))) seenIds) eqn:E.
    + repeat split; auto; apply Hseen.
    + assert (Hnew : ~ In (_id (product p)) (map identity allResults)).
      { intros Hin. apply Hseen, seen_spec in Hin. congruence. }
      cbv zeta. unfold merged. rewrite map_app. cbn [map identity product].
      split; [|split].
      * intros id. rewrite in_app_iff. simpl. rewrite Hseen. tauto.
      * apply NoDup_snoc; assumption.
      * apply Forall_app. split; [exact Hprov|].
        constructor; [|constructor].
        exists st, p. repeat split; auto.
Qed.

Lemma strategyWeight_range name : 0.5 <= strategyWeight name <= 1.
Proof.
  unfold strategyWeight, strategyWeights. cbn [lookup].
  repeat match goal with
         | |- context [if ?c then _ else _] => destruct c
         end; try rewrite PipelineFacts.or_default_nonzero by lra; lra.
Qed.

(** X21.  The merged list, and its first twelve entries that the route
    returns, hold every product identity at most once. *)
Theorem merged_identities_unique (searchStrategies : list Strategy) :
  NoDup (map identity (combineSearchResults searchStrategies))
  /\ NoDup (map identity (topResults searchStrategies)).
Proof.
  assert (H : NoDup (map identity (combineSearchResults searchStrategies))).
  { rewrite combineSearchResults_loop.
    pose proof (merge_loop_merged searchStrategies) as Hm.
    destruct (merge_loop searchStrategies) as [allResults seenIds].
    destruct Hm as (_ & Hnodup & _). cbn [fst].
    eapply Permutation_NoDup; [|exact Hnodup].
    apply Permutation_map. symmetry. apply sort_perm. }
  split; [exact H|].
  unfold topResults. rewrite <- firstn_map.
  rewrite <- (firstn_skipn 12 (map identity (combineSearchResults searchStrategies))) in H.
  apply NoDup_app_remove_r in H. exact H.
Qed.

(** X22.  Every merged entry was made from an entry of one of the
    strategies: it carries that strategy's name and the original score, and
    its score is the original score times the strategy weight, a weight
    between 0.5 and 1, so a score that is not negative is never raised. *)
Theorem merged_entries_provenance (searchStrategies : list Strategy) :
  Forall (fun m =>
            exists st p,
              In st searchStrategies /\ In p (products st) /\ made_from m st p
              /\ 0.5 <= strategyWeight (name st) <= 1
              /\ (0 <= similarity p -> similarity m <= similarity p))
         (combineSearchResults searchStrategies).
Proof.
  rewrite combineSearchResults_loop.
  pose proof (merge_loop_merged searchStrategies) as Hm.
  destruct (merge_loop searchStrategies) as [allResults seenIds].
  destruct Hm as (_ & _ & Hprov). cbn [fst].
  apply Forall_forall. intros m Hin.
  apply (proj1 (sort_In bySimilarity similarity m _)) in Hin.
  rewrite Forall_forall in Hprov. destruct (Hprov m Hin) as (st & p & Hst & Hp & Hmade).
  pose proof (strategyWeight_range (name st)) as Hw.
  exists st, p. split; [exact Hst|]. split; [exact Hp|]. split; [exact Hmade|].
  split; [exact Hw|].
  intros Hpos. destruct Hmade as (_ & _ & _ & E). rewrite E.
  rewrite <- (Rmult_1_r (similarity p)) at 2.
  apply Rmult_le_compat_l; [exact Hpos | apply Hw].
Qed.

Lemma fold_left_reaches {A B : Type} (Q : B -> A -> Prop) (f : A -> B -> A) l a :
  (forall a x, Q x (f a x)) ->
  (forall a x y, Q x a -> Q x (f a y)) ->
  forall x, In x l -> Q x (fold_left f l a).
Proof.
  intros Hnew Hkeep. revert a; induction l as [|y l IH]; intros a x Hin;
    [contradiction|].
  destruct Hin as [E|Hin]; simpl.
  - subst y. apply PipelineRanges.fold_left_invariant; auto.
  - apply IH; exact Hin.
Qed.

Lemma merge_loop_reaches searchStrategies st p :
  In st searchStrategies -> In p (products st) ->
  In (identity p) (snd (merge_loop searchStrategies)).
Proof.
  intros Hst Hp. unfold merge_loop.
  revert p Hp.
  refine (fold_left_reaches
            (fun st state => forall p, In p (products st) -> In (identity p) (snd state))
            _ _ _ _ _ st Hst); clear.
  - intros state st p Hp.
    refine (fold_left_reaches (fun p state => In (identity p) (snd state))
              _ _ _ _ _ p Hp); clear.
    + intros [allResults seenIds] p.
      destruct (existsb (String.eqb (_id (product p))) seenIds) eqn:E.
      * apply seen_spec in E. exact E.
      * left. reflexivity.
    + intros [allResults seenIds] p q Hin.
      destruct (existsb (String.eqb (_id (product q))) seenIds); [exact Hin|].
      right. exact Hin.
  - intros state st st' H p Hp.
    apply PipelineRanges.fold_left_invariant; [exact (H p Hp)|].
    intros [allResults seenIds] q Hin.
    destruct (existsb (String.eqb (_id (product q))) seenIds); [exact Hin|].
    right. exact Hin.
Qed.

(** X23.  No product is lost by the merge: the identity of every entry of
    every strategy is the identity of an entry of the merged list. *)
Theorem merged_identities_complete (searchStrategies : list Strategy)
        (st : Strategy) (p : Match) :
  In st searchStrategies -> In p (products st) ->
  In (identity p) (map identity (combineSearchResults searchStrategies)).
Proof.
  intros Hst Hp.
  pose proof (merge_loop_reaches searchStrategies st p Hst Hp) as Hin.
  rewrite combineSearchResults_loop.
  pose proof (merge_loop_merged searchStrategies) as Hm.
  destruct (merge_loop searchStrategies) as [allResults seenIds].
  destruct Hm as (Hseen & _ & _). cbn [fst snd] in *.
  apply Hseen in Hin.
  eapply Permutation_in; [|exact Hin].
  apply Permutation_map. symmetry. apply sort_perm.
Qed.

Lemma merged_identities_complete_witness :
  In (identity price_match)
     (map identity (combineSearchResults price_only)).
Proof.
  apply (merged_identities_complete price_only
           {| name := "Price-Range Similar"; products := [price_match] |} price_match);
    simpl; auto.
Defined.

End MergeFacts.

(** ** The similarity search of the product model *)

Module CatalogFacts.
Import JS JSFacts Ranking Catalog.


End CatalogFacts.

(** ** The price-aware strategy *)

Module StrategyFacts.
Import JS JSFacts Similarity Ranking RankingFacts Strategies.

Lemma base_match_members q candidates limit boost m :
  In m (findAdvancedSimilarProducts q candidates limit boost) ->
  In (product m) candidates.
Proof.
  unfold findAdvancedSimilarProducts. intros Hm.
  apply filter_In in Hm. destruct Hm as [Hin _].
  apply RankingBounds.In_firstn in Hin.
  apply (proj1 (sort_In compareMatches similarity m _)) in Hin.
  apply in_map_iff in Hin. destruct Hin as (p & E & Hp). subst m. exact Hp.
Qed.

Lemma inPriceWindow_inv avgPrice product :
  inPriceWindow avgPrice product = true ->
  Strategies.getPriceRange (price product) = Strategies.getPriceRange avgPrice
  \/ Rabs (price product - avgPrice) / avgPrice < 0.5.
Proof.
  unfold inPriceWindow, Math_abs. intros H. apply orb_true_iff in H.
  destruct H as [H|H].
  - left. apply String.eqb_eq. exact H.
  - right. apply ltb_inv. exact H.
Qed.

(** X26.  Where the average price of the five most similar products is not
    0, and neither is the average price of the products that pass the price
    filter, every entry of the price-aware strategy is a product of the
    catalogue that lies in the price bucket of the first average or within
    half of that average from it; it scores above 0.15 and is marked
    "price-aware" with that bucket.  The strategy returns at most [limit]
    entries, and none for an empty catalogue. *)
Theorem price_aware_entries (uploadedFeatures : option (list R))
        (products : list Product) (limit : nat) :
  topAveragePrice uploadedFeatures products <> 0 ->
  priced (filter (inPriceWindow (topAveragePrice uploadedFeatures products)) products) ->
  let avgPrice := topAveragePrice uploadedFeatures products in
  let results := findPriceAwareSimilarProducts uploadedFeatures products limit in
  Forall (fun e =>
            matchType e = "price-aware"%string
            /\ inferredPriceRange e = Strategies.getPriceRange avgPrice
            /\ In (product (entry e)) products
            /\ (Strategies.getPriceRange (price (product (entry e)))
                = Strategies.getPriceRange avgPrice
                \/ Rabs (price (product (entry e)) - avgPrice) / avgPrice < 0.5)
            /\ 0.15 < similarity (entry e)) results
  /\ (length results <= limit)%nat
  /\ (products = [] -> results = []).
Proof.
  intros _ _ avgPrice results. unfold results, findPriceAwareSimilarProducts.
  split; [|split].
  - destruct (topSimilar uploadedFeatures products); [constructor|].
    cbv zeta. fold avgPrice. apply Forall_forall. intros e He.
    apply in_map_iff in He. destruct He as (m & E & Hm). subst e.
    cbn [matchType inferredPriceRange entry].
    split; [reflexivity|]. split; [reflexivity|].
    pose proof (base_match_members _ _ _ _ _ Hm) as Hin.
    apply filter_In in Hin. destruct Hin as [Hin Hwin].
    split; [exact Hin|]. split; [apply inPriceWindow_inv; exact Hwin|].
    pose proof (base_match_floor uploadedFeatures
                  (filter (inPriceWindow avgPrice) products) limit 0.1) as Hfloor.
    rewrite Forall_forall in Hfloor. apply Hfloor. exact Hm.
  - destruct (topSimilar uploadedFeatures products); [simpl; lia|].
    cbv zeta. rewrite length_map. apply base_match_limit.
  - intros E. subst products. reflexivity.
Qed.

Lemma lone_average (uploadedFeatures : option (list R)) (product : Product) :
  topAveragePrice uploadedFeatures [product] = price product.
Proof.
  unfold topAveragePrice, topSimilar, sort, reduce.
  cbn [map fold_right insert firstn fold_left length fst]. simpl INR. lra.
Qed.

Lemma lone_lamp_score :
  similarity (scoreProduct blank_features [lamp] 0.1 lamp) = 0.35.
Proof.
  assert (Hrel : calculatePriceRelevance 100 [lamp] = 1).
  { unfold calculatePriceRelevance, averagePrice, reduce, Math_max, Math_abs.
    cbn [map fold_left length price lamp]. simpl INR.
    replace ((0 + 100) / 1) with 100 by lra.
    replace (100 - 100) with 0 by lra. rewrite Rabs_R0.
    rewrite Rmax_right by lra. lra. }
  unfold scoreProduct. cbv zeta. cbn [similarity].
  rewrite infer_blank. unfold boosted.
  cbn [category colorFeatures price lamp].
  change (toLowerCase "Home" =? toLowerCase "Fashion")%string with false.
  cbv iota. rewrite blank_score, Hrel. unfold Math_min.
  rewrite Rmin_right by lra. lra.
Qed.

(** The price-aware strategy of the blank query over the lamp alone: the
    lamp, with score 0.35. *)
Lemma price_aware_lone_lamp :
  findPriceAwareSimilarProducts blank_features [lamp] 4
  = [ {| entry := scoreProduct blank_features [lamp] 0.1 lamp;
         matchType := "price-aware";
         inferredPriceRange := "premium" |} ].
Proof.
  unfold findPriceAwareSimilarProducts.
  assert (Htop : topSimilar blank_features [lamp]
                 = [(lamp, calculateAdvancedSimilarity blank_features
                             (colorFeatures lamp))]) by reflexivity.
  rewrite Htop. cbv zeta. rewrite lone_average.
  assert (Hwindow : filter (inPriceWindow (price lamp)) [lamp] = [lamp]).
  { cbn [filter]. unfold inPriceWindow. rewrite String.eqb_refl. reflexivity. }
  rewrite Hwindow.
  assert (Hbucket : Strategies.getPriceRange (price lamp) = "premium"%string).
  { unfold Strategies.getPriceRange. cbn [price lamp].
    rewrite (ltb_false 100 30), (ltb_false 100 100), (ltb_true 100 300) by lra.
    reflexivity. }
  rewrite Hbucket.
  unfold findAdvancedSimilarProducts, sort.
  cbn [map fold_right insert firstn filter]. unfold gtb.
  rewrite ltb_true by (rewrite lone_lamp_score; lra).
  reflexivity.
Qed.

Lemma price_aware_entries_witness :
  let avgPrice := topAveragePrice blank_features [lamp] in
  let results := findPriceAwareSimilarProducts blank_features [lamp] 4 in
  length results = 1%nat
  /\ Forall (fun e =>
               matchType e = "price-aware"%string
               /\ inferredPriceRange e = Strategies.getPriceRange avgPrice
               /\ In (product (entry e)) [lamp]
               /\ (Strategies.getPriceRange (price (product (entry e)))
                   = Strategies.getPriceRange avgPrice
                   \/ Rabs (price (product (entry e)) - avgPrice) / avgPrice < 0.5)
               /\ 0.15 < similarity (entry e)) results
  /\ (length results <= 4)%nat
  /\ ([lamp] = [] -> results = []).
Proof.
  split; [rewrite price_aware_lone_lamp; reflexivity|].
  apply (price_aware_entries blank_features [lamp] 4).
  - rewrite lone_average. cbn [price lamp]. lra.
  - rewrite lone_average. unfold inPriceWindow. cbn [filter].
    rewrite String.eqb_refl. cbn [orb].
    intros _. unfold averagePrice, reduce.
    cbn [map fold_left length price lamp]. simpl INR. lra.
Defined.

End StrategyFacts.

(** ** The seeding script *)

Module SeedingFacts.
Import JS JSFacts Pipeline PipelineFacts Seeding.

Lemma slice_app_l {A : Type} (l1 l2 : list A) start finish :
  (finish <= length l1)%nat ->
  slice (l1 ++ l2) start finish = slice l1 start finish.
Proof.
  intros H. unfold slice. rewrite skipn_app, firstn_app, length_skipn.
  replace (finish - start - (length l1 - start))%nat with 0%nat by lia.
  rewrite firstn_O, app_nil_r. reflexivity.
Qed.

Lemma floor_of_share (n : Z) (x : R) : IZR n <= x < IZR n + 1 -> Math_floor x = n.
Proof. intros H. unfold Math_floor. apply Zfloor_eq. exact H. Qed.

(** X27.  The seeding script cuts a fingerprint of the pipeline by shares
    of its length, 396, 198 and 198 entries followed by 7, 15, 3 and 1, so
    all seven stored components are consecutive pieces of the first 818
    entries: they are pieces of the weighted colour histogram, and the
    edge, texture, shape, dominant-colour, brightness and contrast entries
    of the fingerprint are not stored. *)
Theorem seeding_reads_colour_histogram
        (ch ef tf sf dc br ct : list R) :
  length ch = 1024%nat -> length ef = 16%nat -> length tf = 256%nat ->
  length sf = 7%nat -> length dc = 15%nat -> length br = 3%nat ->
  length ct = 1%nat ->
  let weighted := map (fun val => val * 0.3) ch in
  decompose (layout ch ef tf sf dc br ct)
  = {| colorHistogram := slice weighted 0 396;
       edgeFeatures := slice weighted 396 594;
       textureFeatures := slice weighted 594 792;
       shapeFeatures := slice weighted 792 799;
       dominantColors := slice weighted 799 814;
       brightnessFeatures := slice weighted 814 817;
       contrastFeatures := slice weighted 817 818 |}.
Proof.
  intros Hch Hef Htf Hsf Hdc Hbr Hct weighted.
  assert (HL : INR (length (layout ch ef tf sf dc br ct)) = 1322).
  { rewrite layout_length, Hch, Hef, Htf, Hsf, Hdc, Hbr, Hct.
    rewrite INR_IZR_INZ. reflexivity. }
  unfold decompose. cbv zeta. rewrite HL.
  rewrite (floor_of_share 396) by lra.
  rewrite (floor_of_share 198) by lra.
  assert (Hw : length weighted = 1024%nat)
    by (unfold weighted; rewrite length_map; exact Hch).
  unfold layout. fold weighted.
  rewrite !slice_app_l by (rewrite Hw; vm_compute; lia).
  reflexivity.
Qed.

Lemma seeding_reads_colour_histogram_witness :
  let weighted := map (fun val => val * 0.3) (repeat 0 1024) in
  decompose (layout (repeat 0 1024) (repeat 0 16) (repeat 0 256) (repeat 0 7)
                    (repeat 0 15) (repeat 0 3) (repeat 0 1))
  = {| colorHistogram := slice weighted 0 396;
       edgeFeatures := slice weighted 396 594;
       textureFeatures := slice weighted 594 792;
       shapeFeatures := slice weighted 792 799;
       dominantColors := slice weighted 799 814;
       brightnessFeatures := slice weighted 814 817;
       contrastFeatures := slice weighted 817 818 |}.
Proof.
  apply (seeding_reads_colour_histogram (repeat 0 1024) (repeat 0 16) (repeat 0 256)
           (repeat 0 7) (repeat 0 15) (repeat 0 3) (repeat 0 1));
    apply repeat_length.
Defined.

(** X28.  The category confidence of the seeding script lies between 0.5
    and 0.8, whatever the category and the stored features: its cap at 1
    never acts. *)
Theorem inferCategoryConfidence_range (actualCategory : string)
        (visualFeatures : VisualFeatures) :
  0.5 <= inferCategoryConfidence actualCategory visualFeatures <= 0.8.
Proof.
  unfold inferCategoryConfidence, Math_min. cbv zeta.
  repeat match goal with
         | |- context [if ?c then _ else _] => destruct c
         end;
    unfold Rmin; destruct (Rle_dec _ _); lra.
Qed.

Lemma push_new_fold (nameOf : nat -> string) (indices : list nat) (colorNames : list string) :
  NoDup colorNames ->
  let result :=
    fold_left (fun colorNames i =>
                 if truthy (nameOf i) && negb (existsb (String.eqb (nameOf i)) colorNames)
                 then colorNames ++ [nameOf i]
                 else colorNames)
              indices colorNames in
  NoDup result /\ (length result <= length colorNames + length indices)%nat.
Proof.
  revert colorNames. induction indices as [|i indices IH]; intros colorNames Hnd.
  - simpl. split; [exact Hnd | lia].
  - cbn [fold_left].
    destruct (truthy (nameOf i) && negb (existsb (String.eqb (nameOf i)) colorNames))
      eqn:E.
    + apply andb_true_iff in E. destruct E as [_ E]. apply negb_true_iff in E.
      assert (Hnew : ~ In (nameOf i) colorNames).
      { intros Hin. apply MergeFacts.seen_spec in Hin. congruence. }
      destruct (IH (colorNames ++ [nameOf i]) (MergeFacts.NoDup_snoc _ _ Hnd Hnew))
        as [H1 H2].
      split; [exact H1|]. rewrite length_app in H2. simpl in *. lia.
    + destruct (IH colorNames Hnd) as [H1 H2].
      split; [exact H1|]. simpl. lia.
Qed.

(** The name of the colour that starts at index [i]. *)
Lemma extractColorNames_loop values :
  extractColorNames (Some values)
  = if (length values <? 15)%nat then ["unknown"%string]
    else
      match
        fold_left (fun colorNames i =>
                     if truthy (getColorName (get values i * 255)
                                             (get values (i + 1) * 255)
                                             (get values (i + 2) * 255))
                        && negb (existsb
                                   (String.eqb
                                      (getColorName (get values i * 255)
                                                    (get values (i + 1) * 255)
                                                    (get values (i + 2) * 255)))
                                   colorNames)
                     then colorNames
                          ++ [getColorName (get values i * 255)
                                           (get values (i + 1) * 255)
                                           (get values (i + 2) * 255)]
                     else colorNames)
                  [0; 3; 6; 9; 12]%nat []
      with
      | [] => ["mixed"%string]
      | name :: names => name :: names
      end.
Proof.
  unfold extractColorNames. destruct (length values <? 15)%nat; [reflexivity|].
  cbv zeta. destruct (fold_left _ _ _); reflexivity.
Qed.

(** X29.  The colour names of a product are never an empty list, name no
    colour twice and are at most five; without fifteen dominant-colour
    values they are the single name "unknown". *)
Theorem extractColorNames_shape (dominantColors : option (list R)) :
  let names := extractColorNames dominantColors in
  names <> []
  /\ NoDup names
  /\ (length names <= 5)%nat
  /\ (match dominantColors with
      | None => True
      | Some values => (length values < 15)%nat
      end -> names = ["unknown"%string]).
Proof.
  cbv zeta.
  assert (Hone : forall s : string, [s] <> [] /\ NoDup [s] /\ (length [s] <= 5)%nat).
  { intros s. split; [discriminate|]. split; [|simpl; lia].
    constructor; [simpl; tauto | constructor]. }
  destruct dominantColors as [values|].
  - rewrite extractColorNames_loop.
    destruct (length values <? 15)%nat eqn:E.
    + destruct (Hone "unknown"%string) as (H1 & H2 & H3). repeat split; auto.
    + apply Nat.ltb_ge in E.
      pose proof (push_new_fold
                  (fun i => getColorName (get values i * 255) (get values (i + 1) * 255)
                                         (get values (i + 2) * 255))
                  [0; 3; 6; 9; 12]%nat [] (NoDup_nil _)) as H.
      cbv beta zeta in H. destruct H as [Hnd Hlen].
      destruct (fold_left _ _ _) as [|name names].
      * destruct (Hone "mixed"%string) as (H1 & H2 & H3). repeat split; auto.
        intros Hshort. lia.
      * split; [discriminate|]. split; [exact Hnd|]. split; [exact Hlen|].
        intros Hshort. lia.
  - destruct (Hone "unknown"%string) as (H1 & H2 & H3). repeat split; auto.
Qed.

Lemma gtb_inv a b : gtb a b = true -> b < a.
Proof. unfold gtb. apply ltb_inv. Qed.

Lemma gtb_inv_false a b : gtb a b = false -> a <= b.
Proof. unfold gtb. apply ltb_inv_false. Qed.

(** X30.  The name "brown" is given only in a sliver of the colour cube:
    red strictly between 139 and 140, green strictly between 89 and 90 and
    blue between 19 and 40; no whole number is such a red or green value.
    Everywhere else in the range that the test for "brown" writes, the
    earlier test for "red" answers first. *)
Theorem brown_only_in_a_sliver (r g b : R) :
  getColorName r g b = "brown"%string ->
  139 < r < 140 /\ 89 < g < 90 /\ 19 < b < 40.
Proof.
  unfold getColorName. cbv zeta.
  repeat match goal with
         | |- context [if ?c then _ else _] =>
             let E := fresh "E" in destruct c eqn:E; [discriminate|]
         end.
  destruct (gtb r 139 && gtb g 69 && gtb b 19 && ltb r 160 && ltb g 90 && ltb b 40)
    eqn:Ebrown; [intros _ | discriminate].
  repeat match goal with
         | H : _ && _ = true |- _ => apply andb_true_iff in H; destruct H
         end.
  repeat match goal with
         | H : gtb _ _ = true |- _ => apply gtb_inv in H
         | H : ltb _ _ = true |- _ => apply ltb_inv in H
         end.
  match goal with
  | Ered : gtb r (g + 50) && gtb r (b + 50) = false |- _ =>
      apply andb_false_iff in Ered; destruct Ered as [Ered|Ered];
        apply gtb_inv_false in Ered
  end; lra.
Qed.

Lemma brown_only_in_a_sliver_witness :
  139 < 139.5 < 140 /\ 89 < 89.75 < 90 /\ 19 < 30 < 40.
Proof.
  apply (brown_only_in_a_sliver 139.5 89.75 30).
  unfold getColorName, gtb. cbv zeta.
  repeat first
    [ match goal with
      | |- context [ltb ?a ?b] =>
          first [ rewrite (ltb_true a b) by lra | rewrite (ltb_false a b) by lra ]
      end
    | progress cbn [andb orb] ].
  reflexivity.
Defined.

End SeedingFacts.
